(** * go-stream: session registry, subtitle matcher and SRT->VTT converter

    A shallow embedding of [torrent.go], [subtitle.go] and the subtitle
    handlers of [handlers.go], with the properties of the specification
    proved (or refuted) against it.

    Conventions
    - Go [string] and [[]byte] values are byte sequences: both are [string]
      (a list of [ascii], one per byte).
    - Go [int] / [int64] values are [Z]; slice positions are [nat].
    - [time.Now()] is an explicit argument [now : Z] of every operation.
    - The torrent engine (anacrolix/torrent) is outside the repository: a
      handle [Torrent] carries what the engine would answer (files, their
      priorities, and what a full read of each file returns). *)

From Stdlib Require Import ZArith NArith Ascii String List Bool Lia.
From stdpp Require Import base option list gmap strings fin_maps relations sorting.

Local Open Scope Z_scope.

(* ===================================================================== *)
(** ** Go standard library: package [strings] (the functions called)   *)
(* ===================================================================== *)

Definition LF : ascii := "010"%char.
Definition CR : ascii := "013"%char.

(** [s1 == s2] on Go strings. *)
Definition streq (s1 s2 : string) : bool := String.eqb s1 s2.

(** [strings.HasPrefix(s, prefix)]. *)
Fixpoint HasPrefix (s prefix : string) {struct prefix} : bool :=
  match prefix, s with
  | EmptyString, _ => true
  | String p ps, String c cs => Ascii.eqb c p && HasPrefix cs ps
  | String _ _, EmptyString => false
  end.

(** [strings.HasSuffix(s, suffix)]. *)
Definition HasSuffix (s suffix : string) : bool :=
  HasPrefix (String.rev s) (String.rev suffix).

(** [s[n:]] for [n <= len(s)]. *)
Fixpoint sliceFrom (n : nat) (s : string) : string :=
  match n, s with
  | O, _ => s
  | S k, String _ r => sliceFrom k r
  | S _, EmptyString => EmptyString
  end.

(** [s[:n]] for [n <= len(s)]. *)
Fixpoint sliceTo (n : nat) (s : string) : string :=
  match n, s with
  | O, _ => EmptyString
  | S k, String c r => String c (sliceTo k r)
  | S _, EmptyString => EmptyString
  end.

(** [strings.TrimPrefix] / [bytes.TrimPrefix]. *)
Definition TrimPrefix (s prefix : string) : string :=
  if HasPrefix s prefix then sliceFrom (String.length prefix) s else s.

(** [strings.TrimSuffix]. *)
Definition TrimSuffix (s suffix : string) : string :=
  if HasSuffix s suffix
  then sliceTo (String.length s - String.length suffix)%nat s
  else s.

(** [strings.Contains(s, substr)]. *)
Fixpoint Contains (s substr : string) : bool :=
  HasPrefix s substr ||
  match s with
  | EmptyString => false
  | String _ r => Contains r substr
  end.

(** [strings.ReplaceAll(s, old, new)] for a non-empty [old] (the only call
    in the source passes a one-byte [old]): occurrences are replaced left to
    right without overlap. [skip] counts the bytes of a matched [old] still
    to be passed over. *)
Fixpoint replaceFrom (skip : nat) (s old new : string) : string :=
  match s with
  | EmptyString => EmptyString
  | String c r =>
      match skip with
      | S k => replaceFrom k r old new
      | O =>
          if HasPrefix s old
          then new +:+ replaceFrom (String.length old - 1)%nat r old new
          else String c (replaceFrom O r old new)
      end
  end.

Definition ReplaceAll (s old new : string) : string := replaceFrom O s old new.

(** A byte, and a byte string, from their numeric values. *)
Definition byteOf (n : nat) : ascii := ascii_of_nat n.

Definition bytesOf (l : list nat) : string :=
  fold_right (fun n s => String (byteOf n) s) EmptyString l.

(** The byte sequences that decode to a rune with [unicode.IsSpace]:
    the six ASCII ones, U+0085, U+00A0, U+1680, U+2000..U+200A, U+2028,
    U+2029, U+202F, U+205F and U+3000 in UTF-8. *)
Definition spaceRunes : list string :=
  map bytesOf
    [ [9]; [10]; [11]; [12]; [13]; [32];
      [194; 133]; [194; 160]; [225; 154; 128];
      [226; 128; 128]; [226; 128; 129]; [226; 128; 130]; [226; 128; 131];
      [226; 128; 132]; [226; 128; 133]; [226; 128; 134]; [226; 128; 135];
      [226; 128; 136]; [226; 128; 137]; [226; 128; 138];
      [226; 128; 168]; [226; 128; 169]; [226; 128; 175];
      [226; 129; 159]; [227; 128; 128] ]%nat.

(** Removes one leading white-space rune, if there is one. *)
Fixpoint stripOneOf (runes : list string) (s : string) : option string :=
  match runes with
  | [] => None
  | r :: rs =>
      if HasPrefix s r then Some (sliceFrom (String.length r) s)
      else stripOneOf rs s
  end.

(** [strings.TrimLeftFunc(s, unicode.IsSpace)]; [fuel] bounds the number of
    runes removed and [String.length s] is always enough. *)
Fixpoint trimLeftSpace (fuel : nat) (s : string) : string :=
  match fuel with
  | O => s
  | S k =>
      match stripOneOf spaceRunes s with
      | Some r => trimLeftSpace k r
      | None => s
      end
  end.

(** The same from the right end: the reversed string is stripped of the
    reversed encodings (a white-space encoding at the end of the string
    always decodes as that rune in [utf8.DecodeLastRuneInString]). *)
Fixpoint trimRightSpaceRev (fuel : nat) (r : string) : string :=
  match fuel with
  | O => r
  | S k =>
      match stripOneOf (map String.rev spaceRunes) r with
      | Some r' => trimRightSpaceRev k r'
      | None => r
      end
  end.

(** [strings.TrimSpace(s)]. *)
Definition TrimSpace (s : string) : string :=
  let l := trimLeftSpace (String.length s) s in
  String.rev (trimRightSpaceRev (String.length l) (String.rev l)).

(** ASCII letters 'A'..'Z' to lower case. *)
Definition lowerByte (c : ascii) : ascii :=
  let n := nat_of_ascii c in
  if (65 <=? n)%nat && (n <=? 90)%nat then ascii_of_nat (n + 32) else c.

(** [strings.ToLower(s)], as far as the source observes it: the result is
    only ever compared with (or looked up among) ASCII extensions. ASCII
    capitals are lowered; the two non-ASCII runes whose lower case is ASCII,
    U+212A (Kelvin sign, to k) and U+0130 (dotted capital I, to i), are
    mapped; every other non-ASCII byte is kept, which leaves the result
    non-ASCII exactly when Go's result is non-ASCII. *)
Fixpoint lowerFrom (skip : nat) (s : string) : string :=
  match s with
  | EmptyString => EmptyString
  | String c r =>
      match skip with
      | S k => lowerFrom k r
      | O =>
          if HasPrefix s (bytesOf [226; 132; 170]%nat)
          then String "k"%char (lowerFrom 2 r)
          else if HasPrefix s (bytesOf [196; 176]%nat)
          then String "i"%char (lowerFrom 1 r)
          else String (lowerByte c) (lowerFrom O r)
      end
  end.

Definition ToLower (s : string) : string := lowerFrom O s.

(* ===================================================================== *)
(** ** Go standard library: package [path/filepath] (Unix separator)    *)
(* ===================================================================== *)

Definition isSep (c : ascii) : bool := Ascii.eqb c "/"%char.

(** [filepath.Ext]: the loop runs from the last byte towards the first and
    stops at a separator; [r] is the part of the path not yet visited,
    reversed, and [acc] the bytes already passed. *)
Fixpoint extLoop (r acc : string) : string :=
  match r with
  | EmptyString => EmptyString
  | String c r' =>
      if isSep c then EmptyString
      else if Ascii.eqb c "."%char then String c acc
      else extLoop r' (String c acc)
  end.

Definition Ext (path : string) : string := extLoop (String.rev path) EmptyString.

(** Drops the separators at the head of a (reversed) path. *)
Fixpoint dropSeps (r : string) : string :=
  match r with
  | String c r' => if isSep c then dropSeps r' else r
  | EmptyString => EmptyString
  end.

(** The bytes before the first separator, put back in order. *)
Fixpoint lastElem (r acc : string) : string :=
  match r with
  | String c r' => if isSep c then acc else lastElem r' (String c acc)
  | EmptyString => acc
  end.

(** [filepath.Base]. *)
Definition Base (path : string) : string :=
  match path with
  | EmptyString => "."
  | _ =>
      let e := lastElem (dropSeps (String.rev path)) EmptyString in
      match e with
      | EmptyString => "/"
      | _ => e
      end
  end.

(** Splits a path at its separators. *)
Fixpoint splitSep (s cur : string) : list string :=
  match s with
  | EmptyString => [String.rev cur]
  | String c r =>
      if isSep c then String.rev cur :: splitSep r EmptyString
      else splitSep r (String c cur)
  end.

(** One element of [filepath.Clean]'s loop. [out] is the stack of elements
    written so far, last first: it is a run of ".." elements (the prefix
    that [dotdot] protects) below real elements. *)
Definition cleanElem (rooted : bool) (out : list string) (e : string) : list string :=
  if streq e EmptyString || streq e "." then out
  else if streq e ".." then
    match out with
    | top :: below =>
        if streq top ".." then e :: out else below
    | [] => if rooted then out else [e]
    end
  else e :: out.

Fixpoint joinSep (l : list string) : string :=
  match l with
  | [] => EmptyString
  | [e] => e
  | e :: rest => e +:+ "/" +:+ joinSep rest
  end.

(** [filepath.Clean]. *)
Definition Clean (path : string) : string :=
  match path with
  | EmptyString => "."
  | String c _ =>
      let rooted := isSep c in
      let out := fold_left (cleanElem rooted) (splitSep path EmptyString) [] in
      let body := joinSep (rev out) in
      if rooted then String "/"%char body
      else match body with
           | EmptyString => "."
           | _ => body
           end
  end.

(** Everything up to and including the last separator, from the reversed
    path. *)
Fixpoint dirPart (r : string) : string :=
  match r with
  | String c r' => if isSep c then String.rev r else dirPart r'
  | EmptyString => EmptyString
  end.

(** [filepath.Dir]. *)
Definition Dir (path : string) : string := Clean (dirPart (String.rev path)).

(** [stripExt] of torrent.go. *)
Definition stripExt (name : string) : string := TrimSuffix name (Ext name).

(* ===================================================================== *)
(** ** Go standard library: [bufio.Scanner] with [bufio.ScanLines]      *)
(* ===================================================================== *)

(** [bufio.MaxScanTokenSize]: the scanner's buffer never grows above it. *)
Definition MaxScanTokenSize : N := 65536%N.

(** [dropCR]: a line loses one trailing carriage return. *)
Definition dropCR (rline : string) : string :=
  match rline with
  | String c r => if Ascii.eqb c CR then String.rev r else String.rev rline
  | EmptyString => EmptyString
  end.

(** The tokens that successive [scanner.Scan()] calls deliver. [cur] is the
    current line so far, reversed. A line that fills the whole buffer
    before its end is seen makes [Scan] return false (ErrTooLong): the loop
    of the caller ends there. A last line without newline is a token unless
    it is empty. *)
Fixpoint scanTokens (s cur : string) : list string :=
  match s with
  | EmptyString =>
      match cur with
      | EmptyString => []
      | _ =>
          if (MaxScanTokenSize <=? N.of_nat (String.length cur))%N then []
          else [dropCR cur]
      end
  | String c r =>
      if Ascii.eqb c LF then
        if (MaxScanTokenSize <=? N.of_nat (String.length cur))%N then []
        else dropCR cur :: scanTokens r EmptyString
      else scanTokens r (String c cur)
  end.

Definition scanLines (data : string) : list string := scanTokens data EmptyString.

(* ===================================================================== *)
(** ** subtitle.go                                                       *)
(* ===================================================================== *)

Definition BOM : string := bytesOf [239; 187; 191]%nat.

Definition isDigit (c : ascii) : bool :=
  let n := nat_of_ascii c in (48 <=? n)%nat && (n <=? 57)%nat.

Fixpoint allDigits (s : string) : bool :=
  match s with
  | EmptyString => true
  | String c r => isDigit c && allDigits r
  end.

(** [isDigitsOnly]: a byte outside '0'..'9' belongs to a rune outside that
    range, so ranging over runes and over bytes agree. *)
Definition isDigitsOnly (s : string) : bool :=
  match s with
  | EmptyString => false
  | _ => allDigits s
  end.

Definition nl : string := String LF EmptyString.

(** The body of the [for scanner.Scan()] loop of [ConvertSRTtoVTT], over the
    lines still to come; the result is what the loop appends to [buf]. *)
Fixpoint convertLoop (lines : list string) (afterBlank : bool) : string :=
  match lines with
  | [] => EmptyString
  | line :: rest =>
      let trimmed := TrimSpace line in
      if afterBlank && isDigitsOnly trimmed then convertLoop rest false
      else
        let line' :=
          if Contains line "-->" then ReplaceAll line "," "." else line in
        line' +:+ nl +:+ convertLoop rest (streq trimmed EmptyString)
  end.

Definition vttHeader : string := "WEBVTT" +:+ nl +:+ nl.

Definition ConvertSRTtoVTT (srt : string) : string :=
  let srt := TrimPrefix srt BOM in
  vttHeader +:+ convertLoop (scanLines srt) true.

(* ===================================================================== *)
(** ** The torrent engine, as far as the source uses it                  *)
(* ===================================================================== *)

Module torrent.

Inductive PiecePriority :=
| PiecePriorityNone
| PiecePriorityNormal
| PiecePriorityNow.

(** [*torrent.File]: [ReadAll] is what [io.ReadAll(f.NewReader())]
    returns, [None] for a read error. *)
Record File := mkFile {
  DisplayPath : string;
  Length : Z;
  Priority : PiecePriority;
  ReadAll : option string
}.

Definition SetPriority (p : PiecePriority) (f : File) : File :=
  {| DisplayPath := DisplayPath f; Length := Length f;
     Priority := p; ReadAll := ReadAll f |}.

(** [*torrent.Torrent], once its metadata is known. *)
Record Torrent := mkTorrent {
  InfoHash : string;     (* t.InfoHash().HexString() *)
  Name : string;
  Files : list File
}.

Definition withFiles (t : Torrent) (fs : list File) : Torrent :=
  {| InfoHash := InfoHash t; Name := Name t; Files := fs |}.

(** [torrent.Reader] as configured by the source. *)
Record Reader := mkReader {
  Readahead : Z;
  Responsive : bool
}.

End torrent.

(* ===================================================================== *)
(** ** torrent.go: data                                                  *)
(* ===================================================================== *)

Definition videoExtensions : gmap string bool :=
  list_to_map [(".mkv", true); (".mp4", true); (".avi", true);
               (".webm", true); (".mov", true); (".m4v", true)].

Definition subtitleExtensions : gmap string bool :=
  list_to_map [(".srt", true); (".vtt", true); (".ass", true); (".sub", true)].

(** [m[k]] on a Go [map[string]bool]: false for an absent key. *)
Definition mapGet (m : gmap string bool) (k : string) : bool :=
  default false (m !! k).

Module FileInfo.
Record t := mk {
  Index : Z;
  Path : string;
  Length : Z;
  IsVideo : bool;
  IsSubtitle : bool
}.
End FileInfo.

Module SubtitleInfo.
Record t := mk {
  Name : string;
  Index : Z;
  Content : string
}.
End SubtitleInfo.

Module ManagedTorrent.
Record t := mk {
  Torrent : torrent.Torrent;
  ID : string;
  Name : string;
  Files : list FileInfo.t;
  SelectedFile : Z;
  Subtitles : list SubtitleInfo.t;
  LastAccessed : Z
}.

Definition touch (now : Z) (mt : t) : t :=
  {| Torrent := Torrent mt; ID := ID mt; Name := Name mt; Files := Files mt;
     SelectedFile := SelectedFile mt; Subtitles := Subtitles mt;
     LastAccessed := now |}.

Definition withSubtitles (subs : list SubtitleInfo.t) (mt : t) : t :=
  {| Torrent := Torrent mt; ID := ID mt; Name := Name mt; Files := Files mt;
     SelectedFile := SelectedFile mt; Subtitles := subs;
     LastAccessed := LastAccessed mt |}.

Definition withSelection (tfs : list torrent.File) (sel : Z)
    (subs : list SubtitleInfo.t) (mt : t) : t :=
  {| Torrent := torrent.withFiles (Torrent mt) tfs; ID := ID mt;
     Name := Name mt; Files := Files mt;
     SelectedFile := sel; Subtitles := subs;
     LastAccessed := LastAccessed mt |}.
End ManagedTorrent.

(** [TorrentManager]: the map, and of the client the handles on which
    [Drop] was called, latest first. *)
Record TorrentManager := mkManager {
  torrents : gmap string ManagedTorrent.t;
  dropped : list torrent.Torrent
}.

Definition withTorrents (m : TorrentManager)
    (ts : gmap string ManagedTorrent.t) : TorrentManager :=
  {| torrents := ts; dropped := dropped m |}.

Definition Drop (t : torrent.Torrent) (m : TorrentManager) : TorrentManager :=
  {| torrents := torrents m; dropped := t :: dropped m |}.

(** What a call returns: a value, an [error] (its message), or a run-time
    panic (index out of range). The state that a panicking call leaves
    behind is not modelled: the state component of such a result carries
    no claim. *)
Inductive outcome (A : Type) :=
| Ok (a : A)
| Err (msg : string)
| Panic.
Arguments Ok {A} a.
Arguments Err {A} msg.
Arguments Panic {A}.

Definition errNotFound : string := "torrent not found".
Definition errOutOfRange : string := "file index out of range".
Definition errNoSelection : string := "no file selected".

(** [NewTorrentManager]: the empty registry. *)
Definition NewTorrentManager : TorrentManager :=
  {| torrents := ∅; dropped := [] |}.

(* ===================================================================== *)
(** ** torrent.go: operations                                            *)
(* ===================================================================== *)

(** [classifyFiles], the loop from position [i] on. *)
Fixpoint classifyFrom (i : nat) (fs : list torrent.File) : list FileInfo.t :=
  match fs with
  | [] => []
  | f :: rest =>
      let ext := ToLower (Ext (torrent.DisplayPath f)) in
      {| FileInfo.Index := Z.of_nat i;
         FileInfo.Path := torrent.DisplayPath f;
         FileInfo.Length := torrent.Length f;
         FileInfo.IsVideo := mapGet videoExtensions ext;
         FileInfo.IsSubtitle := mapGet subtitleExtensions ext |}
      :: classifyFrom (S i) rest
  end.

Definition classifyFiles (t : torrent.Torrent) : list FileInfo.t :=
  classifyFrom 0 (torrent.Files t).

Definition readTorrentFile (f : torrent.File) : option string :=
  torrent.ReadAll f.

(** [GetTorrent]. *)
Definition GetTorrent (m : TorrentManager) (id : string) (now : Z)
    : TorrentManager * option ManagedTorrent.t :=
  match torrents m !! id with
  | Some mt =>
      let mt := ManagedTorrent.touch now mt in
      (withTorrents m (<[id := mt]> (torrents m)), Some mt)
  | None => (m, None)
  end.

(** [AddMagnet], lines 104-111: the session a caller builds from its
    handle. *)
Definition newManagedTorrent (t : torrent.Torrent) (now : Z) : ManagedTorrent.t :=
  {| ManagedTorrent.Torrent := t;
     ManagedTorrent.ID := torrent.InfoHash t;
     ManagedTorrent.Name := torrent.Name t;
     ManagedTorrent.Files := classifyFiles t;
     ManagedTorrent.SelectedFile := -1;
     ManagedTorrent.Subtitles := [];
     ManagedTorrent.LastAccessed := now |}.

(** [AddMagnet], lines 81-89, one critical section: "return existing if
    already managed". It is [GetTorrent] on the handle's identifier. *)
Definition AddMagnet_lookup (m : TorrentManager) (t : torrent.Torrent) (now : Z)
    : TorrentManager * option ManagedTorrent.t :=
  GetTorrent m (torrent.InfoHash t) now.

(** [AddMagnet], lines 113-123, one critical section: the double check
    under the write lock and the insert. *)
Definition AddMagnet_insert (m : TorrentManager) (t : torrent.Torrent)
    (mt : ManagedTorrent.t) : TorrentManager * ManagedTorrent.t :=
  let id := torrent.InfoHash t in
  match torrents m !! id with
  | Some existing => (Drop t m, existing)
  | None => (withTorrents m (<[id := mt]> (torrents m)), mt)
  end.

(** [AddMagnet], run without interleaving. [added] is the answer of
    [client.AddMagnet(uri)] (an error message or a handle), [gotInfo] tells
    whether the metadata arrives before the 60 s timeout ([ctxErr] is the
    context's error otherwise); [now] and [now'] are the two clock reads. *)
Definition AddMagnet (m : TorrentManager) (added : string + torrent.Torrent)
    (gotInfo : bool) (ctxErr : string) (now now' : Z)
    : TorrentManager * outcome ManagedTorrent.t :=
  match added with
  | inl e => (m, Err ("add magnet: " +:+ e))
  | inr t =>
      match AddMagnet_lookup m t now with
      | (m, Some mt) => (m, Ok mt)
      | (m, None) =>
          if negb gotInfo then (Drop t m, Err ("metadata timeout: " +:+ ctxErr))
          else
            let '(m, mt) := AddMagnet_insert m t (newManagedTorrent t now') in
            (m, Ok mt)
      end
  end.

(** The subtitle entry [SelectFile] builds for file [i] (lines 177-186). *)
Definition subtitleOf (i : nat) (fi : FileInfo.t) (content : string) : SubtitleInfo.t :=
  let ext := ToLower (Ext (FileInfo.Path fi)) in
  let content := if streq ext ".srt" then ConvertSRTtoVTT content else content in
  {| SubtitleInfo.Name := Base (FileInfo.Path fi);
     SubtitleInfo.Index := Z.of_nat i;
     SubtitleInfo.Content := content |}.

(** The test of line 191. *)
Definition sameBaseOrDir (videoBase videoDir path : string) : bool :=
  let subBase := stripExt (Base path) in
  let subDir := Dir path in
  HasPrefix subBase videoBase || streq subDir videoDir.

(** [SelectFile], the loop of lines 165-196 from position [i] of
    [mt.Files] on. [None] is the panic of [torrentFiles[i]] out of range. *)
Fixpoint scanSubtitles (videoBase videoDir : string) (i : nat)
    (files : list FileInfo.t) (torrentFiles : list torrent.File)
    (matched other : list SubtitleInfo.t)
    : option (list torrent.File * list SubtitleInfo.t * list SubtitleInfo.t) :=
  match files with
  | [] => Some (torrentFiles, matched, other)
  | fi :: rest =>
      if negb (FileInfo.IsSubtitle fi)
      then scanSubtitles videoBase videoDir (S i) rest torrentFiles matched other
      else
        match torrentFiles !! i with
        | None => None
        | Some tf =>
            let tf := torrent.SetPriority torrent.PiecePriorityNow tf in
            let torrentFiles := <[i := tf]> torrentFiles in
            match readTorrentFile tf with
            | None =>
                scanSubtitles videoBase videoDir (S i) rest torrentFiles matched other
            | Some content =>
                let sub := subtitleOf i fi content in
                if sameBaseOrDir videoBase videoDir (FileInfo.Path fi)
                then scanSubtitles videoBase videoDir (S i) rest torrentFiles
                       (matched ++ [sub]) other
                else scanSubtitles videoBase videoDir (S i) rest torrentFiles
                       matched (other ++ [sub])
            end
        end
  end.

(** [SelectFile]. *)
Definition SelectFile (m : TorrentManager) (id : string) (fileIndex : Z) (now : Z)
    : TorrentManager * outcome ManagedTorrent.t :=
  match GetTorrent m id now with
  | (m, None) => (m, Err errNotFound)
  | (m, Some mt) =>
      if (fileIndex <? 0) || (Z.of_nat (length (ManagedTorrent.Files mt)) <=? fileIndex)
      then (m, Err errOutOfRange)
      else
        let k := Z.to_nat fileIndex in
        let torrentFiles :=
          torrent.SetPriority torrent.PiecePriorityNone
            <$> torrent.Files (ManagedTorrent.Torrent mt) in
        match torrentFiles !! k, ManagedTorrent.Files mt !! k with
        | Some tf, Some sel =>
            let torrentFiles :=
              <[k := torrent.SetPriority torrent.PiecePriorityNormal tf]> torrentFiles in
            let videoBase := stripExt (Base (FileInfo.Path sel)) in
            let videoDir := Dir (FileInfo.Path sel) in
            match scanSubtitles videoBase videoDir 0 (ManagedTorrent.Files mt)
                    torrentFiles [] [] with
            | Some (torrentFiles, matched, other) =>
                let mt := ManagedTorrent.withSelection torrentFiles fileIndex
                            (matched ++ other) mt in
                (withTorrents m (<[id := mt]> (torrents m)), Ok mt)
            | None => (m, Panic)
            end
        | _, _ => (m, Panic)
        end
  end.

(** [GetFileReader]. *)
Definition GetFileReader (m : TorrentManager) (id : string) (now : Z)
    : TorrentManager * outcome (torrent.Reader * torrent.File) :=
  match GetTorrent m id now with
  | (m, None) => (m, Err errNotFound)
  | (m, Some mt) =>
      let selectedIdx := ManagedTorrent.SelectedFile mt in
      if selectedIdx <? 0 then (m, Err errNoSelection)
      else
        match torrent.Files (ManagedTorrent.Torrent mt) !! Z.to_nat selectedIdx with
        | None => (m, Panic)
        | Some file =>
            let readahead :=
              if torrent.Length file >? 2 * 1024 * 1024 * 1024 then 64 * 1024 * 1024
              else if torrent.Length file >? 500 * 1024 * 1024 then 32 * 1024 * 1024
              else 16 * 1024 * 1024 in
            (m, Ok ({| torrent.Readahead := readahead; torrent.Responsive := true |},
                    file))
        end
  end.

(** [RemoveTorrent]. *)
Definition RemoveTorrent (m : TorrentManager) (id : string) : TorrentManager :=
  match torrents m !! id with
  | Some mt =>
      Drop (ManagedTorrent.Torrent mt) (withTorrents m (delete id (torrents m)))
  | None => m
  end.

(** [RemoveAll], the registry part (the removal of the data directory acts
    on the file system only). Go ranges over the map in an unspecified
    order; the order of [map_to_list] stands for it. *)
Definition RemoveAll (m : TorrentManager) : TorrentManager :=
  let ids := (map_to_list (torrents m)).*1 in
  fold_left
    (fun m id =>
       match torrents m !! id with
       | Some mt =>
           withTorrents (Drop (ManagedTorrent.Torrent mt) m) (delete id (torrents m))
       | None => m
       end)
    ids m.

(** [cleanup]: [time.Since(mt.LastAccessed) > maxAge] is
    [now - LastAccessed > maxAge]. *)
Definition cleanup (m : TorrentManager) (now maxAge : Z) : TorrentManager :=
  let stale :=
    (filter (fun kv => maxAge < now - ManagedTorrent.LastAccessed kv.2)
            (map_to_list (torrents m))).*1 in
  fold_left RemoveTorrent stale m.

(* ===================================================================== *)
(** ** handlers.go: the subtitle handlers                                *)
(* ===================================================================== *)

(** Lines 251-259 of [handleUploadSubtitle] and, word for word, lines
    354-361 of [handleDownloadSubtitle]: the append under the session's
    lock. *)
Definition appendSubtitle (mt : ManagedTorrent.t) (name content : string)
    : ManagedTorrent.t * Z :=
  let uploadIndex := - (Z.of_nat (length (ManagedTorrent.Subtitles mt)) + 1) in
  (ManagedTorrent.withSubtitles
     (ManagedTorrent.Subtitles mt ++
        [{| SubtitleInfo.Name := name;
            SubtitleInfo.Index := uploadIndex;
            SubtitleInfo.Content := content |}]) mt,
   uploadIndex).

(** Lines 244-249 and 347-352: conversion by file extension. *)
Definition normalizeUpload (name content : string) : string * string :=
  let ext := ToLower (Ext name) in
  if streq ext ".srt"
  then (TrimSuffix name (Ext name) +:+ ".vtt", ConvertSRTtoVTT content)
  else (name, content).

(** [handleUploadSubtitle]. [form] is what parsing the multipart body and
    reading the "subtitle" part give: an error message, or the part's file
    name and bytes. The answer is the stored name and index (the URL is
    printed from the identifier and that index). *)
Definition handleUploadSubtitle (m : TorrentManager) (torrentID : string)
    (now : Z) (form : string + string * string)
    : TorrentManager * outcome (string * Z) :=
  if streq torrentID EmptyString then (m, Err "torrent ID required")
  else
    match GetTorrent m torrentID now with
    | (m, None) => (m, Err errNotFound)
    | (m, Some mt) =>
        match form with
        | inl e => (m, Err e)
        | inr (filename, content) =>
            let '(name, content) := normalizeUpload filename content in
            let '(mt, uploadIndex) := appendSubtitle mt name content in
            (withTorrents m (<[torrentID := mt]> (torrents m)),
             Ok (name, uploadIndex))
        end
    end.

(** [handleDownloadSubtitle]. [fileID] is the decoded request field ([None]
    for an undecodable body) and [download] the answer of
    [subClient.Download]: an error message, or the bytes and file name. *)
Definition handleDownloadSubtitle (m : TorrentManager) (torrentID : string)
    (now : Z) (fileID : option Z) (download : string + string * string)
    : TorrentManager * outcome (string * Z) :=
  if streq torrentID EmptyString then (m, Err "torrent ID required")
  else
    match GetTorrent m torrentID now with
    | (m, None) => (m, Err errNotFound)
    | (m, Some mt) =>
        match fileID with
        | None => (m, Err "invalid request body")
        | Some fid =>
            if fid =? 0 then (m, Err "fileId is required")
            else
              match download with
              | inl e => (m, Err e)
              | inr (content, fileName) =>
                  let '(fileName, content) := normalizeUpload fileName content in
                  let '(mt, uploadIndex) := appendSubtitle mt fileName content in
                  (withTorrents m (<[torrentID := mt]> (torrents m)),
                   Ok (fileName, uploadIndex))
              end
        end
    end.

(** The loop of [handleSubtitle]: the first entry with the index. *)
Fixpoint findSubtitle (subs : list SubtitleInfo.t) (fileIndex : Z) : option string :=
  match subs with
  | [] => None
  | s :: rest =>
      if SubtitleInfo.Index s =? fileIndex then Some (SubtitleInfo.Content s)
      else findSubtitle rest fileIndex
  end.

(** [handleSubtitle], after the path values are parsed: the bytes written
    with content type text/vtt. *)
Definition handleSubtitle (m : TorrentManager) (torrentID : string)
    (fileIndex : Z) (now : Z) : TorrentManager * outcome string :=
  if streq torrentID EmptyString then (m, Err "missing parameters")
  else
    match GetTorrent m torrentID now with
    | (m, None) => (m, Err errNotFound)
    | (m, Some mt) =>
        match findSubtitle (ManagedTorrent.Subtitles mt) fileIndex with
        | Some content => (m, Ok content)
        | None => (m, Err "subtitle not found")
        end
    end.

(* ===================================================================== *)
(** ** Runs of the registry                                              *)
(* ===================================================================== *)

(** The critical sections that act on the registry. A call of [AddMagnet]
    is [OpLookup] on the handle's identifier, then either [OpAddTimeout] or
    [OpAddInsert]; sections of other calls may come in between, which is
    how concurrent callers interleave. [OpAddMagnet] is the whole call
    without interleaving. *)
Inductive Op :=
| OpLookup (id : string) (now : Z)
| OpAddInsert (t : torrent.Torrent) (now : Z)
| OpAddTimeout (t : torrent.Torrent)
| OpAddMagnet (added : string + torrent.Torrent) (gotInfo : bool)
    (ctxErr : string) (now now' : Z)
| OpSelectFile (id : string) (fileIndex : Z) (now : Z)
| OpGetFileReader (id : string) (now : Z)
| OpRemoveTorrent (id : string)
| OpRemoveAll
| OpCleanup (now maxAge : Z)
| OpUpload (id : string) (now : Z) (form : string + string * string)
| OpDownload (id : string) (now : Z) (fileID : option Z)
    (download : string + string * string)
| OpServe (id : string) (fileIndex : Z) (now : Z).

Definition exec (m : TorrentManager) (o : Op) : TorrentManager :=
  match o with
  | OpLookup id now => (GetTorrent m id now).1
  | OpAddInsert t now => (AddMagnet_insert m t (newManagedTorrent t now)).1
  | OpAddTimeout t => Drop t m
  | OpAddMagnet added gotInfo ctxErr now now' =>
      (AddMagnet m added gotInfo ctxErr now now').1
  | OpSelectFile id fileIndex now => (SelectFile m id fileIndex now).1
  | OpGetFileReader id now => (GetFileReader m id now).1
  | OpRemoveTorrent id => RemoveTorrent m id
  | OpRemoveAll => RemoveAll m
  | OpCleanup now maxAge => cleanup m now maxAge
  | OpUpload id now form => (handleUploadSubtitle m id now form).1
  | OpDownload id now fileID download =>
      (handleDownloadSubtitle m id now fileID download).1
  | OpServe id fileIndex now => (handleSubtitle m id fileIndex now).1
  end.

(** The registry after a sequence of operations, from the empty one. *)
Definition run (ops : list Op) : TorrentManager :=
  fold_left exec ops NewTorrentManager.

(* ===================================================================== *)
(** ** Properties stated in the specification's words                    *)
(* ===================================================================== *)

(** Section 4.2: a candidate matches if its base filename without extension
    starts with the selected file's base filename without extension, or it
    resides in the same directory. *)
Definition matches (selectedPath candidatePath : string) : bool :=
  HasPrefix (stripExt (Base candidatePath)) (stripExt (Base selectedPath))
  || streq (Dir candidatePath) (Dir selectedPath).

(** The candidates of a rebuild, in file-list order: every file flagged
    is-subtitle whose bytes could be read, with the entry made for it.
    [i] is the position of the first file of [files]; [reads] are the read
    results of the engine's files at the same positions. *)
Fixpoint candidates (i : nat) (files : list FileInfo.t)
    (reads : list (option string)) : list (FileInfo.t * SubtitleInfo.t) :=
  match files, reads with
  | fi :: files', rd :: reads' =>
      match FileInfo.IsSubtitle fi, rd with
      | true, Some content => (fi, subtitleOf i fi content) :: candidates (S i) files' reads'
      | _, _ => candidates (S i) files' reads'
      end
  | _, _ => []
  end.

Definition sessionCandidates (mt : ManagedTorrent.t) : list (FileInfo.t * SubtitleInfo.t) :=
  candidates 0 (ManagedTorrent.Files mt)
    (torrent.ReadAll <$> torrent.Files (ManagedTorrent.Torrent mt)).

(** The matched candidates, in file-list order, and the others. *)
Definition matchedBucket (selectedPath : string)
    (cands : list (FileInfo.t * SubtitleInfo.t)) : list SubtitleInfo.t :=
  (List.filter (fun c => matches selectedPath (FileInfo.Path (fst c))) cands).*2.

Definition otherBucket (selectedPath : string)
    (cands : list (FileInfo.t * SubtitleInfo.t)) : list SubtitleInfo.t :=
  (List.filter (fun c => negb (matches selectedPath (FileInfo.Path (fst c)))) cands).*2.

(** Matched first, each bucket in file-list order. *)
Definition rebuilt (selectedPath : string)
    (cands : list (FileInfo.t * SubtitleInfo.t)) : list SubtitleInfo.t :=
  matchedBucket selectedPath cands ++ otherBucket selectedPath cands.

(** The two buckets as the loop of [SelectFile] fills them. *)
Definition bucket (keep : bool) (vb vd : string)
    (cands : list (FileInfo.t * SubtitleInfo.t)) : list SubtitleInfo.t :=
  (List.filter
     (fun c => Bool.eqb keep (sameBaseOrDir vb vd (FileInfo.Path (fst c))))
     cands).*2.

(** What a successful [SelectFile] stores: the session with the new
    selection, priorities reset, and the rebuilt subtitle list. *)
Definition selected (mt : ManagedTorrent.t) (tfs : list torrent.File)
    (fileIndex : Z) (sel : FileInfo.t) (now : Z) : ManagedTorrent.t :=
  ManagedTorrent.withSelection tfs fileIndex
    (rebuilt (FileInfo.Path sel) (sessionCandidates mt))
    (ManagedTorrent.touch now mt).

(** The engine's answers a rebuild depends on. *)
Definition reads (mt : ManagedTorrent.t) : list (option string) :=
  torrent.ReadAll <$> torrent.Files (ManagedTorrent.Torrent mt).

(** The fixture of section 8 and its expected output. *)
Definition fixtureSRT : string :=
  "1" +:+ nl +:+ "00:00:01,000 --> 00:00:04,000" +:+ nl +:+ "Hello world" +:+ nl.

Definition fixtureVTT : string :=
  "WEBVTT" +:+ nl +:+ nl +:+
  "00:00:01.000 --> 00:00:04.000" +:+ nl +:+ "Hello world" +:+ nl.

(** The indices of a subtitle list. *)
Definition indices (subs : list SubtitleInfo.t) : list Z :=
  SubtitleInfo.Index <$> subs.

(** The target caption format starts with its fixed header token. *)
Definition isWebVTT (content : string) : bool := HasPrefix content "WEBVTT".

(** The selected index is "none" or a position of the file list. *)
Definition selectionValid (mt : ManagedTorrent.t) : Prop :=
  ManagedTorrent.SelectedFile mt = -1
  \/ 0 <= ManagedTorrent.SelectedFile mt
       < Z.of_nat (length (ManagedTorrent.Files mt)).

(** What every stored session satisfies. *)
Record sessionOk (mt : ManagedTorrent.t) : Prop := {
  ok_selection : selectionValid mt;
  ok_files :
    length (torrent.Files (ManagedTorrent.Torrent mt))
    = length (ManagedTorrent.Files mt);
  ok_nodup : NoDup (indices (ManagedTorrent.Subtitles mt));
  ok_floor :
    Forall (fun i => - Z.of_nat (length (ManagedTorrent.Subtitles mt)) <= i)
           (indices (ManagedTorrent.Subtitles mt))
}.

Definition registryOk (m : TorrentManager) : Prop :=
  forall k mt, torrents m !! k = Some mt ->
    ManagedTorrent.ID mt = k /\ sessionOk mt.

(** The session an attach stores: access time refreshed by the lookup,
    one entry appended. *)
Definition attached (mt : ManagedTorrent.t) (now : Z) (name content : string)
    : ManagedTorrent.t :=
  (appendSubtitle (ManagedTorrent.touch now mt) name content).1.

(** A transfer used in the examples: three videos, three subtitle files next
    to the first video (one of them unreadable, one in another caption
    format) and one elsewhere. *)
Definition demoFile (path : string) (len : Z) (data : option string) : torrent.File :=
  {| torrent.DisplayPath := path; torrent.Length := len;
     torrent.Priority := torrent.PiecePriorityNormal; torrent.ReadAll := data |}.

Definition demoTorrent : torrent.Torrent :=
  {| torrent.InfoHash := "aa11";
     torrent.Name := "Show";
     torrent.Files :=
       [ demoFile "Show/S01E01.mkv" (1024 * 1024 * 1024) None;
         demoFile "Other/random.srt" 60 (Some fixtureSRT);
         demoFile "Show/S01E01.en.srt" 60 (Some fixtureSRT);
         demoFile "Show/S01E01.fr.srt" 60 None;
         demoFile "Show/styled.ass" 13 (Some "[Script Info]");
         demoFile "Extra/S01E02.mkv" (100 * 1024 * 1024) None;
         demoFile "Extra/S01E03.mkv" (3 * 1024 * 1024 * 1024) None ] |}.

Definition demoSession : ManagedTorrent.t := newManagedTorrent demoTorrent 0.

Definition demoManager : TorrentManager := run [OpAddInsert demoTorrent 0].

(** The example registry after the first video is selected, and its
    session. *)
Definition demoOps : list Op := [OpAddInsert demoTorrent 0; OpSelectFile "aa11" 0 5].

Definition demoSelected : ManagedTorrent.t :=
  default demoSession (torrents (run demoOps) !! "aa11").

(** A registry with one single-file transfer of [len] bytes, selected. *)
Definition tierManager (len : Z) : TorrentManager :=
  run [ OpAddInsert
          {| torrent.InfoHash := "bb22"; torrent.Name := "movie.mkv";
             torrent.Files := [demoFile "movie.mkv" len None] |} 0;
        OpSelectFile "bb22" 0 1 ].

(** The read-ahead window [GetFileReader] configures for such a file. *)
Definition tierReadahead (len : Z) : option Z :=
  match (GetFileReader (tierManager len) "bb22" 2).2 with
  | Ok (reader, _) => Some (torrent.Readahead reader)
  | _ => None
  end.

Definition MiB : Z := 1024 * 1024.
Definition GiB : Z := 1024 * 1024 * 1024.

(* ===================================================================== *)
(** ** handlers.go: the other handlers                                   *)
(* ===================================================================== *)

(** net/http status codes used by the handlers. *)
Definition StatusBadRequest : Z := 400.
Definition StatusNotFound : Z := 404.
Definition StatusInternalServerError : Z := 500.
Definition StatusGatewayTimeout : Z := 504.

(** What a handler writes: a body through [jsonOK] (or the stream), an
    error with its status code through [jsonError] / [http.Error], or
    nothing because the call panicked. *)
Inductive reply (A : Type) :=
| Success (body : A)
| Failure (status : Z) (msg : string)
| Crashed.
Arguments Success {A} body.
Arguments Failure {A} status msg.
Arguments Crashed {A}.

(** [contentTypeForExt]. *)
Definition contentTypeForExt (ext : string) : string :=
  if streq ext ".mp4" || streq ext ".m4v" then "video/mp4"
  else if streq ext ".webm" then "video/webm"
  else if streq ext ".mkv" then "video/x-matroska"
  else if streq ext ".avi" then "video/x-msvideo"
  else if streq ext ".mov" then "video/quicktime"
  else EmptyString.

(** The message of [handleAddMagnet] for a timeout; the dash is U+2014. *)
Definition msgNoPeers : string :=
  "metadata timeout " +:+ bytesOf [226; 128; 148]%nat +:+ " no peers found".

(** [handleAddMagnet]. [body] is the decoded [magnet] field ([None] for an
    undecodable body); the other arguments are those of [AddMagnet]. The
    body of the answer is the session's identifier, name and file list. *)
Definition handleAddMagnet (m : TorrentManager) (body : option string)
    (added : string + torrent.Torrent) (gotInfo : bool) (ctxErr : string)
    (now now' : Z)
    : TorrentManager * reply (string * string * list FileInfo.t) :=
  match body with
  | None => (m, Failure StatusBadRequest "invalid request body")
  | Some magnet =>
      if streq magnet EmptyString
      then (m, Failure StatusBadRequest "magnet link is required")
      else
        match AddMagnet m added gotInfo ctxErr now now' with
        | (m, Err e) =>
            if Contains e "timeout"
            then (m, Failure StatusGatewayTimeout msgNoPeers)
            else (m, Failure StatusInternalServerError e)
        | (m, Ok mt) =>
            (m, Success (ManagedTorrent.ID mt, ManagedTorrent.Name mt,
                         ManagedTorrent.Files mt))
        | (m, Panic) => (m, Crashed)
        end
  end.

(** [handleSelectFile]. [body] is the decoded [fileIndex] field. The body
    of the answer lists, for every subtitle of the session, its name and
    the index its URL ends with. *)
Definition handleSelectFile (m : TorrentManager) (torrentID : string)
    (body : option Z) (now : Z) : TorrentManager * reply (list (string * Z)) :=
  if streq torrentID EmptyString
  then (m, Failure StatusBadRequest "torrent ID required")
  else
    match body with
    | None => (m, Failure StatusBadRequest "invalid request body")
    | Some fileIndex =>
        match SelectFile m torrentID fileIndex now with
        | (m, Err e) =>
            if Contains e "not found" then (m, Failure StatusNotFound e)
            else (m, Failure StatusBadRequest e)
        | (m, Ok mt) =>
            (m, Success ((fun s => (SubtitleInfo.Name s, SubtitleInfo.Index s))
                           <$> ManagedTorrent.Subtitles mt))
        | (m, Panic) => (m, Crashed)
        end
    end.

(** [handleStream], up to the call of [http.ServeContent]: the
    Content-Type header it sets (empty for none), the reader and the
    file. *)
Definition handleStream (m : TorrentManager) (torrentID : string) (now : Z)
    : TorrentManager * reply (string * torrent.Reader * torrent.File) :=
  if streq torrentID EmptyString
  then (m, Failure StatusBadRequest "torrent ID required")
  else
    match GetFileReader m torrentID now with
    | (m, Err e) =>
        if Contains e "not found" then (m, Failure StatusNotFound e)
        else (m, Failure StatusBadRequest e)
    | (m, Ok (reader, file)) =>
        let ext := ToLower (Ext (torrent.DisplayPath file)) in
        (m, Success (contentTypeForExt ext, reader, file))
    | (m, Panic) => (m, Crashed)
    end.

(* ===================================================================== *)
(** ** Further predicates used in the statements                         *)
(* ===================================================================== *)

(** Two engine files that differ in priority at most. *)
Definition samePayload (f f' : torrent.File) : Prop :=
  torrent.DisplayPath f = torrent.DisplayPath f'
  /\ torrent.Length f = torrent.Length f'
  /\ torrent.ReadAll f = torrent.ReadAll f'.

(** A session that is the one [AddMagnet] built from handle [t], up to its
    selection, its subtitle list, its access time and the priorities of
    the engine files. *)
Definition fromHandle (t : torrent.Torrent) (mt : ManagedTorrent.t) : Prop :=
  ManagedTorrent.ID mt = torrent.InfoHash t
  /\ ManagedTorrent.Name mt = torrent.Name t
  /\ ManagedTorrent.Files mt = classifyFiles t
  /\ Forall2 samePayload (torrent.Files t)
       (torrent.Files (ManagedTorrent.Torrent mt)).

(** Every stored session satisfies [P]. *)
Definition allSessions (P : ManagedTorrent.t -> Prop) (m : TorrentManager) : Prop :=
  forall k mt, torrents m !! k = Some mt -> P mt.

(** The priority [SelectFile] leaves on the engine file at position [i]
    when [k] is selected. *)
Definition priorityAfterSelect (files : list FileInfo.t) (k i : nat)
    : torrent.PiecePriority :=
  match files !! i with
  | Some fi =>
      if FileInfo.IsSubtitle fi then torrent.PiecePriorityNow
      else if Nat.eqb i k then torrent.PiecePriorityNormal
      else torrent.PiecePriorityNone
  | None => torrent.PiecePriorityNone
  end.

(** What the operations on one session never touch. *)
Definition fixedPart (mt : ManagedTorrent.t)
    : string * string * list FileInfo.t :=
  (ManagedTorrent.ID mt, ManagedTorrent.Name mt, ManagedTorrent.Files mt).

(** [m'] differs from [m] at most in the session stored under [id]:
    the other sessions and the dropped handles are the same. *)
Definition localTo (id : string) (m m' : TorrentManager) : Prop :=
  dropped m' = dropped m
  /\ forall id', id' <> id -> torrents m' !! id' = torrents m !! id'.

(** What the subtitle scan from position [i] of the file list does to the
    engine file [f] at position [j]: raised to "now" when the entry of the
    file list at [j] is flagged is-subtitle, untouched otherwise. *)
Definition markNow (files : list FileInfo.t) (i j : nat) (f : torrent.File)
    : torrent.File :=
  if (i <=? j)%nat then
    match files !! (j - i)%nat with
    | Some fi =>
        if FileInfo.IsSubtitle fi
        then torrent.SetPriority torrent.PiecePriorityNow f else f
    | None => f
    end
  else f.

(* ===================================================================== *)
(** * Theorems                                                           *)
(* ===================================================================== *)

(** ** The converter *)

Lemma TrimPrefix_BOM_app (srt : string) : TrimPrefix (BOM +:+ srt) BOM = srt.
Proof. vm_compute. reflexivity. Qed.

Lemma TrimPrefix_no_prefix (s p : string) :
  HasPrefix s p = false -> TrimPrefix s p = s.
Proof. unfold TrimPrefix. intros ->. reflexivity. Qed.

(** The tests of subtitle_test.go. *)
Example convert_test_basic :
  ConvertSRTtoVTT
    ("1" +:+ nl +:+ "00:00:01,000 --> 00:00:04,000" +:+ nl +:+ "Hello world" +:+ nl
     +:+ nl +:+
     "2" +:+ nl +:+ "00:00:05,000 --> 00:00:08,000" +:+ nl +:+ "Second line" +:+ nl)
  = "WEBVTT" +:+ nl +:+ nl +:+
    "00:00:01.000 --> 00:00:04.000" +:+ nl +:+ "Hello world" +:+ nl +:+ nl +:+
    "00:00:05.000 --> 00:00:08.000" +:+ nl +:+ "Second line" +:+ nl.
Proof. vm_compute. reflexivity. Qed.

Example convert_test_bom :
  ConvertSRTtoVTT
    (BOM +:+ "1" +:+ nl +:+ "00:00:01,500 --> 00:00:03,500" +:+ nl +:+ "With BOM" +:+ nl)
  = "WEBVTT" +:+ nl +:+ nl +:+
    "00:00:01.500 --> 00:00:03.500" +:+ nl +:+ "With BOM" +:+ nl.
Proof. vm_compute. reflexivity. Qed.

Example convert_test_multiline :
  ConvertSRTtoVTT
    ("1" +:+ nl +:+ "00:00:01,000 --> 00:00:04,000" +:+ nl +:+ "Line one" +:+ nl
     +:+ "Line two" +:+ nl +:+ nl +:+
     "2" +:+ nl +:+ "00:00:05,000 --> 00:00:08,000" +:+ nl +:+ "Another cue" +:+ nl)
  = "WEBVTT" +:+ nl +:+ nl +:+
    "00:00:01.000 --> 00:00:04.000" +:+ nl +:+ "Line one" +:+ nl +:+ "Line two" +:+ nl
    +:+ nl +:+
    "00:00:05.000 --> 00:00:08.000" +:+ nl +:+ "Another cue" +:+ nl.
Proof. vm_compute. reflexivity. Qed.

(** C4, as stated, fails: the converter removes one byte-order mark only.
    When the input itself starts with the mark, prefixing another one leaves
    a mark in the first line, which is emitted. *)
Lemma C4_bom_counterexample :
  ConvertSRTtoVTT (BOM +:+ BOM) <> ConvertSRTtoVTT BOM.
Proof. vm_compute. discriminate. Qed.

(** C4 (amended): the two fixtures hold (the index line is dropped and the
    commas of the timestamp line become periods; the empty input gives the
    header and the blank line only), and for every input that does not
    itself start with the byte-order mark, prefixing the mark gives the same
    output as converting the input. *)
Theorem C4_converter_fixtures_and_bom (srt : string)
    (Hnobom : HasPrefix srt BOM = false) :
  ConvertSRTtoVTT fixtureSRT = fixtureVTT
  /\ ConvertSRTtoVTT EmptyString = "WEBVTT" +:+ nl +:+ nl
  /\ ConvertSRTtoVTT (BOM +:+ srt) = ConvertSRTtoVTT srt.
Proof.
  split; [vm_compute; reflexivity|].
  split; [vm_compute; reflexivity|].
  unfold ConvertSRTtoVTT.
  rewrite TrimPrefix_BOM_app, (TrimPrefix_no_prefix srt BOM Hnobom).
  reflexivity.
Qed.

(** The amended C4 at the fixture itself, which starts with no mark. *)
Lemma C4_converter_witness :
  ConvertSRTtoVTT fixtureSRT = fixtureVTT
  /\ ConvertSRTtoVTT EmptyString = "WEBVTT" +:+ nl +:+ nl
  /\ ConvertSRTtoVTT (BOM +:+ fixtureSRT) = ConvertSRTtoVTT fixtureSRT.
Proof. apply (C4_converter_fixtures_and_bom fixtureSRT). vm_compute. reflexivity. Defined.

(** ** The subtitle rebuild of SelectFile *)

Lemma sameBaseOrDir_matches (sel path : string) :
  sameBaseOrDir (stripExt (Base sel)) (Dir sel) path = matches sel path.
Proof. reflexivity. Qed.

Lemma ReadAll_SetPriority (p : torrent.PiecePriority) (f : torrent.File) :
  torrent.ReadAll (torrent.SetPriority p f) = torrent.ReadAll f.
Proof. reflexivity. Qed.

Lemma reads_insert_priority (tfs : list torrent.File) (i : nat)
    (p : torrent.PiecePriority) (tf : torrent.File) :
  tfs !! i = Some tf ->
  torrent.ReadAll <$> <[i := torrent.SetPriority p tf]> tfs
  = torrent.ReadAll <$> tfs.
Proof.
  intros Hi. rewrite list_fmap_insert, ReadAll_SetPriority.
  apply list_insert_id. rewrite list_lookup_fmap, Hi. reflexivity.
Qed.

Lemma reads_fmap_priority (p : torrent.PiecePriority) (tfs : list torrent.File) :
  torrent.ReadAll <$> (torrent.SetPriority p <$> tfs) = torrent.ReadAll <$> tfs.
Proof. rewrite <- list_fmap_compose. reflexivity. Qed.

(** The loop never panics when the engine has a file for every entry of
    the file list, and then it appends to the two buckets the matched and
    the other candidates, in order; it changes priorities only. *)
Lemma scanSubtitles_spec (vb vd : string) (files : list FileInfo.t) :
  forall (i : nat) (tfs : list torrent.File) (matched other : list SubtitleInfo.t),
    (i + length files <= length tfs)%nat ->
    exists tfs',
      scanSubtitles vb vd i files tfs matched other
      = Some (tfs',
              matched ++ bucket true vb vd
                           (candidates i files (drop i (torrent.ReadAll <$> tfs))),
              other ++ bucket false vb vd
                         (candidates i files (drop i (torrent.ReadAll <$> tfs))))
      /\ torrent.ReadAll <$> tfs' = torrent.ReadAll <$> tfs
      /\ length tfs' = length tfs.
Proof.
  induction files as [|fi rest IH]; intros i tfs matched other Hlen.
  - exists tfs. simpl. unfold bucket. simpl. rewrite !app_nil_r. auto.
  - simpl in Hlen.
    destruct (lookup_lt_is_Some_2 tfs i) as [tf Htf]; [lia|].
    assert (Hdrop : drop i (torrent.ReadAll <$> tfs)
                    = torrent.ReadAll tf :: drop (S i) (torrent.ReadAll <$> tfs)).
    { apply drop_S. rewrite list_lookup_fmap, Htf. reflexivity. }
    rewrite Hdrop. cbn [scanSubtitles candidates].
    destruct (FileInfo.IsSubtitle fi) eqn:Hsub; cbn [negb].
    + rewrite Htf. unfold readTorrentFile. rewrite ReadAll_SetPriority.
      pose proof (reads_insert_priority tfs i torrent.PiecePriorityNow tf Htf) as Hrd.
      destruct (torrent.ReadAll tf) as [content|] eqn:Hread.
      * destruct (sameBaseOrDir vb vd (FileInfo.Path fi)) eqn:Hm.
        -- destruct (IH (S i) (<[i := torrent.SetPriority torrent.PiecePriorityNow tf]> tfs)
                       (matched ++ [subtitleOf i fi content]) other)
             as (tfs' & Heq & Hr & Hl); [rewrite length_insert; lia|].
           exists tfs'. rewrite Heq, Hrd. unfold bucket. cbn [List.filter fst].
           rewrite Hm. cbn [Bool.eqb fmap list_fmap snd].
           rewrite <- !app_assoc. cbn [app].
           split; [reflexivity|]. split; [congruence|].
           rewrite Hl. apply length_insert.
        -- destruct (IH (S i) (<[i := torrent.SetPriority torrent.PiecePriorityNow tf]> tfs)
                       matched (other ++ [subtitleOf i fi content]))
             as (tfs' & Heq & Hr & Hl); [rewrite length_insert; lia|].
           exists tfs'. rewrite Heq, Hrd. unfold bucket. cbn [List.filter fst].
           rewrite Hm. cbn [Bool.eqb fmap list_fmap snd].
           rewrite <- !app_assoc. cbn [app].
           split; [reflexivity|]. split; [congruence|].
           rewrite Hl. apply length_insert.
      * destruct (IH (S i) (<[i := torrent.SetPriority torrent.PiecePriorityNow tf]> tfs)
                     matched other)
          as (tfs' & Heq & Hr & Hl); [rewrite length_insert; lia|].
        exists tfs'. rewrite Heq, Hrd.
        split; [reflexivity|]. split; [congruence|].
        rewrite Hl. apply length_insert.
    + destruct (IH (S i) tfs matched other) as (tfs' & Heq & Hr & Hl); [lia|].
      exists tfs'. rewrite Heq. auto.
Qed.

Lemma bucket_matched (sel : string) (cands : list (FileInfo.t * SubtitleInfo.t)) :
  bucket true (stripExt (Base sel)) (Dir sel) cands = matchedBucket sel cands.
Proof.
  unfold bucket, matchedBucket. f_equal. apply List.filter_ext.
  intros c. rewrite sameBaseOrDir_matches. destruct (matches _ _); reflexivity.
Qed.

Lemma bucket_other (sel : string) (cands : list (FileInfo.t * SubtitleInfo.t)) :
  bucket false (stripExt (Base sel)) (Dir sel) cands = otherBucket sel cands.
Proof. reflexivity. Qed.

Lemma GetTorrent_found (m : TorrentManager) (id : string) (now : Z)
    (mt : ManagedTorrent.t) :
  torrents m !! id = Some mt ->
  GetTorrent m id now
  = (withTorrents m (<[id := ManagedTorrent.touch now mt]> (torrents m)),
     Some (ManagedTorrent.touch now mt)).
Proof. unfold GetTorrent. intros ->. reflexivity. Qed.

Lemma GetTorrent_absent (m : TorrentManager) (id : string) (now : Z) :
  torrents m !! id = None -> GetTorrent m id now = (m, None).
Proof. unfold GetTorrent. intros ->. reflexivity. Qed.

(** A valid selection on a session whose engine handle has a file for every
    entry of the file list succeeds, with the closed form of the rebuild. *)
Lemma SelectFile_ok (m : TorrentManager) (id : string) (mt : ManagedTorrent.t)
    (fileIndex now : Z) :
  torrents m !! id = Some mt ->
  0 <= fileIndex < Z.of_nat (length (ManagedTorrent.Files mt)) ->
  length (torrent.Files (ManagedTorrent.Torrent mt))
  = length (ManagedTorrent.Files mt) ->
  exists tfs sel,
    ManagedTorrent.Files mt !! Z.to_nat fileIndex = Some sel
    /\ SelectFile m id fileIndex now
       = (withTorrents m (<[id := selected mt tfs fileIndex sel now]> (torrents m)),
          Ok (selected mt tfs fileIndex sel now))
    /\ torrent.ReadAll <$> tfs
       = torrent.ReadAll <$> torrent.Files (ManagedTorrent.Torrent mt)
    /\ length tfs = length (ManagedTorrent.Files mt).
Proof.
  intros Hm Hrange Hlen. unfold SelectFile.
  rewrite (GetTorrent_found _ _ _ _ Hm). cbn [ManagedTorrent.touch ManagedTorrent.Files
    ManagedTorrent.Torrent].
  destruct (fileIndex <? 0) eqn:Hlt; [lia|].
  destruct (Z.of_nat (length (ManagedTorrent.Files mt)) <=? fileIndex) eqn:Hge; [lia|].
  cbn [orb].
  set (k := Z.to_nat fileIndex).
  set (tfs0 := torrent.SetPriority torrent.PiecePriorityNone
                 <$> torrent.Files (ManagedTorrent.Torrent mt)).
  assert (Hl0 : length tfs0 = length (ManagedTorrent.Files mt)).
  { unfold tfs0. rewrite length_fmap. exact Hlen. }
  destruct (lookup_lt_is_Some_2 tfs0 k) as [tf Htf]; [unfold k; lia|].
  destruct (lookup_lt_is_Some_2 (ManagedTorrent.Files mt) k) as [sel Hsel];
    [unfold k; lia|].
  rewrite Htf, Hsel.
  set (tfs1 := <[k := torrent.SetPriority torrent.PiecePriorityNormal tf]> tfs0).
  assert (Hr1 : torrent.ReadAll <$> tfs1
                = torrent.ReadAll <$> torrent.Files (ManagedTorrent.Torrent mt)).
  { unfold tfs1. rewrite (reads_insert_priority _ _ _ _ Htf).
    apply reads_fmap_priority. }
  destruct (scanSubtitles_spec (stripExt (Base (FileInfo.Path sel)))
              (Dir (FileInfo.Path sel)) (ManagedTorrent.Files mt) 0 tfs1 [] [])
    as (tfs & Heq & Hr & Hl).
  { unfold tfs1. rewrite length_insert. lia. }
  rewrite Heq. cbn [app drop]. rewrite Hr1, bucket_matched, bucket_other.
  exists tfs, sel. split; [reflexivity|]. split.
  - unfold selected, rebuilt, sessionCandidates, withTorrents. cbn [torrents dropped].
    rewrite insert_insert_eq. reflexivity.
  - split; [congruence|]. rewrite Hl. unfold tfs1. rewrite length_insert. exact Hl0.
Qed.

(** ** Candidates and buckets *)

Lemma candidates_elem (files : list FileInfo.t) :
  forall (i : nat) (reads : list (option string)) (fi : FileInfo.t)
         (sub : SubtitleInfo.t),
    (fi, sub) ∈ candidates i files reads <->
    exists (j : nat) (content : string),
      files !! j = Some fi /\ reads !! j = Some (Some content)
      /\ FileInfo.IsSubtitle fi = true
      /\ sub = subtitleOf (i + j) fi content.
Proof.
  induction files as [|f files IH]; intros i reads fi sub.
  - simpl. rewrite elem_of_nil. split; [tauto|].
    intros (j & c & Hj & _). rewrite lookup_nil in Hj. discriminate.
  - destruct reads as [|rd reads].
    + simpl. rewrite elem_of_nil. split; [tauto|].
      intros (j & c & _ & Hj & _). rewrite lookup_nil in Hj. discriminate.
    + assert (Htail :
        (fi, sub) ∈ candidates (S i) files reads <->
        exists (j : nat) (content : string),
          (f :: files) !! S j = Some fi /\ (rd :: reads) !! S j = Some (Some content)
          /\ FileInfo.IsSubtitle fi = true
          /\ sub = subtitleOf (i + S j) fi content).
      { rewrite IH. split; intros (j & c & H1 & H2 & H3 & H4); exists j, c;
          (repeat split; try assumption);
          [replace (i + S j)%nat with (S i + j)%nat by lia; exact H4
          |replace (S i + j)%nat with (i + S j)%nat by lia; exact H4]. }
      assert (Hskip :
        (exists (j : nat) (content : string),
          (f :: files) !! j = Some fi /\ (rd :: reads) !! j = Some (Some content)
          /\ FileInfo.IsSubtitle fi = true
          /\ sub = subtitleOf (i + j) fi content) <->
        (f = fi /\ FileInfo.IsSubtitle f = true
         /\ exists content, rd = Some content /\ sub = subtitleOf i f content)
        \/ (fi, sub) ∈ candidates (S i) files reads).
      { rewrite Htail. split.
        - intros (j & c & H1 & H2 & H3 & H4). destruct j as [|j].
          + left. simpl in H1, H2. injection H1 as ->. injection H2 as ->.
            rewrite Nat.add_0_r in H4. eauto.
          + right. eauto 8.
        - intros [(-> & H3 & c & -> & H4)|(j & c & H)].
          + exists 0%nat, c. rewrite Nat.add_0_r. auto.
          + exists (S j), c. exact H. }
      rewrite Hskip. cbn [candidates].
      destruct (FileInfo.IsSubtitle f) eqn:Hf; [destruct rd as [content|]|].
      * rewrite elem_of_cons. split.
        -- intros [Heq|Hin]; [|right; exact Hin].
           injection Heq as <- ->. left. eauto.
        -- intros [(-> & _ & c & Hc & ->)|Hin]; [|right; exact Hin].
           injection Hc as ->. left. reflexivity.
      * split; [auto|]. intros [(_ & _ & c & Hc & _)|Hin]; [discriminate|exact Hin].
      * split; [auto|]. intros [(_ & Hc & _)|Hin]; [discriminate|exact Hin].
Qed.

Lemma candidates_indices (files : list FileInfo.t) :
  forall (i : nat) (reads : list (option string)),
    StronglySorted Z.lt (indices (candidates i files reads).*2)
    /\ Forall (fun x => Z.of_nat i <= x) (indices (candidates i files reads).*2).
Proof.
  induction files as [|f files IH]; intros i reads.
  - simpl. split; constructor.
  - destruct reads as [|rd reads]; [simpl; split; constructor|].
    destruct (IH (S i) reads) as [Hs Hf].
    assert (Hf' : Forall (fun x => Z.of_nat i <= x)
                    (indices (candidates (S i) files reads).*2)).
    { eapply Forall_impl; [exact Hf|]. intros x Hx. simpl in Hx. lia. }
    cbn [candidates].
    destruct (FileInfo.IsSubtitle f); [destruct rd|]; try (split; assumption).
    unfold indices. cbn [fmap list_fmap snd subtitleOf SubtitleInfo.Index].
    split.
    + constructor; [exact Hs|].
      eapply Forall_impl; [exact Hf|]. intros x Hx. simpl in Hx. lia.
    + constructor; [lia|exact Hf'].
Qed.

Lemma StronglySorted_lt_NoDup (l : list Z) : StronglySorted Z.lt l -> NoDup l.
Proof.
  induction 1 as [|x l Hs IH Hall]; [constructor|].
  apply NoDup_cons. split; [|exact IH].
  intros Hin. rewrite Forall_forall in Hall. specialize (Hall x Hin). lia.
Qed.

Section Buckets.
Variable p : FileInfo.t * SubtitleInfo.t -> bool.

Lemma filter_indices_sorted (cands : list (FileInfo.t * SubtitleInfo.t)) :
  StronglySorted Z.lt (indices cands.*2) ->
  StronglySorted Z.lt (indices (List.filter p cands).*2).
Proof.
  induction cands as [|c cands IH]; [trivial|].
  unfold indices. cbn [fmap list_fmap List.filter]. intros Hs.
  apply StronglySorted_inv in Hs as [Hs Hall].
  specialize (IH Hs). destruct (p c); [|exact IH].
  cbn [fmap list_fmap]. constructor; [exact IH|].
  rewrite Forall_forall in *. intros x Hx. apply Hall.
  clear -Hx. induction cands as [|d cands IHc]; [exact Hx|].
  cbn [List.filter] in Hx. cbn [fmap list_fmap].
  destruct (p d); cbn [fmap list_fmap] in Hx.
  - apply elem_of_cons in Hx as [->|Hx]; [left|right; auto].
  - right. auto.
Qed.

Lemma filter_partition (cands : list (FileInfo.t * SubtitleInfo.t)) :
  (List.filter p cands).*2 ++ (List.filter (fun c => negb (p c)) cands).*2
  ≡ₚ cands.*2.
Proof.
  induction cands as [|c cands IH]; [reflexivity|].
  cbn [List.filter]. destruct (p c); cbn [negb fmap list_fmap app].
  - constructor. exact IH.
  - rewrite <- Permutation_middle. constructor. exact IH.
Qed.

Lemma filter_elem (cands : list (FileInfo.t * SubtitleInfo.t))
    (c : FileInfo.t * SubtitleInfo.t) :
  c ∈ List.filter p cands <-> c ∈ cands /\ p c = true.
Proof. rewrite !list_elem_of_In. apply List.filter_In. Qed.
End Buckets.

Lemma rebuilt_perm (sel : string) (cands : list (FileInfo.t * SubtitleInfo.t)) :
  rebuilt sel cands ≡ₚ cands.*2.
Proof.
  unfold rebuilt, matchedBucket, otherBucket.
  apply (filter_partition (fun c => matches sel (FileInfo.Path (fst c)))).
Qed.

Lemma rebuilt_indices (sel : string) (mt : ManagedTorrent.t) :
  NoDup (indices (rebuilt sel (sessionCandidates mt)))
  /\ Forall (fun x => 0 <= x) (indices (rebuilt sel (sessionCandidates mt))).
Proof.
  unfold indices. rewrite rebuilt_perm.
  destruct (candidates_indices (ManagedTorrent.Files mt) 0
              (torrent.ReadAll <$> torrent.Files (ManagedTorrent.Torrent mt)))
    as [Hs Hf].
  split; [apply StronglySorted_lt_NoDup; exact Hs|exact Hf].
Qed.

(** ** SelectFile on a valid index *)

Lemma SelectFile_valid (m : TorrentManager) (id : string) (mt : ManagedTorrent.t)
    (fileIndex now : Z) :
  torrents m !! id = Some mt ->
  0 <= fileIndex < Z.of_nat (length (ManagedTorrent.Files mt)) ->
  length (torrent.Files (ManagedTorrent.Torrent mt))
  = length (ManagedTorrent.Files mt) ->
  exists sel mt',
    ManagedTorrent.Files mt !! Z.to_nat fileIndex = Some sel
    /\ (SelectFile m id fileIndex now).2 = Ok mt'
    /\ torrents (SelectFile m id fileIndex now).1 !! id = Some mt'
    /\ ManagedTorrent.Subtitles mt'
       = rebuilt (FileInfo.Path sel) (sessionCandidates mt)
    /\ ManagedTorrent.SelectedFile mt' = fileIndex
    /\ ManagedTorrent.Files mt' = ManagedTorrent.Files mt
    /\ reads mt' = reads mt
    /\ ManagedTorrent.ID mt' = ManagedTorrent.ID mt.
Proof.
  intros Hm Hrange Hlen.
  destruct (SelectFile_ok m id mt fileIndex now Hm Hrange Hlen)
    as (tfs & sel & Hsel & Heq & Hr & Hl).
  exists sel, (selected mt tfs fileIndex sel now). rewrite Heq.
  cbn [fst snd torrents withTorrents]. rewrite lookup_insert_eq.
  repeat split; try reflexivity; try assumption.
Qed.

Lemma sessionCandidates_reads (mt1 mt2 : ManagedTorrent.t) :
  ManagedTorrent.Files mt1 = ManagedTorrent.Files mt2 ->
  reads mt1 = reads mt2 ->
  sessionCandidates mt1 = sessionCandidates mt2.
Proof. unfold sessionCandidates, reads. intros -> ->. reflexivity. Qed.

Lemma reads_length (mt1 mt2 : ManagedTorrent.t) :
  reads mt1 = reads mt2 ->
  length (torrent.Files (ManagedTorrent.Torrent mt1))
  = length (torrent.Files (ManagedTorrent.Torrent mt2)).
Proof.
  unfold reads. intros H. apply (f_equal length) in H.
  rewrite !length_fmap in H. exact H.
Qed.

Lemma candidates_functional (mt : ManagedTorrent.t) (fi fi' : FileInfo.t)
    (sub : SubtitleInfo.t) :
  (fi, sub) ∈ sessionCandidates mt -> (fi', sub) ∈ sessionCandidates mt -> fi = fi'.
Proof.
  unfold sessionCandidates. rewrite !candidates_elem.
  intros (j & c & Hj & _ & _ & Hs) (j' & c' & Hj' & _ & _ & Hs').
  assert (j = j').
  { rewrite Hs in Hs'. apply (f_equal SubtitleInfo.Index) in Hs'.
    simpl in Hs'. lia. }
  subst j'. congruence.
Qed.

(** The example of section 8 of the specification. *)
Example matcher_example :
  matches "Show/S01E01.mkv" "Show/S01E01.en.srt" = true
  /\ matches "Show/S01E01.mkv" "Other/random.srt" = false.
Proof. split; vm_compute; reflexivity. Qed.

(** C3: the test SelectFile applies to a candidate path holds if and only
    if the candidate's base name without extension starts with the selected
    file's base name without extension or both lie in the same directory;
    on a valid selection, every candidate (a file flagged is-subtitle whose
    bytes were read) is in the matched bucket exactly when the test holds
    and in the other bucket otherwise; the stored list is the matched
    bucket followed by the other one, and the file positions grow strictly
    within each bucket (file-list order is kept). *)
Theorem C3_matched_first_in_file_order (m : TorrentManager) (id : string)
    (mt : ManagedTorrent.t) (fileIndex now : Z)
    (Hm : torrents m !! id = Some mt)
    (Hrange : 0 <= fileIndex < Z.of_nat (length (ManagedTorrent.Files mt)))
    (Hfiles : length (torrent.Files (ManagedTorrent.Torrent mt))
              = length (ManagedTorrent.Files mt)) :
  exists sel mt',
    ManagedTorrent.Files mt !! Z.to_nat fileIndex = Some sel
    /\ (SelectFile m id fileIndex now).2 = Ok mt'
    /\ torrents (SelectFile m id fileIndex now).1 !! id = Some mt'
    /\ ManagedTorrent.Subtitles mt'
       = matchedBucket (FileInfo.Path sel) (sessionCandidates mt)
         ++ otherBucket (FileInfo.Path sel) (sessionCandidates mt)
    /\ (forall path,
          sameBaseOrDir (stripExt (Base (FileInfo.Path sel)))
            (Dir (FileInfo.Path sel)) path = true
          <-> (HasPrefix (stripExt (Base path))
                         (stripExt (Base (FileInfo.Path sel))) = true
               \/ Dir path = Dir (FileInfo.Path sel)))
    /\ (forall fi sub, (fi, sub) ∈ sessionCandidates mt ->
          (sub ∈ matchedBucket (FileInfo.Path sel) (sessionCandidates mt)
           <-> (HasPrefix (stripExt (Base (FileInfo.Path fi)))
                          (stripExt (Base (FileInfo.Path sel))) = true
                \/ Dir (FileInfo.Path fi) = Dir (FileInfo.Path sel)))
          /\ (sub ∈ otherBucket (FileInfo.Path sel) (sessionCandidates mt)
              <-> matches (FileInfo.Path sel) (FileInfo.Path fi) = false))
    /\ StronglySorted Z.lt
         (indices (matchedBucket (FileInfo.Path sel) (sessionCandidates mt)))
    /\ StronglySorted Z.lt
         (indices (otherBucket (FileInfo.Path sel) (sessionCandidates mt))).
Proof.
  destruct (SelectFile_valid m id mt fileIndex now Hm Hrange Hfiles)
    as (sel & mt' & Hsel & Hres & Hst & Hsubs & _).
  exists sel, mt'. repeat (split; [assumption|]).
  pose proof (candidates_indices (ManagedTorrent.Files mt) 0 (reads mt)) as [Hsorted _].
  assert (Hspec : forall path,
            matches (FileInfo.Path sel) path = true
            <-> (HasPrefix (stripExt (Base path))
                           (stripExt (Base (FileInfo.Path sel))) = true
                 \/ Dir path = Dir (FileInfo.Path sel))).
  { intros path. unfold matches, streq.
    rewrite orb_true_iff, String.eqb_eq. reflexivity. }
  split; [intros path; rewrite sameBaseOrDir_matches; apply Hspec|].
  split; [|split; apply filter_indices_sorted; exact Hsorted].
  intros fi sub Hin.
  rewrite <- Hspec. unfold matchedBucket, otherBucket.
  split; (split;
    [ intros Hsub; apply list_elem_of_fmap in Hsub as ([fi' sub'] & Heq & Hc);
      simpl in Heq; subst sub'; apply filter_elem in Hc as [Hc Hp];
      rewrite (candidates_functional mt fi fi' sub Hin Hc); simpl in Hp
    | intros Hp; apply list_elem_of_fmap; exists (fi, sub); split; [reflexivity|];
      apply filter_elem; split; [exact Hin|simpl] ]).
  - exact Hp.
  - exact Hp.
  - apply negb_true_iff in Hp. exact Hp.
  - rewrite Hp. reflexivity.
Qed.

Example demo_lookup : torrents demoManager !! "aa11" = Some demoSession.
Proof. vm_compute. reflexivity. Qed.

Example demo_files :
  length (ManagedTorrent.Files demoSession) = 7%nat
  /\ length (torrent.Files (ManagedTorrent.Torrent demoSession)) = 7%nat.
Proof. split; vm_compute; reflexivity. Qed.

Example demo_select_indices :
  (fun mt => indices (ManagedTorrent.Subtitles mt))
    <$> torrents (SelectFile demoManager "aa11" 0 5).1 !! "aa11"
  = Some [2; 4; 1].
Proof. vm_compute. reflexivity. Qed.

(** C3 at the example transfer, first video selected. *)
Lemma C3_matched_first_witness :
  exists sel mt',
    ManagedTorrent.Files demoSession !! Z.to_nat 0 = Some sel
    /\ (SelectFile demoManager "aa11" 0 5).2 = Ok mt'
    /\ torrents (SelectFile demoManager "aa11" 0 5).1 !! "aa11" = Some mt'
    /\ ManagedTorrent.Subtitles mt'
       = matchedBucket (FileInfo.Path sel) (sessionCandidates demoSession)
         ++ otherBucket (FileInfo.Path sel) (sessionCandidates demoSession)
    /\ (forall path,
          sameBaseOrDir (stripExt (Base (FileInfo.Path sel)))
            (Dir (FileInfo.Path sel)) path = true
          <-> (HasPrefix (stripExt (Base path))
                         (stripExt (Base (FileInfo.Path sel))) = true
               \/ Dir path = Dir (FileInfo.Path sel)))
    /\ (forall fi sub, (fi, sub) ∈ sessionCandidates demoSession ->
          (sub ∈ matchedBucket (FileInfo.Path sel) (sessionCandidates demoSession)
           <-> (HasPrefix (stripExt (Base (FileInfo.Path fi)))
                          (stripExt (Base (FileInfo.Path sel))) = true
                \/ Dir (FileInfo.Path fi) = Dir (FileInfo.Path sel)))
          /\ (sub ∈ otherBucket (FileInfo.Path sel) (sessionCandidates demoSession)
              <-> matches (FileInfo.Path sel) (FileInfo.Path fi) = false))
    /\ StronglySorted Z.lt
         (indices (matchedBucket (FileInfo.Path sel) (sessionCandidates demoSession)))
    /\ StronglySorted Z.lt
         (indices (otherBucket (FileInfo.Path sel) (sessionCandidates demoSession))).
Proof.
  apply (C3_matched_first_in_file_order demoManager "aa11" demoSession 0 5).
  - vm_compute. reflexivity.
  - vm_compute. split; [discriminate|reflexivity].
  - vm_compute. reflexivity.
Defined.

(** C8: on a valid selection SelectFile returns the session and records
    the selected index whatever the reads of the subtitle files give; a
    subtitle file whose read fails has no entry in the rebuilt list, and
    every subtitle file whose read succeeds has its entry there (the scan
    went on past the failures). *)
Theorem C8_unreadable_candidate_is_skipped (m : TorrentManager) (id : string)
    (mt : ManagedTorrent.t) (fileIndex now : Z)
    (Hm : torrents m !! id = Some mt)
    (Hrange : 0 <= fileIndex < Z.of_nat (length (ManagedTorrent.Files mt)))
    (Hfiles : length (torrent.Files (ManagedTorrent.Torrent mt))
              = length (ManagedTorrent.Files mt)) :
  exists mt',
    (SelectFile m id fileIndex now).2 = Ok mt'
    /\ torrents (SelectFile m id fileIndex now).1 !! id = Some mt'
    /\ ManagedTorrent.SelectedFile mt' = fileIndex
    /\ forall (j : nat) (fi : FileInfo.t) (tf : torrent.File),
         ManagedTorrent.Files mt !! j = Some fi ->
         FileInfo.IsSubtitle fi = true ->
         torrent.Files (ManagedTorrent.Torrent mt) !! j = Some tf ->
         match readTorrentFile tf with
         | None => Z.of_nat j ∉ indices (ManagedTorrent.Subtitles mt')
         | Some content => subtitleOf j fi content ∈ ManagedTorrent.Subtitles mt'
         end.
Proof.
  destruct (SelectFile_valid m id mt fileIndex now Hm Hrange Hfiles)
    as (sel & mt' & Hsel & Hres & Hst & Hsubs & Hidx & _).
  exists mt'. repeat (split; [assumption|]).
  intros j fi tf Hfi Hsub Htf. rewrite Hsubs. unfold readTorrentFile.
  assert (Hrd : reads mt !! j = Some (torrent.ReadAll tf)).
  { unfold reads. rewrite list_lookup_fmap, Htf. reflexivity. }
  destruct (torrent.ReadAll tf) as [content|] eqn:Hread.
  - rewrite rebuilt_perm. apply list_elem_of_fmap.
    exists (fi, subtitleOf j fi content). split; [reflexivity|].
    unfold sessionCandidates. apply candidates_elem.
    exists j, content. auto.
  - unfold indices. rewrite rebuilt_perm. intros Hin.
    apply list_elem_of_fmap in Hin as (sub & Hj & Hin).
    apply list_elem_of_fmap in Hin as ([fi' sub'] & Heq & Hin).
    simpl in Heq. subst sub'. unfold sessionCandidates in Hin.
    apply candidates_elem in Hin as (j' & c & _ & Hr' & _ & Hs).
    rewrite Hs in Hj. simpl in Hj. assert (j' = j) by lia. subst j'.
    unfold reads in Hrd. congruence.
Qed.

(** C8 at the example transfer, whose fourth file cannot be read. *)
Lemma C8_unreadable_candidate_witness :
  exists mt',
    (SelectFile demoManager "aa11" 0 5).2 = Ok mt'
    /\ torrents (SelectFile demoManager "aa11" 0 5).1 !! "aa11" = Some mt'
    /\ ManagedTorrent.SelectedFile mt' = 0
    /\ forall (j : nat) (fi : FileInfo.t) (tf : torrent.File),
         ManagedTorrent.Files demoSession !! j = Some fi ->
         FileInfo.IsSubtitle fi = true ->
         torrent.Files (ManagedTorrent.Torrent demoSession) !! j = Some tf ->
         match readTorrentFile tf with
         | None => Z.of_nat j ∉ indices (ManagedTorrent.Subtitles mt')
         | Some content => subtitleOf j fi content ∈ ManagedTorrent.Subtitles mt'
         end.
Proof.
  apply (C8_unreadable_candidate_is_skipped demoManager "aa11" demoSession 0 5).
  - vm_compute. reflexivity.
  - vm_compute. split; [discriminate|reflexivity].
  - vm_compute. reflexivity.
Defined.

(** In the example the third subtitle file cannot be read: the two
    readable files of the directory and the one elsewhere are listed. *)
Example demo_unreadable_skipped :
  readTorrentFile <$> torrent.Files demoTorrent !! 3%nat = Some None
  /\ (fun mt => indices (ManagedTorrent.Subtitles mt))
       <$> torrents (SelectFile demoManager "aa11" 0 5).1 !! "aa11"
     = Some [2; 4; 1].
Proof. split; vm_compute; reflexivity. Qed.

(** ** Attaching a subtitle *)

Lemma upload_keeps_transfer (m : TorrentManager) (id : string)
    (mt : ManagedTorrent.t) (now : Z) (form : string + string * string) :
  torrents m !! id = Some mt ->
  exists mt',
    torrents (handleUploadSubtitle m id now form).1 !! id = Some mt'
    /\ ManagedTorrent.Files mt' = ManagedTorrent.Files mt
    /\ ManagedTorrent.Torrent mt' = ManagedTorrent.Torrent mt
    /\ ManagedTorrent.SelectedFile mt' = ManagedTorrent.SelectedFile mt
    /\ ManagedTorrent.ID mt' = ManagedTorrent.ID mt.
Proof.
  intros Hm. unfold handleUploadSubtitle.
  destruct (streq id EmptyString); [exists mt; auto|].
  rewrite (GetTorrent_found _ _ _ _ Hm).
  destruct form as [e|[filename content]].
  - eexists. cbn [fst torrents withTorrents]. rewrite lookup_insert_eq.
    split; [reflexivity|]. auto.
  - destruct (normalizeUpload filename content) as [name content'].
    unfold appendSubtitle.
    eexists. cbn [fst torrents withTorrents]. rewrite lookup_insert_eq.
    split; [reflexivity|]. auto.
Qed.

(** C7: selecting [a] and then [b] leaves the subtitle list that selecting
    [b] alone gives, also when a subtitle was attached (and got a negative
    index) in between: the rebuild starts from an empty list. *)
Theorem C7_selection_resets_subtitles (m : TorrentManager) (id : string)
    (mt : ManagedTorrent.t) (a b now1 now2 now3 now4 : Z)
    (form : string + string * string)
    (Hm : torrents m !! id = Some mt)
    (Ha : 0 <= a < Z.of_nat (length (ManagedTorrent.Files mt)))
    (Hb : 0 <= b < Z.of_nat (length (ManagedTorrent.Files mt)))
    (Hfiles : length (torrent.Files (ManagedTorrent.Torrent mt))
              = length (ManagedTorrent.Files mt)) :
  exists mtb mtab mtaub,
    (SelectFile m id b now3).2 = Ok mtb
    /\ (SelectFile (SelectFile m id a now1).1 id b now2).2 = Ok mtab
    /\ torrents (SelectFile (SelectFile m id a now1).1 id b now2).1 !! id = Some mtab
    /\ ManagedTorrent.Subtitles mtab = ManagedTorrent.Subtitles mtb
    /\ (SelectFile (handleUploadSubtitle (SelectFile m id a now1).1 id now4 form).1
                   id b now2).2 = Ok mtaub
    /\ ManagedTorrent.Subtitles mtaub = ManagedTorrent.Subtitles mtb.
Proof.
  destruct (SelectFile_valid m id mt b now3 Hm Hb Hfiles)
    as (selb & mtb & Hselb & Hresb & _ & Hsubsb & _).
  destruct (SelectFile_valid m id mt a now1 Hm Ha Hfiles)
    as (sela & mta & _ & _ & Hsta & _ & _ & Hfa & Hra & _).
  assert (Hla : length (torrent.Files (ManagedTorrent.Torrent mta))
                = length (ManagedTorrent.Files mta)).
  { rewrite (reads_length _ _ Hra), Hfa. exact Hfiles. }
  assert (Hba : 0 <= b < Z.of_nat (length (ManagedTorrent.Files mta)))
    by (rewrite Hfa; exact Hb).
  destruct (SelectFile_valid _ id mta b now2 Hsta Hba Hla)
    as (selb' & mtab & Hselb' & Hresab & Hstab & Hsubsab & _).
  destruct (upload_keeps_transfer _ id mta now4 form Hsta)
    as (mtu & Hstu & Hfu & Htu & _).
  assert (Hru : reads mtu = reads mta) by (unfold reads; rewrite Htu; reflexivity).
  assert (Hlu : length (torrent.Files (ManagedTorrent.Torrent mtu))
                = length (ManagedTorrent.Files mtu)).
  { rewrite Htu, Hfu. exact Hla. }
  assert (Hbu : 0 <= b < Z.of_nat (length (ManagedTorrent.Files mtu)))
    by (rewrite Hfu; exact Hba).
  destruct (SelectFile_valid _ id mtu b now2 Hstu Hbu Hlu)
    as (selb'' & mtaub & Hselb'' & Hresaub & _ & Hsubsaub & _).
  exists mtb, mtab, mtaub.
  rewrite Hfa, Hselb in Hselb'. injection Hselb' as <-.
  rewrite Hfu, Hfa, Hselb in Hselb''. injection Hselb'' as <-.
  repeat (split; [assumption|]).
  split; [|split; [assumption|]].
  - rewrite Hsubsab, Hsubsb.
    rewrite (sessionCandidates_reads mta mt Hfa Hra). reflexivity.
  - rewrite Hsubsaub, Hsubsb.
    rewrite (sessionCandidates_reads mtu mt); [reflexivity|congruence|congruence].
Qed.

(** C7 at the example transfer: first video, an upload, then the second
    video. *)
Lemma C7_selection_resets_witness :
  exists mtb mtab mtaub,
    (SelectFile demoManager "aa11" 5 3).2 = Ok mtb
    /\ (SelectFile (SelectFile demoManager "aa11" 0 1).1 "aa11" 5 2).2 = Ok mtab
    /\ torrents (SelectFile (SelectFile demoManager "aa11" 0 1).1 "aa11" 5 2).1
         !! "aa11" = Some mtab
    /\ ManagedTorrent.Subtitles mtab = ManagedTorrent.Subtitles mtb
    /\ (SelectFile
          (handleUploadSubtitle (SelectFile demoManager "aa11" 0 1).1 "aa11" 4
             (inr ("mine.srt", fixtureSRT))).1
          "aa11" 5 2).2 = Ok mtaub
    /\ ManagedTorrent.Subtitles mtaub = ManagedTorrent.Subtitles mtb.
Proof.
  apply (C7_selection_resets_subtitles demoManager "aa11" demoSession 0 5 1 2 3 4
           (inr ("mine.srt", fixtureSRT))).
  - vm_compute. reflexivity.
  - vm_compute. split; [discriminate|reflexivity].
  - vm_compute. split; [discriminate|reflexivity].
  - vm_compute. reflexivity.
Defined.

(** ** The invariant of the registry *)

Lemma classifyFrom_length (fs : list torrent.File) :
  forall i, length (classifyFrom i fs) = length fs.
Proof. induction fs as [|f fs IH]; intros i; simpl; [reflexivity|]. rewrite IH. reflexivity. Qed.

Lemma sessionOk_new (t : torrent.Torrent) (now : Z) :
  sessionOk (newManagedTorrent t now).
Proof.
  split; simpl.
  - left. reflexivity.
  - unfold classifyFiles. rewrite classifyFrom_length. reflexivity.
  - constructor.
  - constructor.
Qed.

Lemma sessionOk_touch (mt : ManagedTorrent.t) (now : Z) :
  sessionOk mt -> sessionOk (ManagedTorrent.touch now mt).
Proof. intros [H1 H2 H3 H4]. split; assumption. Qed.

Lemma sessionOk_selected (mt : ManagedTorrent.t) (tfs : list torrent.File)
    (fileIndex now : Z) (sel : FileInfo.t) :
  0 <= fileIndex < Z.of_nat (length (ManagedTorrent.Files mt)) ->
  length tfs = length (ManagedTorrent.Files mt) ->
  sessionOk (selected mt tfs fileIndex sel now).
Proof.
  intros Hrange Hlen.
  destruct (rebuilt_indices (FileInfo.Path sel) mt) as [Hnd Hpos].
  split; simpl.
  - right. exact Hrange.
  - exact Hlen.
  - exact Hnd.
  - eapply Forall_impl; [exact Hpos|]. intros x Hx. simpl in Hx. lia.
Qed.

Lemma sessionOk_append (mt : ManagedTorrent.t) (name content : string) :
  sessionOk mt -> sessionOk (appendSubtitle mt name content).1.
Proof.
  intros [Hsel Hfiles Hnd Hfloor]. unfold appendSubtitle. split; simpl.
  - exact Hsel.
  - exact Hfiles.
  - unfold indices in *. rewrite fmap_app. simpl.
    apply NoDup_app. split; [exact Hnd|]. split; [|apply NoDup_singleton].
    intros x Hx Hin. apply list_elem_of_singleton in Hin. subst x.
    rewrite Forall_forall in Hfloor. specialize (Hfloor _ Hx). simpl in Hfloor. lia.
  - unfold indices in *. rewrite fmap_app, length_app. simpl.
    apply Forall_app. split.
    + eapply Forall_impl; [exact Hfloor|]. intros x Hx. simpl in Hx. lia.
    + constructor; [lia|constructor].
Qed.

Lemma registryOk_empty : registryOk NewTorrentManager.
Proof. intros k mt H. simpl in H. rewrite lookup_empty in H. discriminate. Qed.

Lemma registryOk_insert (m : TorrentManager) (id : string) (mt : ManagedTorrent.t) :
  registryOk m -> ManagedTorrent.ID mt = id -> sessionOk mt ->
  registryOk (withTorrents m (<[id := mt]> (torrents m))).
Proof.
  intros Hok Hid Hmt k mt' Hk. simpl in Hk.
  destruct (decide (id = k)) as [->|Hne].
  - rewrite lookup_insert_eq in Hk. injection Hk as <-. auto.
  - rewrite lookup_insert_ne in Hk by exact Hne. apply Hok. exact Hk.
Qed.

Lemma registryOk_sub (m m' : TorrentManager) :
  registryOk m ->
  (forall k mt, torrents m' !! k = Some mt -> torrents m !! k = Some mt) ->
  registryOk m'.
Proof. intros Hok Hsub k mt Hk. apply Hok, Hsub, Hk. Qed.

Lemma registryOk_Drop (m : TorrentManager) (t : torrent.Torrent) :
  registryOk m -> registryOk (Drop t m).
Proof. intros Hok. eapply registryOk_sub; [exact Hok|]. auto. Qed.

Lemma registryOk_GetTorrent (m : TorrentManager) (id : string) (now : Z) :
  registryOk m -> registryOk (GetTorrent m id now).1.
Proof.
  intros Hok. destruct (torrents m !! id) as [mt|] eqn:Hm.
  - rewrite (GetTorrent_found _ _ _ _ Hm). destruct (Hok _ _ Hm) as [Hid Hs].
    apply registryOk_insert; [exact Hok|exact Hid|apply sessionOk_touch; exact Hs].
  - rewrite (GetTorrent_absent _ _ _ Hm). exact Hok.
Qed.

Lemma registryOk_AddMagnet_insert (m : TorrentManager) (t : torrent.Torrent) (now : Z) :
  registryOk m -> registryOk (AddMagnet_insert m t (newManagedTorrent t now)).1.
Proof.
  intros Hok. unfold AddMagnet_insert.
  destruct (torrents m !! torrent.InfoHash t); simpl.
  - apply registryOk_Drop. exact Hok.
  - apply registryOk_insert; [exact Hok|reflexivity|apply sessionOk_new].
Qed.

Lemma registryOk_RemoveTorrent (m : TorrentManager) (id : string) :
  registryOk m -> registryOk (RemoveTorrent m id).
Proof.
  intros Hok. unfold RemoveTorrent. destruct (torrents m !! id); [|exact Hok].
  eapply registryOk_sub; [exact Hok|]. simpl. intros k mt Hk.
  apply lookup_delete_Some in Hk as [_ Hk]. exact Hk.
Qed.

Lemma registryOk_cleanup (m : TorrentManager) (now maxAge : Z) :
  registryOk m -> registryOk (cleanup m now maxAge).
Proof.
  unfold cleanup. generalize ((filter (fun kv => maxAge < now - ManagedTorrent.LastAccessed kv.2)
            (map_to_list (torrents m))).*1).
  intros ids. revert m. induction ids as [|id ids IH]; intros m Hok; simpl; [exact Hok|].
  apply IH, registryOk_RemoveTorrent, Hok.
Qed.

Lemma registryOk_RemoveAll (m : TorrentManager) :
  registryOk m -> registryOk (RemoveAll m).
Proof.
  unfold RemoveAll. generalize ((map_to_list (torrents m)).*1).
  intros ids. revert m. induction ids as [|id ids IH]; intros m Hok; simpl; [exact Hok|].
  apply IH. destruct (torrents m !! id); [|exact Hok].
  eapply registryOk_sub; [exact Hok|]. simpl. intros k mt Hk.
  apply lookup_delete_Some in Hk as [_ Hk]. exact Hk.
Qed.

(** An index outside the file list: the error, and only the access time of
    the session changes. *)
Lemma SelectFile_out_of_range (m : TorrentManager) (id : string)
    (mt : ManagedTorrent.t) (fileIndex now : Z) :
  torrents m !! id = Some mt ->
  fileIndex < 0 \/ Z.of_nat (length (ManagedTorrent.Files mt)) <= fileIndex ->
  SelectFile m id fileIndex now
  = (withTorrents m (<[id := ManagedTorrent.touch now mt]> (torrents m)),
     Err errOutOfRange).
Proof.
  intros Hm Hbad. unfold SelectFile. rewrite (GetTorrent_found _ _ _ _ Hm).
  cbn [ManagedTorrent.touch ManagedTorrent.Files].
  destruct (fileIndex <? 0) eqn:Hlt; [reflexivity|].
  destruct (Z.of_nat (length (ManagedTorrent.Files mt)) <=? fileIndex) eqn:Hge;
    [reflexivity|lia].
Qed.

Lemma registryOk_SelectFile (m : TorrentManager) (id : string) (fileIndex now : Z) :
  registryOk m -> registryOk (SelectFile m id fileIndex now).1.
Proof.
  intros Hok. destruct (torrents m !! id) as [mt|] eqn:Hm.
  - destruct (Hok _ _ Hm) as [Hid Hs].
    destruct (Z_lt_ge_dec fileIndex 0) as [Hneg|Hpos];
      [|destruct (Z_lt_ge_dec fileIndex (Z.of_nat (length (ManagedTorrent.Files mt))))
          as [Hin|Hout]].
    + rewrite (SelectFile_out_of_range _ _ _ _ _ Hm) by (left; exact Hneg).
      apply registryOk_insert; [exact Hok|exact Hid|apply sessionOk_touch; exact Hs].
    + destruct (SelectFile_ok m id mt fileIndex now Hm) as (tfs & sel & _ & Heq & _ & Hl);
        [lia|apply Hs|].
      rewrite Heq. apply registryOk_insert; [exact Hok|exact Hid|].
      apply sessionOk_selected; [lia|exact Hl].
    + rewrite (SelectFile_out_of_range _ _ _ _ _ Hm) by (right; lia).
      apply registryOk_insert; [exact Hok|exact Hid|apply sessionOk_touch; exact Hs].
  - unfold SelectFile. rewrite (GetTorrent_absent _ _ _ Hm). exact Hok.
Qed.

Lemma GetFileReader_state (m : TorrentManager) (id : string) (now : Z) :
  (GetFileReader m id now).1 = (GetTorrent m id now).1.
Proof.
  unfold GetFileReader. destruct (GetTorrent m id now) as [m' [mt|]]; [|reflexivity].
  destruct (ManagedTorrent.SelectedFile mt <? 0); [reflexivity|].
  destruct (_ !! _); reflexivity.
Qed.

Lemma handleSubtitle_state (m : TorrentManager) (id : string) (fileIndex now : Z) :
  (handleSubtitle m id fileIndex now).1 = m
  \/ (handleSubtitle m id fileIndex now).1 = (GetTorrent m id now).1.
Proof.
  unfold handleSubtitle. destruct (streq id EmptyString); [left; reflexivity|].
  right. destruct (GetTorrent m id now) as [m' [mt|]]; [|reflexivity].
  destruct (findSubtitle _ _); reflexivity.
Qed.

Lemma registryOk_attach (m : TorrentManager) (id : string) (mt : ManagedTorrent.t)
    (now : Z) (name content : string) :
  registryOk m -> torrents m !! id = Some mt ->
  registryOk
    (withTorrents
       (withTorrents m (<[id := ManagedTorrent.touch now mt]> (torrents m)))
       (<[id := (appendSubtitle (ManagedTorrent.touch now mt) name content).1]>
          (<[id := ManagedTorrent.touch now mt]> (torrents m)))).
Proof.
  intros Hok Hm. destruct (Hok _ _ Hm) as [Hid Hs].
  unfold withTorrents. cbn [torrents dropped]. rewrite insert_insert_eq.
  apply (registryOk_insert m id); [exact Hok|exact Hid|].
  apply sessionOk_append, sessionOk_touch, Hs.
Qed.

Lemma registryOk_upload (m : TorrentManager) (id : string) (now : Z)
    (form : string + string * string) :
  registryOk m -> registryOk (handleUploadSubtitle m id now form).1.
Proof.
  intros Hok. unfold handleUploadSubtitle.
  destruct (streq id EmptyString); [exact Hok|].
  destruct (torrents m !! id) as [mt|] eqn:Hm.
  - rewrite (GetTorrent_found _ _ _ _ Hm).
    destruct form as [e|[filename content]].
    + pose proof (registryOk_GetTorrent m id now Hok) as H.
      rewrite (GetTorrent_found _ _ _ _ Hm) in H. exact H.
    + destruct (normalizeUpload filename content) as [name content'].
      apply (registryOk_attach m id mt now name content' Hok Hm).
  - rewrite (GetTorrent_absent _ _ _ Hm). exact Hok.
Qed.

Lemma registryOk_download (m : TorrentManager) (id : string) (now : Z)
    (fileID : option Z) (download : string + string * string) :
  registryOk m -> registryOk (handleDownloadSubtitle m id now fileID download).1.
Proof.
  intros Hok. unfold handleDownloadSubtitle.
  destruct (streq id EmptyString); [exact Hok|].
  destruct (torrents m !! id) as [mt|] eqn:Hm.
  - rewrite (GetTorrent_found _ _ _ _ Hm).
    assert (Htouch : registryOk
              (withTorrents m (<[id := ManagedTorrent.touch now mt]> (torrents m)))).
    { pose proof (registryOk_GetTorrent m id now Hok) as H.
      rewrite (GetTorrent_found _ _ _ _ Hm) in H. exact H. }
    destruct fileID as [fid|]; [|exact Htouch].
    destruct (fid =? 0); [exact Htouch|].
    destruct download as [e|[content fileName]]; [exact Htouch|].
    destruct (normalizeUpload fileName content) as [name content'].
    apply (registryOk_attach m id mt now name content' Hok Hm).
  - rewrite (GetTorrent_absent _ _ _ Hm). exact Hok.
Qed.

Lemma registryOk_AddMagnet (m : TorrentManager) (added : string + torrent.Torrent)
    (gotInfo : bool) (ctxErr : string) (now now' : Z) :
  registryOk m -> registryOk (AddMagnet m added gotInfo ctxErr now now').1.
Proof.
  intros Hok. unfold AddMagnet, AddMagnet_lookup. destruct added as [e|t]; [exact Hok|].
  pose proof (registryOk_GetTorrent m (torrent.InfoHash t) now Hok) as Hg.
  destruct (GetTorrent m (torrent.InfoHash t) now) as [m1 [mt|]]; [exact Hg|].
  simpl in Hg. destruct gotInfo; simpl.
  - pose proof (registryOk_AddMagnet_insert m1 t now' Hg) as Hi.
    destruct (AddMagnet_insert m1 t (newManagedTorrent t now')) as [m2 mt2]. exact Hi.
  - apply registryOk_Drop. exact Hg.
Qed.

Lemma registryOk_exec (m : TorrentManager) (o : Op) :
  registryOk m -> registryOk (exec m o).
Proof.
  intros Hok. destruct o; simpl.
  - apply registryOk_GetTorrent, Hok.
  - apply registryOk_AddMagnet_insert, Hok.
  - apply registryOk_Drop, Hok.
  - apply registryOk_AddMagnet, Hok.
  - apply registryOk_SelectFile, Hok.
  - rewrite GetFileReader_state. apply registryOk_GetTorrent, Hok.
  - apply registryOk_RemoveTorrent, Hok.
  - apply registryOk_RemoveAll, Hok.
  - apply registryOk_cleanup, Hok.
  - apply registryOk_upload, Hok.
  - apply registryOk_download, Hok.
  - destruct (handleSubtitle_state m id fileIndex now) as [-> | ->];
      [exact Hok|apply registryOk_GetTorrent, Hok].
Qed.

Lemma registryOk_run (ops : list Op) : registryOk (run ops).
Proof.
  unfold run. generalize registryOk_empty. generalize NewTorrentManager.
  induction ops as [|o ops IH]; intros m Hok; simpl; [exact Hok|].
  apply IH, registryOk_exec, Hok.
Qed.

Lemma run_app (ops ops' : list Op) : run (ops ++ ops') = fold_left exec ops' (run ops).
Proof. unfold run. apply fold_left_app. Qed.

(** ** The registry holds one session per identifier *)

Lemma AddMagnet_insert_existing (m : TorrentManager) (t : torrent.Torrent)
    (mt existing : ManagedTorrent.t) :
  torrents m !! torrent.InfoHash t = Some existing ->
  AddMagnet_insert m t mt = (Drop t m, existing).
Proof. unfold AddMagnet_insert. intros ->. reflexivity. Qed.

Lemma AddMagnet_insert_stored (m : TorrentManager) (t : torrent.Torrent)
    (mt : ManagedTorrent.t) :
  torrents (AddMagnet_insert m t mt).1 !! torrent.InfoHash t
  = Some (AddMagnet_insert m t mt).2.
Proof.
  unfold AddMagnet_insert.
  destruct (torrents m !! torrent.InfoHash t) eqn:Hm; simpl.
  - exact Hm.
  - apply lookup_insert_eq.
Qed.

(** C1: after every sequence of registry operations, two stored sessions
    with the same identifier are the same entry of the map; the insert step
    of AddMagnet that finds a session stored under its identifier drops its
    own handle and returns that session; and when two callers with the same
    descriptor both reach the insert step, the second returns the session
    the first left in the map, so both observe one identifier and the map
    holds exactly one session with it. *)
Theorem C1_one_session_per_identifier (ops : list Op) (t1 t2 : torrent.Torrent)
    (now1 now2 : Z)
    (Hsame : torrent.InfoHash t1 = torrent.InfoHash t2) :
  let m := run ops in
  let first := AddMagnet_insert m t1 (newManagedTorrent t1 now1) in
  let second := AddMagnet_insert first.1 t2 (newManagedTorrent t2 now2) in
  (forall k1 k2 s1 s2,
      torrents m !! k1 = Some s1 -> torrents m !! k2 = Some s2 ->
      ManagedTorrent.ID s1 = ManagedTorrent.ID s2 -> k1 = k2 /\ s1 = s2)
  /\ (forall existing mt,
        torrents m !! torrent.InfoHash t1 = Some existing ->
        AddMagnet_insert m t1 mt = (Drop t1 m, existing))
  /\ second = (Drop t2 first.1, first.2)
  /\ ManagedTorrent.ID first.2 = torrent.InfoHash t1
  /\ ManagedTorrent.ID second.2 = ManagedTorrent.ID first.2
  /\ torrents second.1 !! torrent.InfoHash t1 = Some first.2
  /\ (forall k s,
        torrents second.1 !! k = Some s ->
        ManagedTorrent.ID s = torrent.InfoHash t1 ->
        k = torrent.InfoHash t1 /\ s = first.2).
Proof.
  intros m first second.
  assert (Hone : forall ops' k1 k2 s1 s2,
            torrents (run ops') !! k1 = Some s1 -> torrents (run ops') !! k2 = Some s2 ->
            ManagedTorrent.ID s1 = ManagedTorrent.ID s2 -> k1 = k2 /\ s1 = s2).
  { intros ops' k1 k2 s1 s2 H1 H2 Hid.
    pose proof (proj1 (registryOk_run ops' _ _ H1)) as E1.
    pose proof (proj1 (registryOk_run ops' _ _ H2)) as E2.
    assert (Hk : k1 = k2) by congruence.
    split; [exact Hk|]. rewrite Hk in H1. congruence. }
  assert (Hst1 : torrents first.1 !! torrent.InfoHash t1 = Some first.2)
    by apply AddMagnet_insert_stored.
  assert (Hsecond : second = (Drop t2 first.1, first.2)).
  { unfold second. apply AddMagnet_insert_existing. rewrite <- Hsame. exact Hst1. }
  assert (Hrun1 : first.1 = run (ops ++ [OpAddInsert t1 now1]))
    by (rewrite run_app; reflexivity).
  assert (Hid1 : ManagedTorrent.ID first.2 = torrent.InfoHash t1).
  { rewrite Hrun1 in Hst1. apply (registryOk_run _ _ _ Hst1). }
  split; [apply Hone|]. split; [intros; apply AddMagnet_insert_existing; assumption|].
  split; [exact Hsecond|]. split; [exact Hid1|].
  rewrite Hsecond. cbn [fst snd Drop torrents].
  split; [reflexivity|]. split; [exact Hst1|].
  intros k s Hk Hid. rewrite Hrun1 in Hk, Hst1.
  apply (Hone _ k (torrent.InfoHash t1) s first.2 Hk Hst1). congruence.
Qed.

(** C1 for two callers that hold handles of the example transfer and both
    reach the insert step of an empty registry. *)
Lemma C1_one_session_witness :
  let m := run [] in
  let first := AddMagnet_insert m demoTorrent (newManagedTorrent demoTorrent 1) in
  let second := AddMagnet_insert first.1 demoTorrent (newManagedTorrent demoTorrent 2) in
  (forall k1 k2 s1 s2,
      torrents m !! k1 = Some s1 -> torrents m !! k2 = Some s2 ->
      ManagedTorrent.ID s1 = ManagedTorrent.ID s2 -> k1 = k2 /\ s1 = s2)
  /\ (forall existing mt,
        torrents m !! torrent.InfoHash demoTorrent = Some existing ->
        AddMagnet_insert m demoTorrent mt = (Drop demoTorrent m, existing))
  /\ second = (Drop demoTorrent first.1, first.2)
  /\ ManagedTorrent.ID first.2 = torrent.InfoHash demoTorrent
  /\ ManagedTorrent.ID second.2 = ManagedTorrent.ID first.2
  /\ torrents second.1 !! torrent.InfoHash demoTorrent = Some first.2
  /\ (forall k s,
        torrents second.1 !! k = Some s ->
        ManagedTorrent.ID s = torrent.InfoHash demoTorrent ->
        k = torrent.InfoHash demoTorrent /\ s = first.2).
Proof.
  apply (C1_one_session_per_identifier [] demoTorrent demoTorrent 1 2).
  reflexivity.
Defined.

(** Two whole calls, one after the other, with handles of one identifier:
    the second returns the stored session of the first. *)
Lemma AddMagnet_twice (m : TorrentManager) (t1 t2 : torrent.Torrent)
    (e1 e2 : string) (now1 now1' now2 now2' : Z) (g2 : bool) :
  torrent.InfoHash t1 = torrent.InfoHash t2 ->
  exists s1 s2,
    (AddMagnet m (inr t1) true e1 now1 now1').2 = Ok s1
    /\ (AddMagnet (AddMagnet m (inr t1) true e1 now1 now1').1 (inr t2) g2 e2 now2 now2').2
       = Ok s2
    /\ s2 = ManagedTorrent.touch now2 s1
    /\ dropped (AddMagnet (AddMagnet m (inr t1) true e1 now1 now1').1
                  (inr t2) g2 e2 now2 now2').1 = dropped m.
Proof.
  intros Hsame.
  assert (H1 : exists s1 m1,
             AddMagnet m (inr t1) true e1 now1 now1' = (m1, Ok s1)
             /\ torrents m1 !! torrent.InfoHash t1 = Some s1
             /\ dropped m1 = dropped m).
  { unfold AddMagnet, AddMagnet_lookup.
    destruct (torrents m !! torrent.InfoHash t1) as [mt|] eqn:Hm.
    - rewrite (GetTorrent_found _ _ _ _ Hm). eexists _, _.
      split; [reflexivity|]. simpl. rewrite lookup_insert_eq. auto.
    - rewrite (GetTorrent_absent _ _ _ Hm). cbn [negb]. unfold AddMagnet_insert.
      rewrite Hm. eexists _, _. split; [reflexivity|]. simpl.
      rewrite lookup_insert_eq. auto. }
  destruct H1 as (s1 & m1 & Heq1 & Hst1 & Hd1). exists s1, (ManagedTorrent.touch now2 s1).
  rewrite Heq1. cbn [fst snd]. split; [reflexivity|].
  unfold AddMagnet, AddMagnet_lookup. rewrite <- Hsame.
  rewrite (GetTorrent_found _ _ _ _ Hst1). cbn [fst snd withTorrents dropped]. auto.
Qed.

(** ** The selected index stays inside the file list *)

(** C10: in every state the registry reaches, a stored session's selected
    index is -1 or a position of its file list, the engine handle has a
    file at every such position, and so GetFileReader (and SelectFile)
    never index out of range; a new session starts at -1 and SelectFile
    only stores an index that passed the bounds check. *)
Theorem C10_selected_index_in_bounds (ops : list Op) (id : string)
    (mt : ManagedTorrent.t) (now : Z)
    (Hm : torrents (run ops) !! id = Some mt) :
  (ManagedTorrent.SelectedFile mt = -1
   \/ 0 <= ManagedTorrent.SelectedFile mt
        < Z.of_nat (length (ManagedTorrent.Files mt)))
  /\ (0 <= ManagedTorrent.SelectedFile mt ->
      is_Some (torrent.Files (ManagedTorrent.Torrent mt)
                 !! Z.to_nat (ManagedTorrent.SelectedFile mt)))
  /\ (GetFileReader (run ops) id now).2 <> Panic
  /\ (forall fileIndex, (SelectFile (run ops) id fileIndex now).2 <> Panic)
  /\ (forall t now', ManagedTorrent.SelectedFile (newManagedTorrent t now') = -1)
  /\ (forall fileIndex mt',
        (SelectFile (run ops) id fileIndex now).2 = Ok mt' ->
        ManagedTorrent.SelectedFile mt' = fileIndex
        /\ 0 <= fileIndex < Z.of_nat (length (ManagedTorrent.Files mt'))).
Proof.
  destruct (registryOk_run ops id mt Hm) as [_ [Hsel Hfiles _ _]].
  assert (Hidx : 0 <= ManagedTorrent.SelectedFile mt ->
                 is_Some (torrent.Files (ManagedTorrent.Torrent mt)
                            !! Z.to_nat (ManagedTorrent.SelectedFile mt))).
  { intros Hpos. apply lookup_lt_is_Some_2. rewrite Hfiles.
    destruct Hsel as [Hnone|Hin]; lia. }
  assert (Hcases : forall fileIndex,
            (SelectFile (run ops) id fileIndex now).2 = Err errOutOfRange
            \/ exists mt', (SelectFile (run ops) id fileIndex now).2 = Ok mt'
                 /\ ManagedTorrent.SelectedFile mt' = fileIndex
                 /\ 0 <= fileIndex < Z.of_nat (length (ManagedTorrent.Files mt'))).
  { intros fileIndex.
    destruct (Z_lt_ge_dec fileIndex 0) as [Hneg|Hpos];
      [|destruct (Z_lt_ge_dec fileIndex (Z.of_nat (length (ManagedTorrent.Files mt))))
          as [Hin|Hout]].
    - left. rewrite (SelectFile_out_of_range _ _ _ _ _ Hm) by (left; exact Hneg).
      reflexivity.
    - right. destruct (SelectFile_valid (run ops) id mt fileIndex now Hm) as
          (sel & mt' & _ & Hres & _ & _ & Hs & Hf & _); [lia|exact Hfiles|].
      exists mt'. rewrite Hf. split; [exact Hres|]. split; [exact Hs|lia].
    - left. rewrite (SelectFile_out_of_range _ _ _ _ _ Hm) by (right; lia).
      reflexivity. }
  split; [exact Hsel|]. split; [exact Hidx|]. split; [|split; [|split]].
  - unfold GetFileReader. rewrite (GetTorrent_found _ _ _ _ Hm).
    cbn [ManagedTorrent.touch ManagedTorrent.SelectedFile ManagedTorrent.Torrent].
    destruct (ManagedTorrent.SelectedFile mt <? 0) eqn:Hneg; [discriminate|].
    destruct Hidx as [file Hfile]; [lia|]. rewrite Hfile. discriminate.
  - intros fileIndex. destruct (Hcases fileIndex) as [->|(mt' & -> & _)]; discriminate.
  - reflexivity.
  - intros fileIndex mt' Hres.
    destruct (Hcases fileIndex) as [Herr|(mt'' & Hok & Hs & Hr)].
    + rewrite Herr in Hres. discriminate.
    + rewrite Hok in Hres. injection Hres as <-. auto.
Qed.

(** C10 at the example registry. *)
Lemma C10_selected_index_witness :
  (ManagedTorrent.SelectedFile demoSession = -1
   \/ 0 <= ManagedTorrent.SelectedFile demoSession
        < Z.of_nat (length (ManagedTorrent.Files demoSession)))
  /\ (0 <= ManagedTorrent.SelectedFile demoSession ->
      is_Some (torrent.Files (ManagedTorrent.Torrent demoSession)
                 !! Z.to_nat (ManagedTorrent.SelectedFile demoSession)))
  /\ (GetFileReader (run [OpAddInsert demoTorrent 0]) "aa11" 9).2 <> Panic
  /\ (forall fileIndex,
        (SelectFile (run [OpAddInsert demoTorrent 0]) "aa11" fileIndex 9).2 <> Panic)
  /\ (forall t now', ManagedTorrent.SelectedFile (newManagedTorrent t now') = -1)
  /\ (forall fileIndex mt',
        (SelectFile (run [OpAddInsert demoTorrent 0]) "aa11" fileIndex 9).2 = Ok mt' ->
        ManagedTorrent.SelectedFile mt' = fileIndex
        /\ 0 <= fileIndex < Z.of_nat (length (ManagedTorrent.Files mt'))).
Proof.
  apply (C10_selected_index_in_bounds [OpAddInsert demoTorrent 0] "aa11" demoSession 9).
  vm_compute. reflexivity.
Defined.

(** ** Read-ahead tiers *)

(** C5: the reader GetFileReader returns for the selected file has a
    read-ahead window of 16 MiB for a length up to 500 MiB, of 32 MiB above
    500 MiB and up to 2 GiB, and of 64 MiB above 2 GiB (both thresholds
    exclusive), and is in responsive mode. *)
Theorem C5_readahead_tiers (m : TorrentManager) (id : string) (now : Z)
    (reader : torrent.Reader) (file : torrent.File)
    (Hok : (GetFileReader m id now).2 = Ok (reader, file)) :
  (torrent.Length file <= 500 * MiB -> torrent.Readahead reader = 16 * MiB)
  /\ (500 * MiB < torrent.Length file <= 2 * GiB ->
      torrent.Readahead reader = 32 * MiB)
  /\ (2 * GiB < torrent.Length file -> torrent.Readahead reader = 64 * MiB)
  /\ torrent.Responsive reader = true
  /\ exists mt,
       torrents m !! id = Some mt
       /\ torrent.Files (ManagedTorrent.Torrent mt)
            !! Z.to_nat (ManagedTorrent.SelectedFile mt) = Some file.
Proof.
  unfold GetFileReader, GetTorrent in Hok.
  destruct (torrents m !! id) as [mt|] eqn:Hm; [|discriminate].
  cbn [ManagedTorrent.touch ManagedTorrent.SelectedFile ManagedTorrent.Torrent] in Hok.
  destruct (ManagedTorrent.SelectedFile mt <? 0); [discriminate|].
  destruct (torrent.Files (ManagedTorrent.Torrent mt)
              !! Z.to_nat (ManagedTorrent.SelectedFile mt)) as [f|] eqn:Hf;
    [|discriminate].
  cbn [snd] in Hok. injection Hok as <- <-. cbn [torrent.Readahead torrent.Responsive].
  unfold MiB, GiB.
  repeat split.
  - intros H. destruct (Z.gtb_spec (torrent.Length f) (2 * 1024 * 1024 * 1024)); [lia|].
    destruct (Z.gtb_spec (torrent.Length f) (500 * 1024 * 1024)); [lia|reflexivity].
  - intros H. destruct (Z.gtb_spec (torrent.Length f) (2 * 1024 * 1024 * 1024)); [lia|].
    destruct (Z.gtb_spec (torrent.Length f) (500 * 1024 * 1024)); [reflexivity|lia].
  - intros H. destruct (Z.gtb_spec (torrent.Length f) (2 * 1024 * 1024 * 1024));
      [reflexivity|lia].
  - exists mt. auto.
Qed.

(** C5 at the example transfer: the selected video has 1 GiB. *)
Lemma C5_readahead_tiers_witness :
  let file := demoFile "Show/S01E01.mkv" GiB None in
  let reader := {| torrent.Readahead := 32 * MiB; torrent.Responsive := true |} in
  let m := (SelectFile demoManager "aa11" 0 5).1 in
  (torrent.Length file <= 500 * MiB -> torrent.Readahead reader = 16 * MiB)
  /\ (500 * MiB < torrent.Length file <= 2 * GiB ->
      torrent.Readahead reader = 32 * MiB)
  /\ (2 * GiB < torrent.Length file -> torrent.Readahead reader = 64 * MiB)
  /\ torrent.Responsive reader = true
  /\ exists mt,
       torrents m !! "aa11" = Some mt
       /\ torrent.Files (ManagedTorrent.Torrent mt)
            !! Z.to_nat (ManagedTorrent.SelectedFile mt) = Some file.
Proof.
  apply (C5_readahead_tiers (SelectFile demoManager "aa11" 0 5).1 "aa11" 6
           {| torrent.Readahead := 32 * MiB; torrent.Responsive := true |}
           (demoFile "Show/S01E01.mkv" GiB None)).
  vm_compute. reflexivity.
Defined.

(** The examples of section 8, boundary values included. *)
Example readahead_examples :
  tierReadahead (100 * MiB) = Some (16 * MiB)
  /\ tierReadahead GiB = Some (32 * MiB)
  /\ tierReadahead (3 * GiB) = Some (64 * MiB)
  /\ tierReadahead (500 * MiB) = Some (16 * MiB)
  /\ tierReadahead (500 * MiB + 1) = Some (32 * MiB)
  /\ tierReadahead (2 * GiB) = Some (32 * MiB)
  /\ tierReadahead (2 * GiB + 1) = Some (64 * MiB).
Proof. repeat split; vm_compute; reflexivity. Qed.

(** ** Selection out of range *)

(** C6: for a stored session and an index that is negative or at least the
    file count, SelectFile fails with the out-of-range error, which is not
    the not-found error; the session keeps its selected index, its subtitle
    list and its engine handle with every file priority (only the access
    time is refreshed). The not-found error is returned exactly when the
    identifier is not in the registry. *)
Theorem C6_out_of_range_leaves_selection (m : TorrentManager) (id : string)
    (mt : ManagedTorrent.t) (fileIndex now : Z)
    (Hm : torrents m !! id = Some mt)
    (Hbad : fileIndex < 0
            \/ Z.of_nat (length (ManagedTorrent.Files mt)) <= fileIndex) :
  (SelectFile m id fileIndex now).2 = Err errOutOfRange
  /\ errOutOfRange <> errNotFound
  /\ (exists mt',
        torrents (SelectFile m id fileIndex now).1 !! id = Some mt'
        /\ ManagedTorrent.SelectedFile mt' = ManagedTorrent.SelectedFile mt
        /\ ManagedTorrent.Subtitles mt' = ManagedTorrent.Subtitles mt
        /\ ManagedTorrent.Torrent mt' = ManagedTorrent.Torrent mt
        /\ torrent.Priority <$> torrent.Files (ManagedTorrent.Torrent mt')
           = torrent.Priority <$> torrent.Files (ManagedTorrent.Torrent mt)
        /\ ManagedTorrent.Files mt' = ManagedTorrent.Files mt)
  /\ (forall id', id' <> id ->
        torrents (SelectFile m id fileIndex now).1 !! id' = torrents m !! id')
  /\ (forall id' fileIndex' now',
        (SelectFile m id' fileIndex' now').2 = Err errNotFound
        <-> torrents m !! id' = None).
Proof.
  rewrite (SelectFile_out_of_range m id mt fileIndex now Hm Hbad).
  cbn [fst snd torrents withTorrents].
  split; [reflexivity|]. split; [discriminate|]. split; [|split].
  - exists (ManagedTorrent.touch now mt). rewrite lookup_insert_eq. auto 7.
  - intros id' Hne. apply lookup_insert_ne. congruence.
  - intros id' fileIndex' now'. split.
    + intros Hres. destruct (torrents m !! id') as [mt'|] eqn:Hm'; [|reflexivity].
      exfalso. revert Hres. unfold SelectFile. rewrite (GetTorrent_found _ _ _ _ Hm').
      cbv zeta. repeat case_match; discriminate.
    + intros Hnone. unfold SelectFile. rewrite (GetTorrent_absent _ _ _ Hnone).
      reflexivity.
Qed.

(** C6 at the example transfer, which has seven files, for index 7. *)
Lemma C6_out_of_range_witness :
  (SelectFile demoManager "aa11" 7 5).2 = Err errOutOfRange
  /\ errOutOfRange <> errNotFound
  /\ (exists mt',
        torrents (SelectFile demoManager "aa11" 7 5).1 !! "aa11" = Some mt'
        /\ ManagedTorrent.SelectedFile mt' = ManagedTorrent.SelectedFile demoSession
        /\ ManagedTorrent.Subtitles mt' = ManagedTorrent.Subtitles demoSession
        /\ ManagedTorrent.Torrent mt' = ManagedTorrent.Torrent demoSession
        /\ torrent.Priority <$> torrent.Files (ManagedTorrent.Torrent mt')
           = torrent.Priority <$> torrent.Files (ManagedTorrent.Torrent demoSession)
        /\ ManagedTorrent.Files mt' = ManagedTorrent.Files demoSession)
  /\ (forall id' : string, id' <> "aa11" ->
        torrents (SelectFile demoManager "aa11" 7 5).1 !! id'
        = torrents demoManager !! id')
  /\ (forall id' fileIndex' now',
        (SelectFile demoManager id' fileIndex' now').2 = Err errNotFound
        <-> torrents demoManager !! id' = None).
Proof.
  apply (C6_out_of_range_leaves_selection demoManager "aa11" demoSession 7 5).
  - vm_compute. reflexivity.
  - right. vm_compute. discriminate.
Defined.

(** ** Indices of attached subtitles *)

Lemma streq_nonempty (id : string) : id <> EmptyString -> streq id EmptyString = false.
Proof. intros H. unfold streq. apply String.eqb_neq. exact H. Qed.

Lemma upload_result (m : TorrentManager) (id : string) (mt : ManagedTorrent.t)
    (now : Z) (filename content : string) :
  torrents m !! id = Some mt -> id <> EmptyString ->
  handleUploadSubtitle m id now (inr (filename, content))
  = (withTorrents m
       (<[id := attached mt now (normalizeUpload filename content).1
                  (normalizeUpload filename content).2]> (torrents m)),
     Ok ((normalizeUpload filename content).1,
         - (Z.of_nat (length (ManagedTorrent.Subtitles mt)) + 1))).
Proof.
  intros Hm Hid. unfold handleUploadSubtitle.
  rewrite (streq_nonempty id Hid), (GetTorrent_found _ _ _ _ Hm).
  destruct (normalizeUpload filename content) as [name content'].
  unfold attached, appendSubtitle, withTorrents. cbn [fst snd torrents dropped].
  rewrite insert_insert_eq. reflexivity.
Qed.

Lemma download_result (m : TorrentManager) (id : string) (mt : ManagedTorrent.t)
    (now fid : Z) (filename content : string) :
  torrents m !! id = Some mt -> id <> EmptyString -> fid <> 0 ->
  handleDownloadSubtitle m id now (Some fid) (inr (content, filename))
  = handleUploadSubtitle m id now (inr (filename, content)).
Proof.
  intros Hm Hid Hfid. rewrite (upload_result m id mt now filename content Hm Hid).
  unfold handleDownloadSubtitle.
  rewrite (streq_nonempty id Hid), (GetTorrent_found _ _ _ _ Hm).
  destruct (Z.eqb_spec fid 0) as [E|_]; [contradiction|].
  destruct (normalizeUpload filename content) as [name content'].
  unfold attached, appendSubtitle, withTorrents. cbn [fst snd torrents dropped].
  rewrite insert_insert_eq. reflexivity.
Qed.

Lemma attached_indices (mt : ManagedTorrent.t) (now : Z) (name content : string) :
  indices (ManagedTorrent.Subtitles (attached mt now name content))
  = indices (ManagedTorrent.Subtitles mt)
    ++ [- (Z.of_nat (length (ManagedTorrent.Subtitles mt)) + 1)].
Proof. unfold attached, appendSubtitle, indices. simpl. rewrite fmap_app. reflexivity. Qed.

Lemma attached_length (mt : ManagedTorrent.t) (now : Z) (name content : string) :
  length (ManagedTorrent.Subtitles (attached mt now name content))
  = S (length (ManagedTorrent.Subtitles mt)).
Proof. unfold attached, appendSubtitle. simpl. rewrite length_app. simpl. lia. Qed.

(** C2, as stated, fails: the first subtitle attached to a session whose
    list already holds the three entries of a rebuild gets index -4. *)
Lemma C2_first_attached_counterexample :
  let m := run demoOps in
  (fun mt => indices (ManagedTorrent.Subtitles mt)) <$> torrents m !! "aa11"
  = Some [2; 4; 1]
  /\ (handleUploadSubtitle m "aa11" 6 (inr ("mine.srt", fixtureSRT))).2
     = Ok ("mine.vtt", -4)
  /\ (handleUploadSubtitle m "aa11" 6 (inr ("mine.srt", fixtureSRT))).2
     <> Ok ("mine.vtt", -1).
Proof.
  cbv zeta. split; [vm_compute; reflexivity|]. split; [vm_compute; reflexivity|].
  vm_compute. discriminate.
Qed.

(** C2 (amended): a subtitle attached by upload or by download gets the
    index -(n+1), n being the length of the session's subtitle list at that
    moment: -1 when the list is empty, and one less with each further
    attachment. The index is negative and differs from every index of the
    list, and in every state the registry reaches the indices of a
    session's subtitle list are pairwise distinct. *)
Theorem C2_attached_index_is_fresh (ops : list Op) (id : string)
    (mt : ManagedTorrent.t) (now now' fid : Z)
    (filename content filename' content' : string)
    (Hm : torrents (run ops) !! id = Some mt)
    (Hid : id <> EmptyString)
    (Hfid : fid <> 0) :
  let n := Z.of_nat (length (ManagedTorrent.Subtitles mt)) in
  let up := handleUploadSubtitle (run ops) id now (inr (filename, content)) in
  let dl := handleDownloadSubtitle (run ops) id now (Some fid) (inr (content, filename)) in
  NoDup (indices (ManagedTorrent.Subtitles mt))
  /\ up.2 = Ok ((normalizeUpload filename content).1, - (n + 1))
  /\ dl = up
  /\ - (n + 1) < 0
  /\ ((- (n + 1)) ∉ indices (ManagedTorrent.Subtitles mt))
  /\ (exists mt',
        torrents up.1 !! id = Some mt'
        /\ indices (ManagedTorrent.Subtitles mt')
           = indices (ManagedTorrent.Subtitles mt) ++ [- (n + 1)]
        /\ NoDup (indices (ManagedTorrent.Subtitles mt')))
  /\ (handleUploadSubtitle up.1 id now' (inr (filename', content'))).2
     = Ok ((normalizeUpload filename' content').1, - (n + 2))
  /\ (ManagedTorrent.Subtitles mt = [] ->
      up.2 = Ok ((normalizeUpload filename content).1, -1)).
Proof.
  intros n up dl.
  destruct (registryOk_run ops id mt Hm) as [_ Hs].
  pose proof (ok_nodup _ Hs) as Hnd. pose proof (ok_floor _ Hs) as Hfloor.
  assert (Hup : up = (withTorrents (run ops)
                        (<[id := attached mt now (normalizeUpload filename content).1
                                   (normalizeUpload filename content).2]>
                           (torrents (run ops))),
                      Ok ((normalizeUpload filename content).1, - (n + 1))))
    by (apply upload_result; assumption).
  assert (Hfresh : (- (n + 1)) ∉ indices (ManagedTorrent.Subtitles mt)).
  { intros Hin. rewrite Forall_forall in Hfloor. specialize (Hfloor _ Hin).
    simpl in Hfloor. lia. }
  split; [exact Hnd|]. split; [rewrite Hup; reflexivity|].
  split; [apply (download_result _ _ mt); assumption|].
  split; [lia|]. split; [exact Hfresh|].
  rewrite Hup. cbn [fst snd torrents withTorrents].
  split; [|split].
  - eexists. rewrite lookup_insert_eq. split; [reflexivity|].
    rewrite attached_indices. split; [reflexivity|].
    apply NoDup_app. split; [exact Hnd|]. split; [|apply NoDup_singleton].
    intros x Hx Hin. apply list_elem_of_singleton in Hin. subst x. exact (Hfresh Hx).
  - erewrite upload_result;
      [|cbn [torrents withTorrents]; apply lookup_insert_eq|exact Hid].
    cbn [snd]. f_equal. f_equal.
    rewrite attached_length. unfold n. lia.
  - intros Hnil. unfold n. rewrite Hnil. reflexivity.
Qed.

(** The amended C2 at the example session after its rebuild. *)
Lemma C2_attached_index_witness :
  let n := Z.of_nat (length (ManagedTorrent.Subtitles demoSelected)) in
  let up := handleUploadSubtitle (run demoOps) "aa11" 6 (inr ("mine.srt", fixtureSRT)) in
  let dl := handleDownloadSubtitle (run demoOps) "aa11" 6 (Some 42)
              (inr (fixtureSRT, "mine.srt")) in
  NoDup (indices (ManagedTorrent.Subtitles demoSelected))
  /\ up.2 = Ok ((normalizeUpload "mine.srt" fixtureSRT).1, - (n + 1))
  /\ dl = up
  /\ - (n + 1) < 0
  /\ ((- (n + 1)) ∉ indices (ManagedTorrent.Subtitles demoSelected))
  /\ (exists mt',
        torrents up.1 !! "aa11" = Some mt'
        /\ indices (ManagedTorrent.Subtitles mt')
           = indices (ManagedTorrent.Subtitles demoSelected) ++ [- (n + 1)]
        /\ NoDup (indices (ManagedTorrent.Subtitles mt')))
  /\ (handleUploadSubtitle up.1 "aa11" 7 (inr ("other.vtt", vttHeader))).2
     = Ok ((normalizeUpload "other.vtt" vttHeader).1, - (n + 2))
  /\ (ManagedTorrent.Subtitles demoSelected = [] ->
      up.2 = Ok ((normalizeUpload "mine.srt" fixtureSRT).1, -1)).
Proof.
  apply (C2_attached_index_is_fresh demoOps "aa11" demoSelected 6 7 42
           "mine.srt" fixtureSRT "other.vtt" vttHeader).
  - vm_compute. reflexivity.
  - discriminate.
  - discriminate.
Defined.

(** ** What the stored bytes are *)

Lemma ConvertSRTtoVTT_header (srt : string) : isWebVTT (ConvertSRTtoVTT srt) = true.
Proof. reflexivity. Qed.

Lemma normalizeUpload_content (filename raw : string) :
  (normalizeUpload filename raw).2
  = if streq (ToLower (Ext filename)) ".srt" then ConvertSRTtoVTT raw else raw.
Proof. unfold normalizeUpload. destruct (streq _ _); reflexivity. Qed.

Lemma findSubtitle_Some (subs : list SubtitleInfo.t) (fileIndex : Z) (content : string) :
  findSubtitle subs fileIndex = Some content ->
  exists sub, sub ∈ subs /\ SubtitleInfo.Index sub = fileIndex
              /\ SubtitleInfo.Content sub = content.
Proof.
  induction subs as [|s subs IH]; simpl; [discriminate|].
  destruct (Z.eqb_spec (SubtitleInfo.Index s) fileIndex) as [E|_].
  - intros H. injection H as <-. exists s. split; [left|auto].
  - intros H. destruct (IH H) as (sub & Hin & Hrest). exists sub. split; [right; exact Hin|exact Hrest].
Qed.

(** C9, as stated, fails: a file with the subtitle extension .ass is
    listed by SelectFile with its bytes as they are, they do not start with
    the WEBVTT header, and handleSubtitle serves them; the same holds for
    an uploaded .ass file. *)
Lemma C9_not_all_webvtt_counterexample :
  FileInfo.IsSubtitle <$> ManagedTorrent.Files demoSession !! 4%nat = Some true
  /\ torrents (run demoOps) !! "aa11" = Some demoSelected
  /\ (exists sub, sub ∈ ManagedTorrent.Subtitles demoSelected
                  /\ SubtitleInfo.Index sub = 4
                  /\ isWebVTT (SubtitleInfo.Content sub) = false)
  /\ (handleSubtitle (run demoOps) "aa11" 4 6).2 = Ok "[Script Info]"
  /\ (handleSubtitle
        (handleUploadSubtitle (run demoOps) "aa11" 6
           (inr ("mine.ass", "[Script Info]"))).1 "aa11" (-4) 7).2
     = Ok "[Script Info]"
  /\ isWebVTT "[Script Info]" = false.
Proof.
  split; [vm_compute; reflexivity|]. split; [vm_compute; reflexivity|].
  split.
  - exists (subtitleOf 4 (FileInfo.mk 4 "Show/styled.ass" 13 false true) "[Script Info]").
    split; [|split; vm_compute; reflexivity].
    apply list_elem_of_In. vm_compute. right. left. reflexivity.
  - repeat split; vm_compute; reflexivity.
Qed.

(** C9 (amended): an entry SelectFile stores for a file holds the bytes
    read from the engine, converted by ConvertSRTtoVTT when the file's
    extension is .srt in any letter case and unchanged otherwise; an
    uploaded or downloaded subtitle is stored in the same way, by the
    extension of its file name; the converter's output starts with the
    WEBVTT header; and handleSubtitle serves the stored bytes of an entry as
    they are. *)
Theorem C9_srt_converted_others_kept (m : TorrentManager) (id : string)
    (mt : ManagedTorrent.t) (fileIndex now now' fid : Z) (filename raw : string)
    (Hm : torrents m !! id = Some mt)
    (Hrange : 0 <= fileIndex < Z.of_nat (length (ManagedTorrent.Files mt)))
    (Hfiles : length (torrent.Files (ManagedTorrent.Torrent mt))
              = length (ManagedTorrent.Files mt))
    (Hid : id <> EmptyString)
    (Hfid : fid <> 0) :
  (exists mt',
      (SelectFile m id fileIndex now).2 = Ok mt'
      /\ forall sub, sub ∈ ManagedTorrent.Subtitles mt' ->
           exists (j : nat) (fi : FileInfo.t) (content : string),
             ManagedTorrent.Files mt !! j = Some fi
             /\ reads mt !! j = Some (Some content)
             /\ SubtitleInfo.Index sub = Z.of_nat j
             /\ SubtitleInfo.Content sub
                = if streq (ToLower (Ext (FileInfo.Path fi))) ".srt"
                  then ConvertSRTtoVTT content else content)
  /\ (exists mt' name,
        torrents (handleUploadSubtitle m id now' (inr (filename, raw))).1 !! id
        = Some mt'
        /\ ManagedTorrent.Subtitles mt'
           = ManagedTorrent.Subtitles mt
             ++ [{| SubtitleInfo.Name := name;
                    SubtitleInfo.Index :=
                      - (Z.of_nat (length (ManagedTorrent.Subtitles mt)) + 1);
                    SubtitleInfo.Content :=
                      if streq (ToLower (Ext filename)) ".srt"
                      then ConvertSRTtoVTT raw else raw |}])
  /\ handleDownloadSubtitle m id now' (Some fid) (inr (raw, filename))
     = handleUploadSubtitle m id now' (inr (filename, raw))
  /\ (forall srt, isWebVTT (ConvertSRTtoVTT srt) = true)
  /\ (forall idx content,
        (handleSubtitle m id idx now).2 = Ok content ->
        exists sub, sub ∈ ManagedTorrent.Subtitles mt
                    /\ SubtitleInfo.Index sub = idx
                    /\ SubtitleInfo.Content sub = content).
Proof.
  split; [|split; [|split; [|split]]].
  - destruct (SelectFile_valid m id mt fileIndex now Hm Hrange Hfiles)
      as (sel & mt' & _ & Hres & _ & Hsubs & _).
    exists mt'. split; [exact Hres|]. intros sub Hin.
    rewrite Hsubs, rebuilt_perm in Hin.
    apply list_elem_of_fmap in Hin as ([fi sub'] & Heq & Hin). simpl in Heq. subst sub'.
    unfold sessionCandidates in Hin.
    apply candidates_elem in Hin as (j & content & Hfi & Hrd & _ & Hs).
    exists j, fi, content. rewrite Hs. auto.
  - rewrite (upload_result m id mt now' filename raw Hm Hid).
    cbn [fst torrents withTorrents]. rewrite lookup_insert_eq.
    eexists _, (normalizeUpload filename raw).1. split; [reflexivity|].
    unfold attached, appendSubtitle. cbn [fst ManagedTorrent.Subtitles
      ManagedTorrent.withSubtitles ManagedTorrent.touch].
    rewrite normalizeUpload_content. reflexivity.
  - apply (download_result m id mt); assumption.
  - apply ConvertSRTtoVTT_header.
  - intros idx content. unfold handleSubtitle.
    rewrite (streq_nonempty id Hid), (GetTorrent_found _ _ _ _ Hm).
    cbn [ManagedTorrent.touch ManagedTorrent.Subtitles].
    destruct (findSubtitle (ManagedTorrent.Subtitles mt) idx) as [c|] eqn:Hf;
      [|discriminate].
    intros H. injection H as <-. apply findSubtitle_Some. exact Hf.
Qed.

(** The amended C9 at the example transfer, with an upload whose
    extension is in capitals. *)
Lemma C9_srt_converted_witness :
  (exists mt',
      (SelectFile demoManager "aa11" 0 5).2 = Ok mt'
      /\ forall sub, sub ∈ ManagedTorrent.Subtitles mt' ->
           exists (j : nat) (fi : FileInfo.t) (content : string),
             ManagedTorrent.Files demoSession !! j = Some fi
             /\ reads demoSession !! j = Some (Some content)
             /\ SubtitleInfo.Index sub = Z.of_nat j
             /\ SubtitleInfo.Content sub
                = if streq (ToLower (Ext (FileInfo.Path fi))) ".srt"
                  then ConvertSRTtoVTT content else content)
  /\ (exists mt' name,
        torrents (handleUploadSubtitle demoManager "aa11" 6
                    (inr ("mine.SRT", fixtureSRT))).1 !! "aa11"
        = Some mt'
        /\ ManagedTorrent.Subtitles mt'
           = ManagedTorrent.Subtitles demoSession
             ++ [{| SubtitleInfo.Name := name;
                    SubtitleInfo.Index :=
                      - (Z.of_nat (length (ManagedTorrent.Subtitles demoSession)) + 1);
                    SubtitleInfo.Content :=
                      if streq (ToLower (Ext "mine.SRT")) ".srt"
                      then ConvertSRTtoVTT fixtureSRT else fixtureSRT |}])
  /\ handleDownloadSubtitle demoManager "aa11" 6 (Some 42) (inr (fixtureSRT, "mine.SRT"))
     = handleUploadSubtitle demoManager "aa11" 6 (inr ("mine.SRT", fixtureSRT))
  /\ (forall srt, isWebVTT (ConvertSRTtoVTT srt) = true)
  /\ (forall idx content,
        (handleSubtitle demoManager "aa11" idx 5).2 = Ok content ->
        exists sub, sub ∈ ManagedTorrent.Subtitles demoSession
                    /\ SubtitleInfo.Index sub = idx
                    /\ SubtitleInfo.Content sub = content).
Proof.
  apply (C9_srt_converted_others_kept demoManager "aa11" demoSession 0 5 6 42
           "mine.SRT" fixtureSRT).
  - vm_compute. reflexivity.
  - vm_compute. split; [discriminate|reflexivity].
  - vm_compute. reflexivity.
  - discriminate.
  - discriminate.
Defined.

(* ===================================================================== *)
(** * Further properties of the code                                     *)
(* ===================================================================== *)

(** ** Removal and the staleness sweep *)

Lemma RemoveTorrent_torrents (m : TorrentManager) (id : string) :
  torrents (RemoveTorrent m id) = delete id (torrents m).
Proof.
  unfold RemoveTorrent. destruct (torrents m !! id) eqn:Hm; [reflexivity|].
  symmetry. apply delete_id. exact Hm.
Qed.

(** RemoveTorrent takes the identifier out of the map and leaves the rest;
    it drops the engine handle of the session it found and nothing
    otherwise; a second call with the same identifier changes nothing. *)
Theorem RemoveTorrent_is_idempotent (m : TorrentManager) (id : string) :
  torrents (RemoveTorrent m id) = delete id (torrents m)
  /\ dropped (RemoveTorrent m id)
     = match torrents m !! id with
       | Some mt => ManagedTorrent.Torrent mt :: dropped m
       | None => dropped m
       end
  /\ RemoveTorrent (RemoveTorrent m id) id = RemoveTorrent m id.
Proof.
  split; [apply RemoveTorrent_torrents|]. split.
  - unfold RemoveTorrent. destruct (torrents m !! id); reflexivity.
  - unfold RemoveTorrent at 1. rewrite RemoveTorrent_torrents, lookup_delete_eq.
    reflexivity.
Qed.

Lemma fold_RemoveTorrent (l : list (string * ManagedTorrent.t)) :
  forall m : TorrentManager,
    NoDup l.*1 ->
    (forall k v, (k, v) ∈ l -> torrents m !! k = Some v) ->
    (forall k, torrents (fold_left RemoveTorrent l.*1 m) !! k
               = if decide (k ∈ l.*1) then None else torrents m !! k)
    /\ dropped (fold_left RemoveTorrent l.*1 m)
       = rev (ManagedTorrent.Torrent <$> l.*2) ++ dropped m.
Proof.
  induction l as [|[id mt] l IH]; intros m Hnd Hl.
  - simpl. split; [|reflexivity]. intros k.
    destruct (decide (k ∈ [])) as [Hin|_]; [|reflexivity].
    apply elem_of_nil in Hin. contradiction.
  - cbn [fmap list_fmap fst snd fold_left] in *.
    apply NoDup_cons in Hnd as [Hnotin Hnd].
    assert (Hid : torrents m !! id = Some mt) by (apply Hl; left).
    destruct (IH (RemoveTorrent m id) Hnd) as [Hlook Hdrop].
    { intros k v Hin. rewrite RemoveTorrent_torrents, lookup_delete_ne.
      - apply Hl. right. exact Hin.
      - intros ->. apply Hnotin. apply list_elem_of_fmap. exists (k, v). auto. }
    split.
    + intros k. rewrite Hlook, RemoveTorrent_torrents.
      destruct (decide (k ∈ l.*1)) as [Hin|Hout].
      * rewrite decide_True by (right; exact Hin). reflexivity.
      * destruct (decide (k = id)) as [->|Hne].
        -- rewrite decide_True by left. apply lookup_delete_eq.
        -- rewrite decide_False, lookup_delete_ne; [reflexivity|congruence|].
           intros Hin. apply elem_of_cons in Hin as [?|?]; contradiction.
    + rewrite Hdrop. unfold RemoveTorrent. rewrite Hid. cbn [dropped Drop rev].
      rewrite <- app_assoc. reflexivity.
Qed.

Lemma RemoveAll_fold (m : TorrentManager) :
  RemoveAll m = fold_left RemoveTorrent (map_to_list (torrents m)).*1 m.
Proof.
  unfold RemoveAll. generalize ((map_to_list (torrents m)).*1). intros ids.
  revert m. induction ids as [|id ids IH]; intros m; [reflexivity|].
  simpl. rewrite IH. reflexivity.
Qed.

Lemma RemoveAll_effect (m : TorrentManager) :
  torrents (RemoveAll m) = ∅
  /\ dropped (RemoveAll m)
     ≡ₚ (ManagedTorrent.Torrent <$> (map_to_list (torrents m)).*2) ++ dropped m.
Proof.
  rewrite RemoveAll_fold.
  destruct (fold_RemoveTorrent (map_to_list (torrents m)) m) as [Hlook Hdrop].
  - apply NoDup_fst_map_to_list.
  - intros k v Hin. apply elem_of_map_to_list. exact Hin.
  - split.
    + apply map_eq. intros k. rewrite Hlook, lookup_empty.
      destruct (decide (k ∈ (map_to_list (torrents m)).*1)) as [_|Hout];
        [reflexivity|].
      destruct (torrents m !! k) as [v|] eqn:Hk; [|reflexivity].
      exfalso. apply Hout. apply list_elem_of_fmap. exists (k, v).
      split; [reflexivity|]. apply elem_of_map_to_list. exact Hk.
    + rewrite Hdrop. apply Permutation_app_tail. symmetry. apply Permutation_rev.
Qed.

(** RemoveAll leaves the registry empty and drops the engine handle of
    every session that was stored, each once. *)
Theorem RemoveAll_empties_registry (m : TorrentManager) :
  torrents (RemoveAll m) = ∅
  /\ dropped (RemoveAll m)
     ≡ₚ (ManagedTorrent.Torrent <$> (map_to_list (torrents m)).*2) ++ dropped m.
Proof. apply RemoveAll_effect. Qed.

Lemma cleanup_effect (m : TorrentManager) (now maxAge : Z) :
  torrents (cleanup m now maxAge)
  = filter (fun kv => now - ManagedTorrent.LastAccessed kv.2 <= maxAge) (torrents m)
  /\ dropped (cleanup m now maxAge)
     ≡ₚ (ManagedTorrent.Torrent
           <$> (filter (fun kv => maxAge < now - ManagedTorrent.LastAccessed kv.2)
                       (map_to_list (torrents m))).*2)
        ++ dropped m.
Proof.
  unfold cleanup.
  set (stale := filter (fun kv => maxAge < now - ManagedTorrent.LastAccessed kv.2)
                       (map_to_list (torrents m))).
  destruct (fold_RemoveTorrent stale m) as [Hlook Hdrop].
  - apply NoDup_fmap_fst.
    + intros k v1 v2 H1 H2. unfold stale in H1, H2.
      apply list_elem_of_filter in H1 as [_ H1]. apply list_elem_of_filter in H2 as [_ H2].
      apply elem_of_map_to_list in H1. apply elem_of_map_to_list in H2. congruence.
    + apply NoDup_filter, NoDup_map_to_list.
  - intros k v Hin. apply list_elem_of_filter in Hin as [_ Hin].
    apply elem_of_map_to_list. exact Hin.
  - split.
    + apply map_eq. intros k. rewrite Hlook. apply option_eq. intros mt.
      rewrite map_lookup_filter_Some. cbn [snd].
      destruct (decide (k ∈ stale.*1)) as [Hin|Hout].
      * split; [discriminate|]. intros [Hk Hfresh].
        apply list_elem_of_fmap in Hin as ([k' v] & Heq & Hin). simpl in Heq. subst k'.
        apply list_elem_of_filter in Hin as [Hstale Hin].
        apply elem_of_map_to_list in Hin. simpl in Hstale.
        assert (v = mt) by congruence. subst v. lia.
      * split.
        -- intros Hk. split; [exact Hk|].
           destruct (Z_le_gt_dec (now - ManagedTorrent.LastAccessed mt) maxAge)
             as [Hle|Hgt]; [exact Hle|].
           exfalso. apply Hout. apply list_elem_of_fmap. exists (k, mt).
           split; [reflexivity|]. apply list_elem_of_filter. split; [simpl; lia|].
           apply elem_of_map_to_list. exact Hk.
        -- intros [Hk _]. exact Hk.
    + rewrite Hdrop. apply Permutation_app_tail. symmetry. apply Permutation_rev.
Qed.

(** The sweep keeps exactly the sessions whose last access is at most
    [maxAge] old, as they are, and drops the engine handle of every other
    session, each once. *)
Theorem cleanup_keeps_recent_sessions (m : TorrentManager) (now maxAge : Z) :
  torrents (cleanup m now maxAge)
  = filter (fun kv => now - ManagedTorrent.LastAccessed kv.2 <= maxAge) (torrents m)
  /\ dropped (cleanup m now maxAge)
     ≡ₚ (ManagedTorrent.Torrent
           <$> (filter (fun kv => maxAge < now - ManagedTorrent.LastAccessed kv.2)
                       (map_to_list (torrents m))).*2)
        ++ dropped m.
Proof. apply cleanup_effect. Qed.

(** A lookup counts as activity: a session looked up at time [now] is
    still stored, with that access time, after a sweep at any time
    [now'] that is at most [maxAge] later. *)
Theorem lookup_protects_from_cleanup (m : TorrentManager) (id : string)
    (mt : ManagedTorrent.t) (now now' maxAge : Z)
    (Hm : torrents m !! id = Some mt)
    (Hrecent : now' - now <= maxAge) :
  torrents (cleanup (GetTorrent m id now).1 now' maxAge) !! id
  = Some (ManagedTorrent.touch now mt).
Proof.
  destruct (cleanup_effect (GetTorrent m id now).1 now' maxAge) as [-> _].
  rewrite (GetTorrent_found _ _ _ _ Hm). cbn [fst torrents withTorrents].
  apply map_lookup_filter_Some. split; [apply lookup_insert_eq|exact Hrecent].
Qed.

(** At the example registry: looked up at 100, swept at 150 with
    maximum age 60. *)
Lemma lookup_protects_from_cleanup_witness :
  torrents (cleanup (GetTorrent demoManager "aa11" 100).1 150 60) !! "aa11"
  = Some (ManagedTorrent.touch 100 demoSession).
Proof.
  apply (lookup_protects_from_cleanup demoManager "aa11" demoSession 100 150 60).
  - vm_compute. reflexivity.
  - vm_compute. discriminate.
Defined.

(** ** AddMagnet, path by path *)

Lemma Contains_timeout (ctxErr : string) :
  Contains ("metadata timeout: " +:+ ctxErr) "timeout" = true.
Proof. vm_compute. reflexivity. Qed.

(** Adding a descriptor whose identifier is already stored returns the
    stored session with a refreshed access time and nothing else changed
    (selection and subtitles are kept), without waiting for metadata and
    without dropping a handle; the handler answers with its identifier,
    name and file list. *)
Theorem AddMagnet_keeps_existing_session (m : TorrentManager)
    (t : torrent.Torrent) (mt : ManagedTorrent.t) (gotInfo : bool)
    (ctxErr magnet : string) (now now' : Z)
    (Hm : torrents m !! torrent.InfoHash t = Some mt)
    (Hmagnet : magnet <> EmptyString) :
  AddMagnet m (inr t) gotInfo ctxErr now now'
  = (withTorrents m (<[torrent.InfoHash t := ManagedTorrent.touch now mt]> (torrents m)),
     Ok (ManagedTorrent.touch now mt))
  /\ (handleAddMagnet m (Some magnet) (inr t) gotInfo ctxErr now now').2
     = Success (ManagedTorrent.ID mt, ManagedTorrent.Name mt, ManagedTorrent.Files mt).
Proof.
  assert (Heq : AddMagnet m (inr t) gotInfo ctxErr now now'
                = (withTorrents m (<[torrent.InfoHash t := ManagedTorrent.touch now mt]>
                                     (torrents m)),
                   Ok (ManagedTorrent.touch now mt))).
  { unfold AddMagnet, AddMagnet_lookup. rewrite (GetTorrent_found _ _ _ _ Hm).
    reflexivity. }
  split; [exact Heq|].
  unfold handleAddMagnet. rewrite (streq_nonempty magnet Hmagnet), Heq. reflexivity.
Qed.

(** At the example registry, selected and re-added. *)
Lemma AddMagnet_keeps_existing_witness :
  AddMagnet (run demoOps) (inr demoTorrent) false "context deadline exceeded" 8 9
  = (withTorrents (run demoOps)
       (<[torrent.InfoHash demoTorrent := ManagedTorrent.touch 8 demoSelected]>
          (torrents (run demoOps))),
     Ok (ManagedTorrent.touch 8 demoSelected))
  /\ (handleAddMagnet (run demoOps) (Some "magnet:?xt=urn:btih:aa11") (inr demoTorrent)
        false "context deadline exceeded" 8 9).2
     = Success (ManagedTorrent.ID demoSelected, ManagedTorrent.Name demoSelected,
                ManagedTorrent.Files demoSelected).
Proof.
  apply (AddMagnet_keeps_existing_session (run demoOps) demoTorrent demoSelected false
           "context deadline exceeded" "magnet:?xt=urn:btih:aa11" 8 9).
  - vm_compute. reflexivity.
  - discriminate.
Defined.

(** A call of AddMagnet that returns an error stores nothing: the map is
    as before, and the only handle it may have dropped is its own. *)
Theorem AddMagnet_error_stores_nothing (m : TorrentManager)
    (added : string + torrent.Torrent) (gotInfo : bool) (ctxErr e : string)
    (now now' : Z)
    (Herr : (AddMagnet m added gotInfo ctxErr now now').2 = Err e) :
  torrents (AddMagnet m added gotInfo ctxErr now now').1 = torrents m
  /\ (dropped (AddMagnet m added gotInfo ctxErr now now').1 = dropped m
      \/ exists t, added = inr t
                   /\ dropped (AddMagnet m added gotInfo ctxErr now now').1
                      = t :: dropped m).
Proof.
  revert Herr. unfold AddMagnet, AddMagnet_lookup.
  destruct added as [msg|t]; [intros _; auto|].
  destruct (torrents m !! torrent.InfoHash t) as [mt|] eqn:Hm.
  - rewrite (GetTorrent_found _ _ _ _ Hm). discriminate.
  - rewrite (GetTorrent_absent _ _ _ Hm). destruct gotInfo; cbn [negb].
    + destruct (AddMagnet_insert m t (newManagedTorrent t now')). discriminate.
    + intros _. simpl. split; [reflexivity|]. right. exists t. auto.
Qed.

(** The engine refuses the descriptor: nothing is stored or dropped. *)
Lemma AddMagnet_error_witness :
  torrents (AddMagnet demoManager (inl "invalid magnet") true EmptyString 1 2).1
  = torrents demoManager
  /\ (dropped (AddMagnet demoManager (inl "invalid magnet") true EmptyString 1 2).1
      = dropped demoManager
      \/ exists t, @inl string torrent.Torrent "invalid magnet" = inr t
                   /\ dropped (AddMagnet demoManager (inl "invalid magnet") true
                                 EmptyString 1 2).1
                      = t :: dropped demoManager).
Proof.
  apply (AddMagnet_error_stores_nothing demoManager (inl "invalid magnet") true
           EmptyString "add magnet: invalid magnet" 1 2).
  vm_compute. reflexivity.
Defined.

(** When the metadata of a new descriptor does not arrive in time, the
    handle is dropped, the map is unchanged, and the handler answers 504
    with the no-peers message, whatever the context's error says. *)
Theorem metadata_timeout_answers_504 (m : TorrentManager) (t : torrent.Torrent)
    (magnet ctxErr : string) (now now' : Z)
    (Hm : torrents m !! torrent.InfoHash t = None)
    (Hmagnet : magnet <> EmptyString) :
  handleAddMagnet m (Some magnet) (inr t) false ctxErr now now'
  = (Drop t m, Failure StatusGatewayTimeout msgNoPeers).
Proof.
  unfold handleAddMagnet, AddMagnet, AddMagnet_lookup.
  rewrite (streq_nonempty magnet Hmagnet), (GetTorrent_absent _ _ _ Hm).
  cbn [negb]. rewrite Contains_timeout. reflexivity.
Qed.

Lemma metadata_timeout_witness :
  handleAddMagnet NewTorrentManager (Some "magnet:?xt=urn:btih:aa11") (inr demoTorrent)
    false "context deadline exceeded" 1 2
  = (Drop demoTorrent NewTorrentManager, Failure StatusGatewayTimeout msgNoPeers).
Proof.
  apply (metadata_timeout_answers_504 NewTorrentManager demoTorrent
           "magnet:?xt=urn:btih:aa11" "context deadline exceeded" 1 2).
  - vm_compute. reflexivity.
  - discriminate.
Defined.

(** A new descriptor whose metadata arrives is stored as a session with no
    selection and no subtitles; a stream request before any selection is
    answered 400 "no file selected", not 404. *)
Theorem fresh_session_has_no_selection (m : TorrentManager) (t : torrent.Torrent)
    (ctxErr : string) (now now' now2 : Z)
    (Hm : torrents m !! torrent.InfoHash t = None)
    (Hid : torrent.InfoHash t <> EmptyString) :
  AddMagnet m (inr t) true ctxErr now now'
  = (withTorrents m (<[torrent.InfoHash t := newManagedTorrent t now']> (torrents m)),
     Ok (newManagedTorrent t now'))
  /\ ManagedTorrent.SelectedFile (newManagedTorrent t now') = -1
  /\ ManagedTorrent.Subtitles (newManagedTorrent t now') = []
  /\ (handleStream (AddMagnet m (inr t) true ctxErr now now').1
        (torrent.InfoHash t) now2).2
     = Failure StatusBadRequest errNoSelection.
Proof.
  assert (Heq : AddMagnet m (inr t) true ctxErr now now'
                = (withTorrents m (<[torrent.InfoHash t := newManagedTorrent t now']>
                                     (torrents m)),
                   Ok (newManagedTorrent t now'))).
  { unfold AddMagnet, AddMagnet_lookup, AddMagnet_insert.
    rewrite (GetTorrent_absent _ _ _ Hm), Hm. reflexivity. }
  split; [exact Heq|]. split; [reflexivity|]. split; [reflexivity|].
  rewrite Heq. cbn [fst]. unfold handleStream, GetFileReader.
  rewrite (streq_nonempty _ Hid).
  erewrite GetTorrent_found by (cbn [torrents withTorrents]; apply lookup_insert_eq).
  reflexivity.
Qed.

Lemma fresh_session_witness :
  AddMagnet NewTorrentManager (inr demoTorrent) true EmptyString 1 2
  = (withTorrents NewTorrentManager
       (<[torrent.InfoHash demoTorrent := newManagedTorrent demoTorrent 2]>
          (torrents NewTorrentManager)),
     Ok (newManagedTorrent demoTorrent 2))
  /\ ManagedTorrent.SelectedFile (newManagedTorrent demoTorrent 2) = -1
  /\ ManagedTorrent.Subtitles (newManagedTorrent demoTorrent 2) = []
  /\ (handleStream (AddMagnet NewTorrentManager (inr demoTorrent) true EmptyString 1 2).1
        (torrent.InfoHash demoTorrent) 3).2
     = Failure StatusBadRequest errNoSelection.
Proof.
  apply (fresh_session_has_no_selection NewTorrentManager demoTorrent EmptyString 1 2 3).
  - vm_compute. reflexivity.
  - discriminate.
Defined.

(** ** Operations on one session leave the others alone *)

Lemma localTo_refl (id : string) (m : TorrentManager) : localTo id m m.
Proof. split; auto. Qed.

Lemma localTo_insert (id : string) (m : TorrentManager) (mt : ManagedTorrent.t) :
  localTo id m (withTorrents m (<[id := mt]> (torrents m))).
Proof.
  split; [reflexivity|]. intros id' Hne. cbn [torrents withTorrents].
  apply lookup_insert_ne. congruence.
Qed.

Lemma localTo_trans (id : string) (m1 m2 m3 : TorrentManager) :
  localTo id m1 m2 -> localTo id m2 m3 -> localTo id m1 m3.
Proof.
  intros [Hd1 Hl1] [Hd2 Hl2]. split; [congruence|].
  intros id' Hne. rewrite Hl2, Hl1; auto.
Qed.

Lemma localTo_GetTorrent (m : TorrentManager) (id : string) (now : Z) :
  localTo id m (GetTorrent m id now).1.
Proof.
  unfold GetTorrent. destruct (torrents m !! id);
    [apply localTo_insert|apply localTo_refl].
Qed.

Lemma localTo_SelectFile (m : TorrentManager) (id : string) (fileIndex now : Z) :
  localTo id m (SelectFile m id fileIndex now).1.
Proof.
  unfold SelectFile. pose proof (localTo_GetTorrent m id now) as Hg.
  destruct (GetTorrent m id now) as [m1 [mt|]]; [|exact Hg]. cbn [fst] in Hg.
  cbv zeta. repeat case_match; cbn [fst]; try exact Hg.
  eapply localTo_trans; [exact Hg|apply localTo_insert].
Qed.

Lemma localTo_GetFileReader (m : TorrentManager) (id : string) (now : Z) :
  localTo id m (GetFileReader m id now).1.
Proof. rewrite GetFileReader_state. apply localTo_GetTorrent. Qed.

Lemma localTo_upload (m : TorrentManager) (id : string) (now : Z)
    (form : string + string * string) :
  localTo id m (handleUploadSubtitle m id now form).1.
Proof.
  unfold handleUploadSubtitle. pose proof (localTo_GetTorrent m id now) as Hg.
  destruct (streq id EmptyString); [apply localTo_refl|].
  destruct (GetTorrent m id now) as [m1 [mt|]]; [|exact Hg]. cbn [fst] in Hg.
  destruct form as [e|[filename content]]; [exact Hg|].
  destruct (normalizeUpload filename content) as [name content'].
  unfold appendSubtitle. cbn [fst].
  eapply localTo_trans; [exact Hg|apply localTo_insert].
Qed.

Lemma localTo_download (m : TorrentManager) (id : string) (now : Z)
    (fileID : option Z) (download : string + string * string) :
  localTo id m (handleDownloadSubtitle m id now fileID download).1.
Proof.
  unfold handleDownloadSubtitle. pose proof (localTo_GetTorrent m id now) as Hg.
  destruct (streq id EmptyString); [apply localTo_refl|].
  destruct (GetTorrent m id now) as [m1 [mt|]]; [|exact Hg]. cbn [fst] in Hg.
  destruct fileID as [fid|]; [|exact Hg].
  destruct (fid =? 0); [exact Hg|].
  destruct download as [e|[content fileName]]; [exact Hg|].
  destruct (normalizeUpload fileName content) as [name content'].
  unfold appendSubtitle. cbn [fst].
  eapply localTo_trans; [exact Hg|apply localTo_insert].
Qed.

Lemma localTo_serve (m : TorrentManager) (id : string) (fileIndex now : Z) :
  localTo id m (handleSubtitle m id fileIndex now).1.
Proof.
  destruct (handleSubtitle_state m id fileIndex now) as [-> | ->];
    [apply localTo_refl|apply localTo_GetTorrent].
Qed.

Lemma handleSelectFile_state (m : TorrentManager) (id : string) (body : option Z)
    (now : Z) :
  (handleSelectFile m id body now).1 = m
  \/ exists fileIndex, body = Some fileIndex
       /\ (handleSelectFile m id body now).1 = (SelectFile m id fileIndex now).1.
Proof.
  unfold handleSelectFile. destruct (streq id EmptyString); [left; reflexivity|].
  destruct body as [fileIndex|]; [|left; reflexivity].
  right. exists fileIndex. split; [reflexivity|].
  destruct (SelectFile m id fileIndex now) as [m1 [mt|e|]]; [reflexivity| |reflexivity].
  destruct (Contains e "not found"); reflexivity.
Qed.

Lemma handleStream_state (m : TorrentManager) (id : string) (now : Z) :
  (handleStream m id now).1 = m
  \/ (handleStream m id now).1 = (GetTorrent m id now).1.
Proof.
  unfold handleStream. destruct (streq id EmptyString); [left; reflexivity|].
  right. rewrite <- GetFileReader_state.
  destruct (GetFileReader m id now) as [m1 [[reader file]|e|]];
    [reflexivity| |reflexivity].
  destruct (Contains e "not found"); reflexivity.
Qed.

(** Every operation that names one session (lookup, selection, stream,
    subtitle upload, download and serving, with their handlers) leaves
    every other stored session exactly as it was and drops no handle. *)
Theorem session_operations_are_local (m : TorrentManager) (id : string)
    (fileIndex now : Z) (body fileID : option Z)
    (form download : string + string * string) :
  localTo id m (GetTorrent m id now).1
  /\ localTo id m (SelectFile m id fileIndex now).1
  /\ localTo id m (GetFileReader m id now).1
  /\ localTo id m (handleUploadSubtitle m id now form).1
  /\ localTo id m (handleDownloadSubtitle m id now fileID download).1
  /\ localTo id m (handleSubtitle m id fileIndex now).1
  /\ localTo id m (handleSelectFile m id body now).1
  /\ localTo id m (handleStream m id now).1.
Proof.
  split; [apply localTo_GetTorrent|]. split; [apply localTo_SelectFile|].
  split; [apply localTo_GetFileReader|]. split; [apply localTo_upload|].
  split; [apply localTo_download|]. split; [apply localTo_serve|]. split.
  - destruct (handleSelectFile_state m id body now) as [-> | (k & _ & ->)];
      [apply localTo_refl|apply localTo_SelectFile].
  - destruct (handleStream_state m id now) as [-> | ->];
      [apply localTo_refl|apply localTo_GetTorrent].
Qed.

(** ** The priorities SelectFile leaves *)

Lemma markNow_skip (fi : FileInfo.t) (rest : list FileInfo.t) (i j : nat)
    (f : torrent.File) :
  FileInfo.IsSubtitle fi = false ->
  markNow (fi :: rest) i j f = markNow rest (S i) j f.
Proof.
  intros Hfi. unfold markNow.
  destruct (Nat.leb_spec i j) as [Hle|Hgt]; destruct (Nat.leb_spec (S i) j) as [Hle'|Hgt'];
    try lia; try reflexivity.
  - replace (j - i)%nat with (S (j - S i)) by lia. reflexivity.
  - replace (j - i)%nat with 0%nat by lia. simpl. rewrite Hfi. reflexivity.
Qed.

Lemma markNow_other (fi : FileInfo.t) (rest : list FileInfo.t) (i j : nat)
    (f : torrent.File) :
  j <> i -> markNow (fi :: rest) i j f = markNow rest (S i) j f.
Proof.
  intros Hne. unfold markNow.
  destruct (Nat.leb_spec i j) as [Hle|Hgt]; destruct (Nat.leb_spec (S i) j) as [Hle'|Hgt'];
    try lia; try reflexivity.
  replace (j - i)%nat with (S (j - S i)) by lia. reflexivity.
Qed.

Lemma scanSubtitles_marks (vb vd : string) (files : list FileInfo.t) :
  forall (i : nat) (tfs : list torrent.File) (matched other : list SubtitleInfo.t)
         (tfs' : list torrent.File) (ma ot : list SubtitleInfo.t),
    scanSubtitles vb vd i files tfs matched other = Some (tfs', ma, ot) ->
    forall j, tfs' !! j = markNow files i j <$> tfs !! j.
Proof.
  induction files as [|fi rest IH]; intros i tfs matched other tfs' ma ot Hscan j.
  - simpl in Hscan. injection Hscan as <- _ _. unfold markNow.
    rewrite lookup_nil. destruct (tfs !! j); simpl; [|reflexivity].
    destruct (i <=? j)%nat; reflexivity.
  - cbn [scanSubtitles] in Hscan.
    destruct (FileInfo.IsSubtitle fi) eqn:Hfi; cbn [negb] in Hscan.
    + destruct (tfs !! i) as [tf|] eqn:Htf; [|discriminate].
      assert (Hrest : tfs' !! j
                      = markNow rest (S i) j
                          <$> <[i := torrent.SetPriority torrent.PiecePriorityNow tf]> tfs !! j).
      { destruct (readTorrentFile _); [destruct (sameBaseOrDir _ _ _)|];
          eapply IH; exact Hscan. }
      rewrite Hrest. destruct (decide (j = i)) as [->|Hne].
      * rewrite list_lookup_insert_eq by (apply lookup_lt_is_Some; eauto).
        rewrite Htf. simpl. f_equal. unfold markNow.
        destruct (Nat.leb_spec (S i) i) as [?|_]; [lia|].
        rewrite Nat.leb_refl, Nat.sub_diag. simpl. rewrite Hfi. reflexivity.
      * rewrite list_lookup_insert_ne by congruence.
        destruct (tfs !! j); simpl; [|reflexivity].
        rewrite markNow_other by exact Hne. reflexivity.
    + rewrite (IH _ _ _ _ _ _ _ Hscan j).
      destruct (tfs !! j); simpl; [|reflexivity].
      rewrite (markNow_skip fi rest i j _ Hfi). reflexivity.
Qed.

(** The run of a valid selection, with the engine files it leaves. *)
Lemma SelectFile_run (m : TorrentManager) (id : string) (mt : ManagedTorrent.t)
    (fileIndex now : Z) :
  torrents m !! id = Some mt ->
  0 <= fileIndex < Z.of_nat (length (ManagedTorrent.Files mt)) ->
  length (torrent.Files (ManagedTorrent.Torrent mt))
  = length (ManagedTorrent.Files mt) ->
  exists tf0 sel tfs,
    (torrent.SetPriority torrent.PiecePriorityNone
       <$> torrent.Files (ManagedTorrent.Torrent mt)) !! Z.to_nat fileIndex = Some tf0
    /\ ManagedTorrent.Files mt !! Z.to_nat fileIndex = Some sel
    /\ (forall j,
          tfs !! j
          = markNow (ManagedTorrent.Files mt) 0 j
              <$> <[Z.to_nat fileIndex
                    := torrent.SetPriority torrent.PiecePriorityNormal tf0]>
                    (torrent.SetPriority torrent.PiecePriorityNone
                       <$> torrent.Files (ManagedTorrent.Torrent mt)) !! j)
    /\ length tfs = length (torrent.Files (ManagedTorrent.Torrent mt))
    /\ SelectFile m id fileIndex now
       = (withTorrents m (<[id := selected mt tfs fileIndex sel now]> (torrents m)),
          Ok (selected mt tfs fileIndex sel now)).
Proof.
  intros Hm Hrange Hlen.
  destruct (SelectFile_ok m id mt fileIndex now Hm Hrange Hlen)
    as (tfs & sel & Hsel & Heq & _ & Hltfs).
  assert (Hl0 : length (torrent.SetPriority torrent.PiecePriorityNone
                          <$> torrent.Files (ManagedTorrent.Torrent mt))
                = length (ManagedTorrent.Files mt))
    by (rewrite length_fmap; exact Hlen).
  destruct (lookup_lt_is_Some_2
              (torrent.SetPriority torrent.PiecePriorityNone
                 <$> torrent.Files (ManagedTorrent.Torrent mt)) (Z.to_nat fileIndex))
    as [tf0 Htf0]; [lia|].
  exists tf0, sel, tfs. split; [exact Htf0|]. split; [exact Hsel|].
  split; [|split; [congruence|exact Heq]].
  revert Heq. unfold SelectFile. rewrite (GetTorrent_found _ _ _ _ Hm).
  cbn [ManagedTorrent.touch ManagedTorrent.Files ManagedTorrent.Torrent].
  destruct (fileIndex <? 0) eqn:Hlt; [lia|].
  destruct (Z.of_nat (length (ManagedTorrent.Files mt)) <=? fileIndex) eqn:Hge; [lia|].
  cbn [orb]. cbv zeta. rewrite Htf0, Hsel.
  destruct (scanSubtitles _ _ _ _ _ _ _) as [[[tfs1 ma] ot]|] eqn:Hscan; [|discriminate].
  intros Heq j. injection Heq as _ Htfs _.
  rewrite <- Htfs. eapply scanSubtitles_marks. exact Hscan.
Qed.

(** After a valid selection every engine file keeps its path, length and
    bytes, and its priority is: "now" for every file flagged is-subtitle
    (readable or not, selected or not), otherwise "normal" for the
    selected file and "none" for all other files. *)
Theorem SelectFile_sets_priorities (m : TorrentManager) (id : string)
    (mt : ManagedTorrent.t) (fileIndex now : Z) (i : nat) (f : torrent.File)
    (Hm : torrents m !! id = Some mt)
    (Hrange : 0 <= fileIndex < Z.of_nat (length (ManagedTorrent.Files mt)))
    (Hfiles : length (torrent.Files (ManagedTorrent.Torrent mt))
              = length (ManagedTorrent.Files mt))
    (Hf : torrent.Files (ManagedTorrent.Torrent mt) !! i = Some f) :
  exists mt' f',
    (SelectFile m id fileIndex now).2 = Ok mt'
    /\ torrents (SelectFile m id fileIndex now).1 !! id = Some mt'
    /\ torrent.Files (ManagedTorrent.Torrent mt') !! i = Some f'
    /\ samePayload f f'
    /\ torrent.Priority f'
       = priorityAfterSelect (ManagedTorrent.Files mt) (Z.to_nat fileIndex) i.
Proof.
  destruct (SelectFile_run m id mt fileIndex now Hm Hrange Hfiles)
    as (tf0 & sel & tfs & Htf0 & Hsel & Htfs & _ & Heq).
  rewrite Heq. cbn [fst snd torrents withTorrents]. rewrite lookup_insert_eq.
  destruct (lookup_lt_is_Some_2 (ManagedTorrent.Files mt) i) as [fi Hfi].
  { rewrite <- Hfiles. apply lookup_lt_is_Some. eauto. }
  assert (Hi : tfs !! i
               = Some (markNow (ManagedTorrent.Files mt) 0 i
                         (if decide (i = Z.to_nat fileIndex)
                          then torrent.SetPriority torrent.PiecePriorityNormal f
                          else torrent.SetPriority torrent.PiecePriorityNone f))).
  { rewrite Htfs. destruct (decide (i = Z.to_nat fileIndex)) as [->|Hne].
    - rewrite list_lookup_insert_eq by (apply lookup_lt_is_Some; eauto).
      rewrite list_lookup_fmap, Hf in Htf0. injection Htf0 as <-. reflexivity.
    - rewrite list_lookup_insert_ne by congruence.
      rewrite list_lookup_fmap, Hf. reflexivity. }
  eexists _, _. split; [reflexivity|]. split; [reflexivity|].
  split; [exact Hi|].
  unfold markNow, priorityAfterSelect. cbn [Nat.leb]. rewrite Nat.sub_0_r, Hfi.
  destruct (FileInfo.IsSubtitle fi);
    destruct (decide (i = Z.to_nat fileIndex)) as [->|Hne].
  - split; [repeat split|reflexivity].
  - split; [repeat split|reflexivity].
  - rewrite Nat.eqb_refl. split; [repeat split|reflexivity].
  - apply Nat.eqb_neq in Hne. rewrite Hne. split; [repeat split|reflexivity].
Qed.

(** At the example transfer: the unreadable subtitle file at position 3
    stays at priority "now" when the first video is selected. *)
Lemma SelectFile_sets_priorities_witness :
  exists mt' f',
    (SelectFile demoManager "aa11" 0 5).2 = Ok mt'
    /\ torrents (SelectFile demoManager "aa11" 0 5).1 !! "aa11" = Some mt'
    /\ torrent.Files (ManagedTorrent.Torrent mt') !! 3%nat = Some f'
    /\ samePayload (demoFile "Show/S01E01.fr.srt" 60 None) f'
    /\ torrent.Priority f'
       = priorityAfterSelect (ManagedTorrent.Files demoSession) (Z.to_nat 0) 3.
Proof.
  apply (SelectFile_sets_priorities demoManager "aa11" demoSession 0 5 3
           (demoFile "Show/S01E01.fr.srt" 60 None)).
  - vm_compute. reflexivity.
  - vm_compute. split; [discriminate|reflexivity].
  - vm_compute. reflexivity.
  - vm_compute. reflexivity.
Defined.

(** ** What stays fixed in a stored session *)

Lemma samePayload_refl (f : torrent.File) : samePayload f f.
Proof. repeat split. Qed.

Lemma samePayload_trans (f1 f2 f3 : torrent.File) :
  samePayload f1 f2 -> samePayload f2 f3 -> samePayload f1 f3.
Proof. intros (A1 & A2 & A3) (B1 & B2 & B3). repeat split; congruence. Qed.

Lemma samePayload_SetPriority (p : torrent.PiecePriority) (f : torrent.File) :
  samePayload f (torrent.SetPriority p f).
Proof. repeat split. Qed.

Lemma samePayload_markNow (files : list FileInfo.t) (i j : nat) (f : torrent.File) :
  samePayload f (markNow files i j f).
Proof.
  unfold markNow. destruct (i <=? j)%nat; [|apply samePayload_refl].
  destruct (files !! (j - i)%nat) as [fi|]; [|apply samePayload_refl].
  destruct (FileInfo.IsSubtitle fi); [apply samePayload_SetPriority|apply samePayload_refl].
Qed.

Lemma SelectFile_run_payload (m : TorrentManager) (id : string)
    (mt : ManagedTorrent.t) (fileIndex now : Z) :
  torrents m !! id = Some mt ->
  0 <= fileIndex < Z.of_nat (length (ManagedTorrent.Files mt)) ->
  length (torrent.Files (ManagedTorrent.Torrent mt))
  = length (ManagedTorrent.Files mt) ->
  exists sel tfs,
    ManagedTorrent.Files mt !! Z.to_nat fileIndex = Some sel
    /\ Forall2 samePayload (torrent.Files (ManagedTorrent.Torrent mt)) tfs
    /\ SelectFile m id fileIndex now
       = (withTorrents m (<[id := selected mt tfs fileIndex sel now]> (torrents m)),
          Ok (selected mt tfs fileIndex sel now)).
Proof.
  intros Hm Hrange Hlen.
  destruct (SelectFile_run m id mt fileIndex now Hm Hrange Hlen)
    as (tf0 & sel & tfs & Htf0 & Hsel & Htfs & Hl & Heq).
  exists sel, tfs. split; [exact Hsel|]. split; [|exact Heq].
  apply Forall2_same_length_lookup_2; [symmetry; exact Hl|].
  intros j f f' Hf Hf'. rewrite Htfs in Hf'.
  destruct (decide (j = Z.to_nat fileIndex)) as [->|Hne].
  - rewrite list_lookup_fmap, Hf in Htf0.
    rewrite list_lookup_insert_eq in Hf'
      by (rewrite length_fmap; apply lookup_lt_is_Some; eauto).
    simpl in Hf'. injection Hf' as <-. simpl in Htf0. injection Htf0 as <-.
    eapply samePayload_trans; [|apply samePayload_markNow]. repeat split.
  - rewrite list_lookup_insert_ne, list_lookup_fmap, Hf in Hf' by congruence.
    simpl in Hf'. injection Hf' as <-.
    eapply samePayload_trans; [|apply samePayload_markNow]. repeat split.
Qed.

Lemma allSessions_insert (P : ManagedTorrent.t -> Prop) (m : TorrentManager)
    (id : string) (mt : ManagedTorrent.t) :
  allSessions P m -> P mt -> allSessions P (withTorrents m (<[id := mt]> (torrents m))).
Proof.
  intros Hall Hmt k mt' Hk. cbn [torrents withTorrents] in Hk.
  destruct (decide (id = k)) as [->|Hne].
  - rewrite lookup_insert_eq in Hk. congruence.
  - rewrite lookup_insert_ne in Hk by exact Hne. eapply Hall. exact Hk.
Qed.

Lemma allSessions_sub (P : ManagedTorrent.t -> Prop) (m m' : TorrentManager) :
  allSessions P m ->
  (forall k mt, torrents m' !! k = Some mt -> torrents m !! k = Some mt) ->
  allSessions P m'.
Proof. intros Hall Hsub k mt Hk. eapply Hall, Hsub, Hk. Qed.

Section SessionInvariant.
Variable P : ManagedTorrent.t -> Prop.
Hypothesis P_new : forall t now, P (newManagedTorrent t now).
Hypothesis P_touch : forall mt now, P mt -> P (ManagedTorrent.touch now mt).
Hypothesis P_append :
  forall mt name content, P mt -> P (appendSubtitle mt name content).1.
Hypothesis P_select :
  forall mt tfs k sel now,
    P mt -> Forall2 samePayload (torrent.Files (ManagedTorrent.Torrent mt)) tfs ->
    P (selected mt tfs k sel now).

Lemma allSessions_GetTorrent (m : TorrentManager) (id : string) (now : Z) :
  allSessions P m -> allSessions P (GetTorrent m id now).1.
Proof.
  intros Hall. unfold GetTorrent. destruct (torrents m !! id) as [mt|] eqn:Hm;
    [|exact Hall].
  apply allSessions_insert; [exact Hall|]. apply P_touch. eapply Hall. exact Hm.
Qed.

Lemma allSessions_attach (m : TorrentManager) (id : string) (now : Z)
    (mt : ManagedTorrent.t) (name content : string) :
  allSessions P m -> torrents m !! id = Some mt ->
  allSessions P
    (withTorrents
       (withTorrents m (<[id := ManagedTorrent.touch now mt]> (torrents m)))
       (<[id := (appendSubtitle (ManagedTorrent.touch now mt) name content).1]>
          (<[id := ManagedTorrent.touch now mt]> (torrents m)))).
Proof.
  intros Hall Hm. unfold withTorrents. cbn [torrents dropped]. rewrite insert_insert_eq.
  apply (allSessions_insert P m id); [exact Hall|].
  apply P_append, P_touch. eapply Hall. exact Hm.
Qed.

Lemma allSessions_exec (m : TorrentManager) (o : Op) :
  registryOk m -> allSessions P m -> allSessions P (exec m o).
Proof.
  intros Hok Hall. destruct o; cbn [exec].
  - apply allSessions_GetTorrent, Hall.
  - unfold AddMagnet_insert. destruct (torrents m !! torrent.InfoHash t); cbn [fst].
    + exact Hall.
    + apply allSessions_insert; [exact Hall|apply P_new].
  - exact Hall.
  - unfold AddMagnet, AddMagnet_lookup. destruct added as [e|t]; [exact Hall|].
    pose proof (allSessions_GetTorrent m (torrent.InfoHash t) now Hall) as Hg.
    destruct (GetTorrent m (torrent.InfoHash t) now) as [m1 [mt|]]; [exact Hg|].
    cbn [fst] in Hg. destruct gotInfo; cbn [negb fst]; [|exact Hg].
    unfold AddMagnet_insert. destruct (torrents m1 !! torrent.InfoHash t); cbn [fst].
    + exact Hg.
    + apply allSessions_insert; [exact Hg|apply P_new].
  - destruct (torrents m !! id) as [mt|] eqn:Hm.
    + destruct (Hok _ _ Hm) as [_ Hs].
      destruct (Z_lt_ge_dec fileIndex 0) as [Hneg|Hpos];
        [|destruct (Z_lt_ge_dec fileIndex (Z.of_nat (length (ManagedTorrent.Files mt))))
            as [Hin|Hout]].
      * rewrite (SelectFile_out_of_range _ _ _ _ _ Hm) by (left; exact Hneg).
        apply allSessions_insert; [exact Hall|]. apply P_touch. eapply Hall, Hm.
      * destruct (SelectFile_run_payload m id mt fileIndex now Hm)
          as (sel & tfs & _ & Hpay & Heq); [lia|apply Hs|].
        rewrite Heq. apply allSessions_insert; [exact Hall|].
        apply P_select; [eapply Hall, Hm|exact Hpay].
      * rewrite (SelectFile_out_of_range _ _ _ _ _ Hm) by (right; lia).
        apply allSessions_insert; [exact Hall|]. apply P_touch. eapply Hall, Hm.
    + unfold SelectFile. rewrite (GetTorrent_absent _ _ _ Hm). exact Hall.
  - rewrite GetFileReader_state. apply allSessions_GetTorrent, Hall.
  - eapply allSessions_sub; [exact Hall|]. intros k mt.
    rewrite RemoveTorrent_torrents. intros Hk.
    apply lookup_delete_Some in Hk as [_ Hk]. exact Hk.
  - eapply allSessions_sub; [exact Hall|]. intros k mt.
    destruct (RemoveAll_effect m) as [-> _]. rewrite lookup_empty. discriminate.
  - eapply allSessions_sub; [exact Hall|]. intros k mt.
    destruct (cleanup_effect m now maxAge) as [-> _].
    intros Hk. apply map_lookup_filter_Some in Hk as [Hk _]. exact Hk.
  - unfold handleUploadSubtitle. destruct (streq id EmptyString); [exact Hall|].
    destruct (torrents m !! id) as [mt|] eqn:Hm.
    + pose proof (allSessions_GetTorrent m id now Hall) as Hg.
      rewrite (GetTorrent_found _ _ _ _ Hm) in *.
      destruct form as [e|[filename content]]; [exact Hg|].
      destruct (normalizeUpload filename content) as [name content'].
      apply (allSessions_attach m id now mt name content' Hall Hm).
    + rewrite (GetTorrent_absent _ _ _ Hm). exact Hall.
  - unfold handleDownloadSubtitle. destruct (streq id EmptyString); [exact Hall|].
    destruct (torrents m !! id) as [mt|] eqn:Hm.
    + pose proof (allSessions_GetTorrent m id now Hall) as Hg.
      rewrite (GetTorrent_found _ _ _ _ Hm) in *.
      destruct fileID as [fid|]; [|exact Hg].
      destruct (fid =? 0); [exact Hg|].
      destruct download as [e|[content fileName]]; [exact Hg|].
      destruct (normalizeUpload fileName content) as [name content'].
      apply (allSessions_attach m id now mt name content' Hall Hm).
    + rewrite (GetTorrent_absent _ _ _ Hm). exact Hall.
  - destruct (handleSubtitle_state m id fileIndex now) as [-> | ->];
      [exact Hall|apply allSessions_GetTorrent, Hall].
Qed.

Lemma allSessions_run (ops : list Op) : allSessions P (run ops).
Proof.
  unfold run.
  assert (H0 : allSessions P NewTorrentManager).
  { intros k mt Hk. simpl in Hk. rewrite lookup_empty in Hk. discriminate. }
  revert H0. generalize registryOk_empty. generalize NewTorrentManager.
  induction ops as [|o ops IH]; intros m Hok Hall; simpl; [exact Hall|].
  apply IH; [apply registryOk_exec, Hok|apply allSessions_exec; assumption].
Qed.
End SessionInvariant.

Lemma Forall2_samePayload_refl (l : list torrent.File) : Forall2 samePayload l l.
Proof. induction l; constructor; [apply samePayload_refl|assumption]. Qed.

Lemma Forall2_samePayload_trans (l1 l2 l3 : list torrent.File) :
  Forall2 samePayload l1 l2 -> Forall2 samePayload l2 l3 -> Forall2 samePayload l1 l3.
Proof.
  intros H12. revert l3. induction H12 as [|x y l k Hxy _ IH]; intros l3 H23.
  - inversion H23. constructor.
  - inversion H23 as [|y' z k' l3' Hyz Hrest]; subst.
    constructor; [eapply samePayload_trans; eassumption|apply IH; assumption].
Qed.

Lemma fromHandle_run (ops : list Op) (id : string) (mt : ManagedTorrent.t) :
  torrents (run ops) !! id = Some mt -> exists t, fromHandle t mt.
Proof.
  apply (allSessions_run (fun mt => exists t, fromHandle t mt)).
  - intros t now. exists t. repeat split. apply Forall2_samePayload_refl.
  - intros mt' now (t & H1 & H2 & H3 & H4). exists t. repeat split; assumption.
  - intros mt' name content (t & H1 & H2 & H3 & H4). exists t. repeat split; assumption.
  - intros mt' tfs k sel now (t & H1 & H2 & H3 & H4) Hpay. exists t.
    repeat split; try assumption. cbn.
    eapply Forall2_samePayload_trans; eassumption.
Qed.

Lemma classifyFrom_lookup (fs : list torrent.File) :
  forall (i0 i : nat) (fi : FileInfo.t),
    classifyFrom i0 fs !! i = Some fi ->
    exists f,
      fs !! i = Some f
      /\ fi = {| FileInfo.Index := Z.of_nat (i0 + i);
                 FileInfo.Path := torrent.DisplayPath f;
                 FileInfo.Length := torrent.Length f;
                 FileInfo.IsVideo :=
                   mapGet videoExtensions (ToLower (Ext (torrent.DisplayPath f)));
                 FileInfo.IsSubtitle :=
                   mapGet subtitleExtensions (ToLower (Ext (torrent.DisplayPath f))) |}.
Proof.
  induction fs as [|f fs IH]; intros i0 i fi; simpl; [rewrite lookup_nil; discriminate|].
  destruct i as [|i]; simpl.
  - intros H. injection H as <-. exists f. rewrite Nat.add_0_r. auto.
  - intros H. destruct (IH (S i0) i fi H) as (f' & Hf' & ->). exists f'.
    split; [exact Hf'|]. replace (i0 + S i)%nat with (S i0 + i)%nat by lia. reflexivity.
Qed.

(** ** File extensions *)

Lemma mapGet_true_elem (l : list (string * bool)) (ext : string) :
  mapGet (list_to_map l) ext = true -> ext ∈ l.*1.
Proof.
  unfold mapGet. destruct (list_to_map l !! ext) as [b|] eqn:Hl; [|discriminate].
  intros _. apply elem_of_list_to_map_2 in Hl.
  apply list_elem_of_fmap. exists (ext, b). auto.
Qed.

Lemma extensions_checked (ext : string) :
  mapGet videoExtensions ext && mapGet subtitleExtensions ext = false
  /\ streq (contentTypeForExt ext) EmptyString = negb (mapGet videoExtensions ext).
Proof.
  destruct (mapGet videoExtensions ext) eqn:Hv.
  - apply mapGet_true_elem in Hv. cbn [fmap list_fmap fst] in Hv.
    repeat (apply elem_of_cons in Hv as [->|Hv]; [split; vm_compute; reflexivity|]).
    apply elem_of_nil in Hv. contradiction.
  - split; [reflexivity|]. cbn [negb]. unfold contentTypeForExt, streq.
    repeat (match goal with
            | |- context [String.eqb ext ?s] =>
                destruct (String.eqb_spec ext s) as [->|_];
                [vm_compute in Hv; discriminate|]
            end).
    reflexivity.
Qed.

(** The two extension tables and the content-type switch agree: no
    extension is both a video and a subtitle extension, and
    contentTypeForExt gives a content type exactly for the video
    extensions. *)
Theorem extension_tables_agree (ext : string) :
  mapGet videoExtensions ext && mapGet subtitleExtensions ext = false
  /\ streq (contentTypeForExt ext) EmptyString = negb (mapGet videoExtensions ext).
Proof. apply extensions_checked. Qed.

Lemma stored_file_entry (ops : list Op) (id : string)
    (mt : ManagedTorrent.t) (i : nat) (fi : FileInfo.t)
    (Hm : torrents (run ops) !! id = Some mt)
    (Hfi : ManagedTorrent.Files mt !! i = Some fi) :
  exists f,
    torrent.Files (ManagedTorrent.Torrent mt) !! i = Some f
    /\ FileInfo.Index fi = Z.of_nat i
    /\ FileInfo.Path fi = torrent.DisplayPath f
    /\ FileInfo.Length fi = torrent.Length f
    /\ FileInfo.IsVideo fi
       = mapGet videoExtensions (ToLower (Ext (FileInfo.Path fi)))
    /\ FileInfo.IsSubtitle fi
       = mapGet subtitleExtensions (ToLower (Ext (FileInfo.Path fi)))
    /\ FileInfo.IsVideo fi && FileInfo.IsSubtitle fi = false.
Proof.
  destruct (fromHandle_run ops id mt Hm) as (t & _ & _ & Hfiles & Hpay).
  rewrite Hfiles in Hfi. unfold classifyFiles in Hfi.
  apply classifyFrom_lookup in Hfi as (f0 & Hf0 & ->).
  destruct (Forall2_lookup_l _ _ _ _ _ Hpay Hf0) as (f & Hf & Hp1 & Hp2 & _).
  exists f. cbn. split; [exact Hf|]. split; [reflexivity|].
  split; [exact Hp1|]. split; [exact Hp2|]. split; [reflexivity|].
  split; [reflexivity|]. apply extensions_checked.
Qed.

(** In every state the registry reaches, a session's file list is the
    classification of its engine handle's files: the entry at position i
    has index i, the path and length of the engine file at i, and flags
    looked up from its lower-cased extension; no entry is flagged both
    video and subtitle. *)
Theorem file_list_mirrors_engine (ops : list Op) (id : string)
    (mt : ManagedTorrent.t) (i : nat) (fi : FileInfo.t)
    (Hm : torrents (run ops) !! id = Some mt)
    (Hfi : ManagedTorrent.Files mt !! i = Some fi) :
  exists f,
    torrent.Files (ManagedTorrent.Torrent mt) !! i = Some f
    /\ FileInfo.Index fi = Z.of_nat i
    /\ FileInfo.Path fi = torrent.DisplayPath f
    /\ FileInfo.Length fi = torrent.Length f
    /\ FileInfo.IsVideo fi
       = mapGet videoExtensions (ToLower (Ext (FileInfo.Path fi)))
    /\ FileInfo.IsSubtitle fi
       = mapGet subtitleExtensions (ToLower (Ext (FileInfo.Path fi)))
    /\ FileInfo.IsVideo fi && FileInfo.IsSubtitle fi = false.
Proof. exact (stored_file_entry ops id mt i fi Hm Hfi). Qed.

(** At the example registry after a selection: the entry at position 2. *)
Lemma file_list_mirrors_engine_witness :
  exists f,
    torrent.Files (ManagedTorrent.Torrent demoSelected) !! 2%nat = Some f
    /\ FileInfo.Index (FileInfo.mk 2 "Show/S01E01.en.srt" 60 false true) = Z.of_nat 2
    /\ FileInfo.Path (FileInfo.mk 2 "Show/S01E01.en.srt" 60 false true)
       = torrent.DisplayPath f
    /\ FileInfo.Length (FileInfo.mk 2 "Show/S01E01.en.srt" 60 false true)
       = torrent.Length f
    /\ FileInfo.IsVideo (FileInfo.mk 2 "Show/S01E01.en.srt" 60 false true)
       = mapGet videoExtensions
           (ToLower (Ext (FileInfo.Path (FileInfo.mk 2 "Show/S01E01.en.srt" 60 false true))))
    /\ FileInfo.IsSubtitle (FileInfo.mk 2 "Show/S01E01.en.srt" 60 false true)
       = mapGet subtitleExtensions
           (ToLower (Ext (FileInfo.Path (FileInfo.mk 2 "Show/S01E01.en.srt" 60 false true))))
    /\ FileInfo.IsVideo (FileInfo.mk 2 "Show/S01E01.en.srt" 60 false true)
       && FileInfo.IsSubtitle (FileInfo.mk 2 "Show/S01E01.en.srt" 60 false true) = false.
Proof.
  apply (file_list_mirrors_engine demoOps "aa11" demoSelected 2
           (FileInfo.mk 2 "Show/S01E01.en.srt" 60 false true)).
  - vm_compute. reflexivity.
  - vm_compute. reflexivity.
Defined.

(** ** Serving subtitles *)

Lemma findSubtitle_member (subs : list SubtitleInfo.t) (sub : SubtitleInfo.t) :
  NoDup (indices subs) -> sub ∈ subs ->
  findSubtitle subs (SubtitleInfo.Index sub) = Some (SubtitleInfo.Content sub).
Proof.
  induction subs as [|s subs IH]; intros Hnd Hin.
  - apply elem_of_nil in Hin. contradiction.
  - unfold indices in Hnd. cbn [fmap list_fmap] in Hnd.
    apply NoDup_cons in Hnd as [Hnotin Hnd]. cbn [findSubtitle].
    apply elem_of_cons in Hin as [->|Hin].
    + rewrite Z.eqb_refl. reflexivity.
    + destruct (Z.eqb_spec (SubtitleInfo.Index s) (SubtitleInfo.Index sub)) as [E|_].
      * exfalso. apply Hnotin. rewrite E. apply list_elem_of_fmap. exists sub. auto.
      * apply IH; assumption.
Qed.

Lemma findSubtitle_absent (subs : list SubtitleInfo.t) (fileIndex : Z) :
  fileIndex ∉ indices subs -> findSubtitle subs fileIndex = None.
Proof.
  induction subs as [|s subs IH]; intros Hout; [reflexivity|].
  cbn [findSubtitle]. unfold indices in Hout. cbn [fmap list_fmap] in Hout.
  destruct (Z.eqb_spec (SubtitleInfo.Index s) fileIndex) as [E|_].
  - exfalso. apply Hout. rewrite <- E. left.
  - apply IH. intros Hin. apply Hout. right. exact Hin.
Qed.

Lemma handleSubtitle_found (m : TorrentManager) (id : string)
    (mt : ManagedTorrent.t) (fileIndex now : Z) :
  torrents m !! id = Some mt -> id <> EmptyString ->
  (handleSubtitle m id fileIndex now).2
  = match findSubtitle (ManagedTorrent.Subtitles mt) fileIndex with
    | Some content => Ok content
    | None => Err "subtitle not found"
    end.
Proof.
  intros Hm Hid. unfold handleSubtitle.
  rewrite (streq_nonempty id Hid), (GetTorrent_found _ _ _ _ Hm).
  cbn [ManagedTorrent.touch ManagedTorrent.Subtitles].
  destruct (findSubtitle _ _); reflexivity.
Qed.

Lemma SelectFile_Ok_stored (m m1 : TorrentManager) (id : string)
    (fileIndex now : Z) (mt1 : ManagedTorrent.t) :
  SelectFile m id fileIndex now = (m1, Ok mt1) -> torrents m1 !! id = Some mt1.
Proof.
  unfold SelectFile. destruct (GetTorrent m id now) as [m0 [mt|]]; [|discriminate].
  cbv zeta. repeat case_match; try discriminate.
  intros Hpair. injection Hpair as <- <-. cbn [torrents withTorrents].
  apply lookup_insert_eq.
Qed.

(** Every entry that the answer of handleSelectFile lists can be fetched:
    in every state the registry reaches, handleSubtitle called with the
    listed index returns the bytes of a stored subtitle with the listed
    name and index. *)
Theorem listed_subtitles_are_served (ops : list Op) (id : string) (k now now2 : Z)
    (entries : list (string * Z)) (name : string) (idx : Z)
    (Hres : (handleSelectFile (run ops) id (Some k) now).2 = Success entries)
    (Hin : (name, idx) ∈ entries) :
  exists mt sub,
    torrents (handleSelectFile (run ops) id (Some k) now).1 !! id = Some mt
    /\ sub ∈ ManagedTorrent.Subtitles mt
    /\ SubtitleInfo.Name sub = name
    /\ SubtitleInfo.Index sub = idx
    /\ (handleSubtitle (handleSelectFile (run ops) id (Some k) now).1 id idx now2).2
       = Ok (SubtitleInfo.Content sub).
Proof.
  revert Hres. unfold handleSelectFile.
  destruct (streq id EmptyString) eqn:Hid; [discriminate|].
  assert (Hne : id <> EmptyString).
  { intros ->. vm_compute in Hid. discriminate. }
  assert (Hrun : (SelectFile (run ops) id k now).1 = run (ops ++ [OpSelectFile id k now]))
    by (rewrite run_app; reflexivity).
  destruct (SelectFile (run ops) id k now) as [m1 [mt1|e|]] eqn:Hsel;
    [|destruct (Contains e "not found"); discriminate|discriminate].
  cbn [fst snd] in *. intros H. injection H as <-.
  pose proof (SelectFile_Ok_stored _ _ _ _ _ _ Hsel) as Hst.
  apply list_elem_of_fmap in Hin as (sub & Heq & Hsub). injection Heq as -> ->.
  exists mt1, sub. split; [exact Hst|]. split; [exact Hsub|].
  split; [reflexivity|]. split; [reflexivity|].
  rewrite (handleSubtitle_found m1 id mt1 _ now2 Hst Hne).
  rewrite findSubtitle_member; [reflexivity| |exact Hsub].
  rewrite Hrun in Hst. apply (registryOk_run _ _ _ Hst).
Qed.

(** At the example registry: the entry of the subtitle at position 2. *)
Lemma listed_subtitles_are_served_witness :
  exists mt sub,
    torrents (handleSelectFile (run [OpAddInsert demoTorrent 0]) "aa11" (Some 0) 5).1
      !! "aa11" = Some mt
    /\ sub ∈ ManagedTorrent.Subtitles mt
    /\ SubtitleInfo.Name sub = "S01E01.en.srt"
    /\ SubtitleInfo.Index sub = 2
    /\ (handleSubtitle
          (handleSelectFile (run [OpAddInsert demoTorrent 0]) "aa11" (Some 0) 5).1
          "aa11" 2 6).2
       = Ok (SubtitleInfo.Content sub).
Proof.
  apply (listed_subtitles_are_served [OpAddInsert demoTorrent 0] "aa11" 0 5 6
           [("S01E01.en.srt", 2); ("styled.ass", 4); ("random.srt", 1)]
           "S01E01.en.srt" 2).
  - vm_compute. reflexivity.
  - left.
Defined.

(** An uploaded subtitle can be fetched at the index the upload answers
    with, and what is served is the upload as it was stored (converted
    when its name ends in .srt). *)
Theorem uploaded_subtitle_is_served (ops : list Op) (id : string)
    (mt : ManagedTorrent.t) (now now2 : Z) (filename content : string)
    (Hm : torrents (run ops) !! id = Some mt)
    (Hid : id <> EmptyString) :
  exists name idx,
    (handleUploadSubtitle (run ops) id now (inr (filename, content))).2
    = Ok (name, idx)
    /\ (handleSubtitle
          (handleUploadSubtitle (run ops) id now (inr (filename, content))).1
          id idx now2).2
       = Ok (normalizeUpload filename content).2.
Proof.
  assert (Hrun : (handleUploadSubtitle (run ops) id now (inr (filename, content))).1
                 = run (ops ++ [OpUpload id now (inr (filename, content))]))
    by (rewrite run_app; reflexivity).
  assert (Hst : torrents (handleUploadSubtitle (run ops) id now
                            (inr (filename, content))).1 !! id
                = Some (attached mt now (normalizeUpload filename content).1
                          (normalizeUpload filename content).2)).
  { rewrite (upload_result _ _ _ _ _ _ Hm Hid). cbn [fst torrents withTorrents].
    apply lookup_insert_eq. }
  eexists _, _. split; [rewrite (upload_result _ _ _ _ _ _ Hm Hid); reflexivity|].
  rewrite (handleSubtitle_found _ id _ _ now2 Hst Hid).
  set (sub := {| SubtitleInfo.Name := (normalizeUpload filename content).1;
                 SubtitleInfo.Index :=
                   - (Z.of_nat (length (ManagedTorrent.Subtitles mt)) + 1);
                 SubtitleInfo.Content := (normalizeUpload filename content).2 |}).
  change (- (Z.of_nat (length (ManagedTorrent.Subtitles mt)) + 1))
    with (SubtitleInfo.Index sub).
  rewrite findSubtitle_member; [reflexivity| |].
  - rewrite Hrun in Hst. apply (registryOk_run _ _ _ Hst).
  - unfold attached, appendSubtitle. cbn. apply elem_of_app. right. left.
Qed.

Lemma uploaded_subtitle_is_served_witness :
  exists name idx,
    (handleUploadSubtitle (run demoOps) "aa11" 6 (inr ("mine.srt", fixtureSRT))).2
    = Ok (name, idx)
    /\ (handleSubtitle
          (handleUploadSubtitle (run demoOps) "aa11" 6 (inr ("mine.srt", fixtureSRT))).1
          "aa11" idx 7).2
       = Ok (normalizeUpload "mine.srt" fixtureSRT).2.
Proof.
  apply (uploaded_subtitle_is_served demoOps "aa11" demoSelected 6 7
           "mine.srt" fixtureSRT).
  - vm_compute. reflexivity.
  - discriminate.
Defined.

(** Attached subtitles do not outlive a new selection: after a valid
    SelectFile every negative index is answered "subtitle not found". *)
Theorem reselection_forgets_attached_subtitles (m : TorrentManager) (id : string)
    (mt : ManagedTorrent.t) (fileIndex idx now now2 : Z)
    (Hm : torrents m !! id = Some mt)
    (Hid : id <> EmptyString)
    (Hrange : 0 <= fileIndex < Z.of_nat (length (ManagedTorrent.Files mt)))
    (Hfiles : length (torrent.Files (ManagedTorrent.Torrent mt))
              = length (ManagedTorrent.Files mt))
    (Hneg : idx < 0) :
  (handleSubtitle (SelectFile m id fileIndex now).1 id idx now2).2
  = Err "subtitle not found".
Proof.
  destruct (SelectFile_valid m id mt fileIndex now Hm Hrange Hfiles)
    as (sel & mt' & _ & _ & Hst & Hsubs & _).
  rewrite (handleSubtitle_found _ id mt' idx now2 Hst Hid), Hsubs.
  rewrite findSubtitle_absent; [reflexivity|].
  intros Hin. destruct (rebuilt_indices (FileInfo.Path sel) mt) as [_ Hpos].
  rewrite Forall_forall in Hpos. specialize (Hpos _ Hin). simpl in Hpos. lia.
Qed.

(** The upload of the example got index -4; after the second video is
    selected it is gone. *)
Lemma reselection_forgets_witness :
  (handleSubtitle
     (SelectFile
        (handleUploadSubtitle (run demoOps) "aa11" 6 (inr ("mine.srt", fixtureSRT))).1
        "aa11" 5 7).1 "aa11" (-4) 8).2
  = Err "subtitle not found".
Proof.
  apply (reselection_forgets_attached_subtitles
           (handleUploadSubtitle (run demoOps) "aa11" 6 (inr ("mine.srt", fixtureSRT))).1
           "aa11"
           (attached demoSelected 6 (normalizeUpload "mine.srt" fixtureSRT).1
              (normalizeUpload "mine.srt" fixtureSRT).2)
           5 (-4) 7 8).
  - vm_compute. reflexivity.
  - discriminate.
  - vm_compute. split; [discriminate|reflexivity].
  - vm_compute. reflexivity.
  - reflexivity.
Defined.

Lemma touch_touch (a b : Z) (mt : ManagedTorrent.t) :
  ManagedTorrent.touch a (ManagedTorrent.touch b mt) = ManagedTorrent.touch a mt.
Proof. reflexivity. Qed.

Lemma GetTorrent_up_to_time (m : TorrentManager) (id k : string) (now : Z) :
  ManagedTorrent.touch 0 <$> torrents (GetTorrent m id now).1 !! k
  = ManagedTorrent.touch 0 <$> torrents m !! k.
Proof.
  unfold GetTorrent. destruct (torrents m !! id) as [mt|] eqn:Hm; [|reflexivity].
  cbn [fst torrents withTorrents]. destruct (decide (id = k)) as [->|Hne].
  - rewrite lookup_insert_eq, Hm. reflexivity.
  - rewrite lookup_insert_ne by exact Hne. reflexivity.
Qed.

(** An upload or a download that is answered with an error attaches
    nothing: every stored session is as before, up to the access time of
    the session named. *)
Theorem failed_attach_changes_nothing (m : TorrentManager) (id k : string)
    (now : Z) (form download : string + string * string) (fileID : option Z)
    (e1 e2 : string)
    (Hup : (handleUploadSubtitle m id now form).2 = Err e1)
    (Hdl : (handleDownloadSubtitle m id now fileID download).2 = Err e2) :
  (ManagedTorrent.touch 0 <$> torrents (handleUploadSubtitle m id now form).1 !! k
   = ManagedTorrent.touch 0 <$> torrents m !! k)
  /\ (ManagedTorrent.touch 0
        <$> torrents (handleDownloadSubtitle m id now fileID download).1 !! k
      = ManagedTorrent.touch 0 <$> torrents m !! k)
  /\ dropped (handleUploadSubtitle m id now form).1 = dropped m
  /\ dropped (handleDownloadSubtitle m id now fileID download).1 = dropped m.
Proof.
  pose proof (GetTorrent_up_to_time m id k now) as Hg.
  assert (Hd : dropped (GetTorrent m id now).1 = dropped m)
    by apply (localTo_GetTorrent m id now).
  split; [|split; [|split; [apply localTo_upload|apply localTo_download]]].
  - revert Hup. unfold handleUploadSubtitle.
    destruct (streq id EmptyString); [reflexivity|].
    destruct (GetTorrent m id now) as [m1 [mt|]]; [|intros _; exact Hg].
    destruct form as [e|[filename content]]; [intros _; exact Hg|].
    destruct (normalizeUpload filename content). unfold appendSubtitle. discriminate.
  - revert Hdl. unfold handleDownloadSubtitle.
    destruct (streq id EmptyString); [reflexivity|].
    destruct (GetTorrent m id now) as [m1 [mt|]]; [|intros _; exact Hg].
    destruct fileID as [fid|]; [|intros _; exact Hg].
    destruct (fid =? 0); [intros _; exact Hg|].
    destruct download as [e|[content fileName]]; [intros _; exact Hg|].
    destruct (normalizeUpload fileName content). unfold appendSubtitle. discriminate.
Qed.

(** A body that is too large, and a download request with fileId 0. *)
Lemma failed_attach_witness :
  (ManagedTorrent.touch 0
     <$> torrents (handleUploadSubtitle (run demoOps) "aa11" 6
                     (inl "file too large (max 10MB)")).1 !! "aa11"
   = ManagedTorrent.touch 0 <$> torrents (run demoOps) !! "aa11")
  /\ (ManagedTorrent.touch 0
        <$> torrents (handleDownloadSubtitle (run demoOps) "aa11" 6 (Some 0)
                        (inr (fixtureSRT, "mine.srt"))).1 !! "aa11"
      = ManagedTorrent.touch 0 <$> torrents (run demoOps) !! "aa11")
  /\ dropped (handleUploadSubtitle (run demoOps) "aa11" 6
                (inl "file too large (max 10MB)")).1 = dropped (run demoOps)
  /\ dropped (handleDownloadSubtitle (run demoOps) "aa11" 6 (Some 0)
                (inr (fixtureSRT, "mine.srt"))).1 = dropped (run demoOps).
Proof.
  apply (failed_attach_changes_nothing (run demoOps) "aa11" "aa11" 6
           (inl "file too large (max 10MB)") (inr (fixtureSRT, "mine.srt")) (Some 0)
           "file too large (max 10MB)" "fileId is required").
  - vm_compute. reflexivity.
  - vm_compute. reflexivity.
Defined.

(** ** What the selection and stream handlers answer *)

(** In every state the registry reaches, handleSelectFile (with a
    non-empty identifier and a decodable body) answers 404 "torrent not
    found" for an unknown identifier, 400 "file index out of range" for an
    index outside the file list, and otherwise the names and indices of the
    rebuilt subtitle list; the call never panics. *)
Theorem handleSelectFile_answers (ops : list Op) (id : string) (k now : Z)
    (Hid : id <> EmptyString) :
  match torrents (run ops) !! id with
  | None =>
      (handleSelectFile (run ops) id (Some k) now).2
      = Failure StatusNotFound errNotFound
  | Some mt =>
      if (k <? 0) || (Z.of_nat (length (ManagedTorrent.Files mt)) <=? k)
      then (handleSelectFile (run ops) id (Some k) now).2
           = Failure StatusBadRequest errOutOfRange
      else exists sel,
             ManagedTorrent.Files mt !! Z.to_nat k = Some sel
             /\ (handleSelectFile (run ops) id (Some k) now).2
                = Success ((fun s => (SubtitleInfo.Name s, SubtitleInfo.Index s))
                             <$> rebuilt (FileInfo.Path sel) (sessionCandidates mt))
  end.
Proof.
  unfold handleSelectFile. rewrite (streq_nonempty id Hid).
  destruct (torrents (run ops) !! id) as [mt|] eqn:Hm.
  - destruct ((k <? 0) || (Z.of_nat (length (ManagedTorrent.Files mt)) <=? k)) eqn:Hb.
    + rewrite (SelectFile_out_of_range _ _ _ _ _ Hm) by
        (apply orb_true_iff in Hb as [Hb|Hb]; [left|right]; lia).
      reflexivity.
    + apply orb_false_iff in Hb as [Hb1 Hb2].
      destruct (SelectFile_valid (run ops) id mt k now Hm) as
          (sel & mt' & Hsel & Hres & _ & Hsubs & _);
        [lia|apply (registryOk_run _ _ _ Hm)|].
      exists sel. split; [exact Hsel|].
      destruct (SelectFile (run ops) id k now) as [m1 r]. cbn [snd] in Hres.
      rewrite Hres, Hsubs. reflexivity.
  - unfold SelectFile. rewrite (GetTorrent_absent _ _ _ Hm). reflexivity.
Qed.

Lemma handleSelectFile_answers_witness :
  match torrents (run [OpAddInsert demoTorrent 0]) !! "aa11" with
  | None =>
      (handleSelectFile (run [OpAddInsert demoTorrent 0]) "aa11" (Some 7) 5).2
      = Failure StatusNotFound errNotFound
  | Some mt =>
      if (7 <? 0) || (Z.of_nat (length (ManagedTorrent.Files mt)) <=? 7)
      then (handleSelectFile (run [OpAddInsert demoTorrent 0]) "aa11" (Some 7) 5).2
           = Failure StatusBadRequest errOutOfRange
      else exists sel,
             ManagedTorrent.Files mt !! Z.to_nat 7 = Some sel
             /\ (handleSelectFile (run [OpAddInsert demoTorrent 0]) "aa11" (Some 7) 5).2
                = Success ((fun s => (SubtitleInfo.Name s, SubtitleInfo.Index s))
                             <$> rebuilt (FileInfo.Path sel) (sessionCandidates mt))
  end.
Proof.
  apply (handleSelectFile_answers [OpAddInsert demoTorrent 0] "aa11" 7 5).
  discriminate.
Defined.

(** After a valid selection in a state the registry reaches, the stream
    handler serves the engine file at the selected position: it has the
    path and length of the selected entry of the file list, and the
    Content-Type header is set exactly when that entry is flagged video. *)
Theorem stream_serves_selected_file (ops : list Op) (id : string)
    (mt : ManagedTorrent.t) (k now now2 : Z)
    (Hm : torrents (run ops) !! id = Some mt)
    (Hid : id <> EmptyString)
    (Hrange : 0 <= k < Z.of_nat (length (ManagedTorrent.Files mt))) :
  exists sel reader file,
    ManagedTorrent.Files mt !! Z.to_nat k = Some sel
    /\ (handleStream (SelectFile (run ops) id k now).1 id now2).2
       = Success (contentTypeForExt (ToLower (Ext (FileInfo.Path sel))), reader, file)
    /\ torrent.DisplayPath file = FileInfo.Path sel
    /\ torrent.Length file = FileInfo.Length sel
    /\ streq (contentTypeForExt (ToLower (Ext (FileInfo.Path sel)))) EmptyString
       = negb (FileInfo.IsVideo sel).
Proof.
  destruct (registryOk_run ops id mt Hm) as [_ Hs].
  destruct (SelectFile_valid (run ops) id mt k now Hm Hrange (ok_files _ Hs))
    as (sel & mt' & Hsel & _ & Hst & _ & Hk & Hf & _).
  assert (Hrun : (SelectFile (run ops) id k now).1 = run (ops ++ [OpSelectFile id k now]))
    by (rewrite run_app; reflexivity).
  rewrite Hrun in *.
  assert (Hsel' : ManagedTorrent.Files mt' !! Z.to_nat k = Some sel)
    by (rewrite Hf; exact Hsel).
  destruct (stored_file_entry _ id mt' (Z.to_nat k) sel Hst Hsel')
    as (file & Hfile & _ & Hp & Hl & Hv & _).
  unfold handleStream, GetFileReader.
  rewrite (streq_nonempty id Hid), (GetTorrent_found _ _ _ _ Hst).
  cbn [ManagedTorrent.touch ManagedTorrent.SelectedFile ManagedTorrent.Torrent].
  rewrite Hk. destruct (k <? 0) eqn:Hneg; [lia|]. rewrite Hfile.
  eexists sel, _, file. split; [exact Hsel|].
  split; [rewrite Hp; reflexivity|]. split; [symmetry; exact Hp|].
  split; [symmetry; exact Hl|].
  rewrite Hv. apply extensions_checked.
Qed.

Lemma stream_serves_selected_file_witness :
  exists sel reader file,
    ManagedTorrent.Files demoSession !! Z.to_nat 5 = Some sel
    /\ (handleStream (SelectFile (run [OpAddInsert demoTorrent 0]) "aa11" 5 1).1
          "aa11" 2).2
       = Success (contentTypeForExt (ToLower (Ext (FileInfo.Path sel))), reader, file)
    /\ torrent.DisplayPath file = FileInfo.Path sel
    /\ torrent.Length file = FileInfo.Length sel
    /\ streq (contentTypeForExt (ToLower (Ext (FileInfo.Path sel)))) EmptyString
       = negb (FileInfo.IsVideo sel).
Proof.
  apply (stream_serves_selected_file [OpAddInsert demoTorrent 0] "aa11" demoSession 5 1 2).
  - vm_compute. reflexivity.
  - discriminate.
  - vm_compute. split; [discriminate|reflexivity].
Defined.

(** ** Names and extensions *)

Lemma append_cons (c : ascii) (s t : string) : String c s +:+ t = String c (s +:+ t).
Proof. reflexivity. Qed.

Lemma append_nil_r (s : string) : s +:+ EmptyString = s.
Proof. induction s as [|c s IH]; [reflexivity|]. rewrite append_cons, IH. reflexivity. Qed.

Lemma append_assoc (a b c : string) : (a +:+ b) +:+ c = a +:+ (b +:+ c).
Proof. induction a as [|x a IH]; [reflexivity|]. rewrite !append_cons, IH. reflexivity. Qed.

Lemma length_append (a b : string) :
  String.length (a +:+ b) = (String.length a + String.length b)%nat.
Proof. induction a as [|x a IH]; [reflexivity|]. rewrite append_cons. simpl. rewrite IH. reflexivity. Qed.

Lemma rev_app_append (r acc : string) :
  String.rev_app r acc = String.rev_app r EmptyString +:+ acc.
Proof.
  revert acc. induction r as [|c r IH]; intros acc; [reflexivity|].
  simpl. rewrite (IH (String c acc)), (IH (String c EmptyString)), append_assoc.
  reflexivity.
Qed.

Lemma rev_app_app (a b acc : string) :
  String.rev_app (a +:+ b) acc = String.rev_app b (String.rev_app a acc).
Proof.
  revert acc. induction a as [|x a IH]; intros acc; [reflexivity|].
  rewrite append_cons. simpl. apply IH.
Qed.

Lemma rev_app_rev_app (a b c : string) :
  String.rev_app (String.rev_app a b) c = String.rev_app b (a +:+ c).
Proof.
  revert b. induction a as [|x a IH]; intros b; [reflexivity|].
  simpl. rewrite IH. reflexivity.
Qed.

Lemma rev_rev (s : string) : String.rev (String.rev s) = s.
Proof. unfold String.rev. rewrite rev_app_rev_app. simpl. apply append_nil_r. Qed.

Lemma HasPrefix_app (a b : string) : HasPrefix (a +:+ b) a = true.
Proof.
  induction a as [|x a IH]; [reflexivity|].
  rewrite append_cons. simpl. rewrite Ascii.eqb_refl, IH. reflexivity.
Qed.

Lemma sliceTo_app (a b : string) : sliceTo (String.length a) (a +:+ b) = a.
Proof.
  induction a as [|x a IH]; [reflexivity|].
  rewrite append_cons. simpl. rewrite IH. reflexivity.
Qed.

Lemma TrimSuffix_app (a b : string) : TrimSuffix (a +:+ b) b = a.
Proof.
  unfold TrimSuffix, HasSuffix, String.rev.
  rewrite rev_app_app, (rev_app_append b (String.rev_app a EmptyString)), HasPrefix_app.
  rewrite length_append.
  replace (String.length a + String.length b - String.length b)%nat
    with (String.length a) by lia.
  apply sliceTo_app.
Qed.

Lemma extLoop_suffix (r : string) :
  forall acc, exists pre, String.rev_app r acc = pre +:+ extLoop r acc.
Proof.
  induction r as [|c r IH]; intros acc.
  - exists acc. simpl. symmetry. apply append_nil_r.
  - simpl. destruct (isSep c).
    + exists (String.rev_app r (String c acc)). symmetry. apply append_nil_r.
    + destruct (Ascii.eqb c "."%char).
      * exists (String.rev_app r EmptyString). apply rev_app_append.
      * apply IH.
Qed.

(** A name is its stem followed by its extension: stripExt removes
    exactly what filepath.Ext returns. *)
Theorem stripExt_then_Ext_is_name (name : string) :
  stripExt name +:+ Ext name = name.
Proof.
  unfold stripExt, Ext.
  destruct (extLoop_suffix (String.rev name) EmptyString) as [pre Hpre].
  fold (String.rev (String.rev name)) in Hpre. rewrite rev_rev in Hpre.
  remember (extLoop (String.rev name) EmptyString) as e eqn:He. clear He.
  subst name. rewrite TrimSuffix_app. reflexivity.
Qed.

Lemma Ext_vtt (stem : string) : Ext (stem +:+ ".vtt") = ".vtt".
Proof. unfold Ext, String.rev. rewrite rev_app_app. reflexivity. Qed.

(** The name and bytes an upload or download is stored with are stable:
    normalising them again changes nothing, because a converted subtitle
    is renamed to the extension .vtt and its bytes start with the WEBVTT
    header, and everything else is stored as it came. *)
Theorem normalizeUpload_is_idempotent (name content : string) :
  normalizeUpload (normalizeUpload name content).1 (normalizeUpload name content).2
  = normalizeUpload name content
  /\ (if streq (ToLower (Ext name)) ".srt"
      then Ext (normalizeUpload name content).1 = ".vtt"
           /\ stripExt (normalizeUpload name content).1 = stripExt name
           /\ isWebVTT (normalizeUpload name content).2 = true
      else normalizeUpload name content = (name, content)).
Proof.
  assert (Hn : normalizeUpload name content
               = if streq (ToLower (Ext name)) ".srt"
                 then (TrimSuffix name (Ext name) +:+ ".vtt", ConvertSRTtoVTT content)
                 else (name, content)) by reflexivity.
  destruct (streq (ToLower (Ext name)) ".srt") eqn:Hsrt; rewrite Hn; cbn [fst snd].
  - split; [|split; [apply Ext_vtt|split; [|reflexivity]]].
    + unfold normalizeUpload. rewrite Ext_vtt. reflexivity.
    + unfold stripExt at 1. rewrite Ext_vtt. apply TrimSuffix_app.
  - split; [|reflexivity]. unfold normalizeUpload. rewrite Hsrt. reflexivity.
Qed.

(** ** The converter and the last line *)

Lemma append_nil_l (s : string) : EmptyString +:+ s = s.
Proof. reflexivity. Qed.

Lemma scanTokens_final_newline (s : string) (c : ascii) :
  c <> LF ->
  forall cur,
    scanTokens ((s +:+ String c EmptyString) +:+ nl) cur
    = scanTokens (s +:+ String c EmptyString) cur.
Proof.
  intros Hc. induction s as [|a s IH]; intros cur.
  - rewrite append_nil_l, append_cons, append_nil_l. unfold nl. cbn [scanTokens].
    destruct (Ascii.eqb_spec c LF) as [E|_]; [contradiction|].
    replace (Ascii.eqb LF LF) with true by (symmetry; apply Ascii.eqb_refl).
    destruct (MaxScanTokenSize <=? N.of_nat (String.length (String c cur)))%N; reflexivity.
  - rewrite !append_cons. cbn [scanTokens].
    destruct (Ascii.eqb a LF); [|apply IH].
    destruct (MaxScanTokenSize <=? N.of_nat (String.length cur))%N; [reflexivity|].
    rewrite IH. reflexivity.
Qed.

Ltac norm_append := repeat (rewrite append_cons || rewrite append_nil_l).

Ltac case_bytes :=
  repeat match goal with
         | |- context [Ascii.eqb ?x ?y] => destruct (Ascii.eqb x y) eqn:?
         end.

Lemma TrimPrefix_BOM_final_newline (body : string) (c : ascii) :
  body +:+ String c EmptyString <> BOM ->
  exists s,
    TrimPrefix (body +:+ String c EmptyString) BOM = s +:+ String c EmptyString
    /\ TrimPrefix ((body +:+ String c EmptyString) +:+ nl) BOM
       = (s +:+ String c EmptyString) +:+ nl.
Proof.
  intros Hbom.
  destruct body as [|a [|b [|d s]]].
  - exists EmptyString. norm_append. unfold TrimPrefix, BOM, nl, LF. cbn.
    case_bytes; cbn; split; reflexivity.
  - exists (String a EmptyString). norm_append. unfold TrimPrefix, BOM, nl, LF. cbn.
    case_bytes; cbn; split; reflexivity.
  - exists (String a (String b EmptyString)). revert Hbom. norm_append.
    unfold TrimPrefix, BOM, nl, LF. cbn. intros Hbom.
    destruct (Ascii.eqb_spec a (byteOf 239)) as [->|_]; cbn; [|split; reflexivity].
    destruct (Ascii.eqb_spec b (byteOf 187)) as [->|_]; cbn; [|split; reflexivity].
    destruct (Ascii.eqb_spec c (byteOf 191)) as [->|_]; cbn; [|split; reflexivity].
    exfalso. apply Hbom. reflexivity.
  - norm_append. unfold TrimPrefix, BOM. cbn.
    destruct (Ascii.eqb a (byteOf 239)); cbn;
      [|exists (String a (String b (String d s))); norm_append; split; reflexivity].
    destruct (Ascii.eqb b (byteOf 187)); cbn;
      [|exists (String a (String b (String d s))); norm_append; split; reflexivity].
    destruct (Ascii.eqb d (byteOf 191)); cbn;
      [|exists (String a (String b (String d s))); norm_append; split; reflexivity].
    exists s. split; reflexivity.
Qed.

(** The newline after the last line is optional: an input that ends in a
    byte other than a newline (and is more than a lone byte-order mark)
    converts to the same output with and without a final newline. *)
Theorem ConvertSRTtoVTT_final_newline_optional (body : string) (c : ascii)
    (Hc : c <> LF)
    (Hbom : body +:+ String c EmptyString <> BOM) :
  ConvertSRTtoVTT ((body +:+ String c EmptyString) +:+ nl)
  = ConvertSRTtoVTT (body +:+ String c EmptyString).
Proof.
  unfold ConvertSRTtoVTT, scanLines.
  destruct (TrimPrefix_BOM_final_newline body c Hbom) as (s & -> & ->).
  rewrite (scanTokens_final_newline s c Hc). reflexivity.
Qed.

(** The fixture without its final newline. *)
Lemma ConvertSRTtoVTT_final_newline_witness :
  ConvertSRTtoVTT
    ((("1" +:+ nl +:+ "00:00:01,000 --> 00:00:04,000" +:+ nl +:+ "Hello worl")
      +:+ String "d"%char EmptyString) +:+ nl)
  = ConvertSRTtoVTT
      (("1" +:+ nl +:+ "00:00:01,000 --> 00:00:04,000" +:+ nl +:+ "Hello worl")
       +:+ String "d"%char EmptyString).
Proof.
  apply (ConvertSRTtoVTT_final_newline_optional
           ("1" +:+ nl +:+ "00:00:01,000 --> 00:00:04,000" +:+ nl +:+ "Hello worl")
           "d"%char).
  - discriminate.
  - vm_compute. discriminate.
Defined.

(** ** After a removal *)

(** Once a session is removed, every operation that names it answers
    "torrent not found" (404 from the handlers) and leaves the registry
    as it is. *)
Theorem removed_session_is_not_found (m : TorrentManager) (id : string)
    (fileIndex now : Z) (form : string + string * string)
    (Hid : id <> EmptyString) :
  GetTorrent (RemoveTorrent m id) id now = (RemoveTorrent m id, None)
  /\ SelectFile (RemoveTorrent m id) id fileIndex now
     = (RemoveTorrent m id, Err errNotFound)
  /\ handleSelectFile (RemoveTorrent m id) id (Some fileIndex) now
     = (RemoveTorrent m id, Failure StatusNotFound errNotFound)
  /\ handleStream (RemoveTorrent m id) id now
     = (RemoveTorrent m id, Failure StatusNotFound errNotFound)
  /\ handleSubtitle (RemoveTorrent m id) id fileIndex now
     = (RemoveTorrent m id, Err errNotFound)
  /\ handleUploadSubtitle (RemoveTorrent m id) id now form
     = (RemoveTorrent m id, Err errNotFound).
Proof.
  assert (Hnone : torrents (RemoveTorrent m id) !! id = None)
    by (rewrite RemoveTorrent_torrents; apply lookup_delete_eq).
  pose proof (GetTorrent_absent _ _ now Hnone) as Hg.
  split; [exact Hg|].
  unfold handleSelectFile, handleStream, handleSubtitle, handleUploadSubtitle,
    GetFileReader, SelectFile.
  rewrite (streq_nonempty id Hid), Hg. repeat split.
Qed.

Lemma removed_session_witness :
  GetTorrent (RemoveTorrent demoManager "aa11") "aa11" 9
  = (RemoveTorrent demoManager "aa11", None)
  /\ SelectFile (RemoveTorrent demoManager "aa11") "aa11" 0 9
     = (RemoveTorrent demoManager "aa11", Err errNotFound)
  /\ handleSelectFile (RemoveTorrent demoManager "aa11") "aa11" (Some 0) 9
     = (RemoveTorrent demoManager "aa11", Failure StatusNotFound errNotFound)
  /\ handleStream (RemoveTorrent demoManager "aa11") "aa11" 9
     = (RemoveTorrent demoManager "aa11", Failure StatusNotFound errNotFound)
  /\ handleSubtitle (RemoveTorrent demoManager "aa11") "aa11" 0 9
     = (RemoveTorrent demoManager "aa11", Err errNotFound)
  /\ handleUploadSubtitle (RemoveTorrent demoManager "aa11") "aa11" 9
       (inr ("mine.srt", fixtureSRT))
     = (RemoveTorrent demoManager "aa11", Err errNotFound).
Proof.
  apply (removed_session_is_not_found demoManager "aa11" 0 9
           (inr ("mine.srt", fixtureSRT))).
  discriminate.
Defined.
